(** * pdf-to-word: the conversion server, embedded and verified

    The development follows the latest revision of the server (the one with
    the graceful-shutdown flag, [cleanText] with its per-line trim and
    [safeFileCleanup]).  Part I embeds JavaScript strings and the regular
    expressions of the source and proves the properties of [cleanText];
    Part II embeds the request handlers as computations over an explicit
    world (shutdown flag, environment, file system, timers, response). *)

From Stdlib Require Import String Ascii DecimalString DecimalPos List NArith Bool Arith Lia.
Import ListNotations.


(* ===================================================================== *)
(** * Part I.  Strings and regular expressions                            *)
(* ===================================================================== *)

(** A JavaScript string is a sequence of UTF-16 code units.  None of the
    patterns of the source has the [u] flag, so matching works unit by
    unit. *)
Definition code := N.
Definition jstring := list code.

(** String literals of the source (all of them ASCII). *)
Definition lit (s : string) : jstring := map N_of_ascii (list_ascii_of_string s).

Definition TAB : code := 9%N.
Definition LF : code := 10%N.
Definition CR : code := 13%N.
Definition SP : code := 32%N.

(** The class of a single unit. *)
Definition chr (a c : code) : bool := N.eqb c a.

(** ECMAScript LineTerminator: LF, CR, LS (U+2028), PS (U+2029). *)
Definition isLineTerminator (c : code) : bool :=
  chr LF c || chr CR c || chr 8232%N c || chr 8233%N c.

(** ECMAScript WhiteSpace: TAB, VT, FF, SP, NBSP, ZWNBSP and the other
    space separators (category Zs). *)
Definition isWhiteSpace (c : code) : bool :=
  chr TAB c || chr 11%N c || chr 12%N c || chr SP c || chr 160%N c ||
  chr 5760%N c || (N.leb 8192 c && N.leb c 8202) || chr 8239%N c ||
  chr 8287%N c || chr 12288%N c || chr 65279%N c.

(** The class [\s] is WhiteSpace together with LineTerminator;
    [String.prototype.trim] strips exactly the same units. *)
Definition cls_s (c : code) : bool := isWhiteSpace c || isLineTerminator c.

(** The class [[ \t]]. *)
Definition cls_blank (c : code) : bool := chr SP c || chr TAB c.

(** The class [\d]. *)
Definition cls_d (c : code) : bool := N.leb 48 c && N.leb c 57.

(** The fragment of the pattern language the source uses: one unit of a
    class, a greedy repetition [p{n,}] of a class ([p+] is [p{1,}]), and the
    assertions [^] and [$]; a pattern is a disjunction of sequences. *)
Inductive term : Type :=
| One (p : code -> bool)
| AtLeast (n : nat) (p : code -> bool)
| Caret
| Dollar.

Record regex : Type := Regex {
  alternatives : list (list term);
  multiline : bool
}.

(** A matcher state is the unit before the current position ([None] at
    index 0) and the rest of the input.  A successful match returns the
    number of units it consumed. *)
Definition at_line_start (m : bool) (prev : option code) : bool :=
  match prev with
  | None => true
  | Some c => m && isLineTerminator c
  end.

Definition at_line_end (m : bool) (s : jstring) : bool :=
  match s with
  | [] => true
  | c :: _ => m && isLineTerminator c
  end.

(** Greedy repetition with backtracking (RepeatMatcher): take one more unit
    and go on; when everything after that fails and the minimum is reached,
    hand over to the continuation [k] here. *)
Fixpoint rep (p : code -> bool) (k : option code -> jstring -> option nat)
    (n : nat) (prev : option code) (s : jstring) {struct s} : option nat :=
  match s with
  | c :: s' =>
      if p c then
        match rep p k (pred n) (Some c) s' with
        | Some j => Some (S j)
        | None => match n with O => k prev s | S _ => None end
        end
      else match n with O => k prev s | S _ => None end
  | [] => match n with O => k prev s | S _ => None end
  end.

Fixpoint seq (m : bool) (ts : list term) (prev : option code) (s : jstring)
    {struct ts} : option nat :=
  match ts with
  | [] => Some O
  | One p :: ts' =>
      match s with
      | c :: s' => if p c then option_map S (seq m ts' (Some c) s') else None
      | [] => None
      end
  | AtLeast n p :: ts' => rep p (seq m ts') n prev s
  | Caret :: ts' => if at_line_start m prev then seq m ts' prev s else None
  | Dollar :: ts' => if at_line_end m s then seq m ts' prev s else None
  end.

(** A disjunction tries its alternatives from left to right. *)
Fixpoint alt (m : bool) (alts : list (list term)) (prev : option code)
    (s : jstring) : option nat :=
  match alts with
  | [] => None
  | a :: rest =>
      match seq m a prev s with
      | Some n => Some n
      | None => alt m rest prev s
      end
  end.

Definition exec_at (re : regex) (prev : option code) (s : jstring) : option nat :=
  alt (multiline re) (alternatives re) prev s.

(** [String.prototype.replace] with a global pattern and a constant
    replacement: scan from the left; at a match emit the replacement and
    resume after it ([skip] counts the matched units still to drop); an
    empty match advances by one unit, which is copied. *)
Fixpoint replace_from (re : regex) (by_ : jstring) (skip : nat)
    (prev : option code) (s : jstring) {struct s} : jstring :=
  match skip with
  | S k =>
      match s with
      | c :: s' => replace_from re by_ k (Some c) s'
      | [] => []
      end
  | O =>
      match exec_at re prev s with
      | Some (S k) =>
          by_ ++ match s with
                 | c :: s' => replace_from re by_ k (Some c) s'
                 | [] => []
                 end
      | Some O =>
          by_ ++ match s with
                 | c :: s' => c :: replace_from re by_ O (Some c) s'
                 | [] => []
                 end
      | None =>
          match s with
          | c :: s' => c :: replace_from re by_ O (Some c) s'
          | [] => []
          end
      end
  end.

Definition replace (re : regex) (by_ : jstring) (s : jstring) : jstring :=
  replace_from re by_ O None s.

(** [RegExp.prototype.test] for a pattern without the global flag: is there
    a match at some index. *)
Fixpoint search (re : regex) (prev : option code) (s : jstring) : bool :=
  match exec_at re prev s with
  | Some _ => true
  | None =>
      match s with
      | [] => false
      | c :: s' => search re (Some c) s'
      end
  end.

Definition test (re : regex) (s : jstring) : bool := search re None s.

(** [String.prototype.trim]. *)
Fixpoint trimStart (s : jstring) : jstring :=
  match s with
  | c :: s' => if cls_s c then trimStart s' else s
  | [] => []
  end.

Definition trimEnd (s : jstring) : jstring := rev (trimStart (rev s)).

Definition trim (s : jstring) : jstring := trimEnd (trimStart s).

(** [String.prototype.includes]. *)
Fixpoint starts_with (pat s : jstring) : bool :=
  match pat, s with
  | [], _ => true
  | a :: pat', c :: s' => N.eqb a c && starts_with pat' s'
  | _ :: _, [] => false
  end.

Fixpoint includes (s pat : jstring) : bool :=
  starts_with pat s ||
  match s with
  | [] => false
  | _ :: s' => includes s' pat
  end.

(** ** The patterns of the source *)

(** [/\r\n/g] *)
Definition re_crlf : regex := Regex [[One (chr CR); One (chr LF)]] false.
(** [/\r/g] *)
Definition re_cr : regex := Regex [[One (chr CR)]] false.
(** [/\n{3,}/g] *)
Definition re_blank_lines : regex := Regex [[AtLeast 3 (chr LF)]] false.
(** [/[ \t]{2,}/g] *)
Definition re_blanks : regex := Regex [[AtLeast 2 cls_blank]] false.
(** [/^\s+|\s+$/gm] *)
Definition re_edges : regex :=
  Regex [[Caret; AtLeast 1 cls_s]; [AtLeast 1 cls_s; Dollar]] true.
(** Literal text in a pattern: one single-unit class after the other. *)
Definition literal (pat : jstring) : list term := map (fun c => One (chr c)) pat.

(** [/^converted-\d+\.docx$/] *)
Definition re_filename : regex :=
  Regex [Caret :: literal (lit "converted-")
           ++ [AtLeast 1 cls_d]
           ++ literal (lit ".docx") ++ [Dollar]] false.

(** ** cleanText *)

(** What a caller may hand to [cleanText]: a string, or anything else
    ([undefined], [null], a number, an object). *)
Inductive value : Type :=
| VString (s : jstring)
| VOther.

Definition no_text_msg : jstring :=
  lit "No readable text found in this PDF document.".
Definition empty_doc_msg : jstring :=
  lit "Document appears to be empty or contains only images.".

Definition normalise (s : jstring) : jstring :=
  trim
    (replace re_edges []
      (replace re_blanks [SP]
        (replace re_blank_lines [LF; LF]
          (replace re_cr [LF]
            (replace re_crlf [LF] s))))).

Definition cleanText (text : value) : jstring :=
  match text with
  | VOther => no_text_msg
  | VString [] => no_text_msg
  | VString s =>
      match normalise s with
      | [] => empty_doc_msg
      | r => r
      end
  end.

(** The revision before the last one, on strings: no per-line trim and no
    fallback for a text that trims to nothing. *)
Module Earlier.

Definition cleanText (text : jstring) : jstring :=
  match text with
  | [] => lit "No text content found in PDF"
  | s =>
      trim
        (replace re_blanks [SP]
          (replace re_blank_lines [LF; LF]
            (replace re_cr [LF]
              (replace re_crlf [LF] s))))
  end.

End Earlier.

(** The properties the normaliser is specified by, as decidable checks. *)
Fixpoint prefix_len (p : code -> bool) (s : jstring) : nat :=
  match s with
  | c :: s' => if p c then S (prefix_len p s') else O
  | [] => O
  end.

(** [has_run p n s]: some [n] or more consecutive units of [s] are in [p]. *)
Fixpoint has_run (p : code -> bool) (n : nat) (s : jstring) : bool :=
  match s with
  | [] => false
  | _ :: s' => Nat.leb n (prefix_len p s) || has_run p n s'
  end.

Definition mem (a : code) (s : jstring) : bool := existsb (chr a) s.

(* ===================================================================== *)
(** * Part II.  The server                                                *)
(* ===================================================================== *)

Fixpoint str_eqb (a b : jstring) : bool :=
  match a, b with
  | [], [] => true
  | x :: a', y :: b' => N.eqb x y && str_eqb a' b'
  | _, _ => false
  end.

(** [Number.prototype.toString], as template literals apply it to
    [Date.now()]. *)
Definition decimal (n : N) : jstring :=
  lit (NilEmpty.string_of_uint (N.to_uint n)).

(** ** Data *)

(** An [Error] object: the [code] multer sets on its own errors, and the
    message. *)
Record error : Type := Error {
  err_code : option jstring;
  message : jstring
}.

(** The two directories of the server; [Path d b] is [path.join(d, b)]. *)
Inductive dir : Type := uploadsDir | outputDir.

Record path : Type := Path {
  dir_of : dir;
  base : jstring
}.

Definition dir_eqb (a b : dir) : bool :=
  match a, b with
  | uploadsDir, uploadsDir | outputDir, outputDir => true
  | _, _ => false
  end.

Definition path_eqb (p q : path) : bool :=
  dir_eqb (dir_of p) (dir_of q) && str_eqb (base p) (base q).

(** A file part of the multipart body, sent in the field [pdfFile]. *)
Record part : Type := Part {
  originalname : jstring;
  mimetype : jstring;
  size : N
}.

(** [req.file]: the part together with the place [diskStorage] wrote it. *)
Record file : Type := File {
  file_part : part;
  file_path : path
}.

Inductive timer : Type :=
| Cleanup (ms : N) (p : path)      (* setTimeout(() => safeFileCleanup(p), ms) *)
| ForceExit (ms : N).              (* setTimeout(() => process.exit(1), ms) *)

Record process_info : Type := ProcessInfo {
  timestamp : jstring;
  uptime : N;
  memory : N
}.

Inductive body : Type :=
| JsonError (error_text : jstring) (details : option jstring)
| JsonSuccess (message_text downloadUrl originalName : jstring)
| JsonHealth (status_text : jstring) (info : process_info)
| IndexPage.

Record response : Type := Response {
  status : N;
  content : body
}.

Inductive entry : Type :=
| Log (args : list jstring)
| LogError (args : list jstring).

(** The process-wide variables ([isShuttingDown], the environment, the two
    directories on disk, the pending timers), together with the activation
    of the handler that is running: its local [tempFilePath] and what it
    did to [res]. *)
Record state : Type := State {
  isShuttingDown : bool;
  NODE_ENV : option jstring;
  public_index : bool;          (* does public/index.html exist *)
  disk : list path;
  timers : list timer;
  console : list entry;
  tempFilePath : option path;
  sent : option response;       (* res.status(..).json(..) / res.sendFile *)
  streamed : option (path * jstring)   (* res.download(path, name, ..) *)
}.

(** ** Computations that may throw *)

Inductive outcome (A : Type) : Type :=
| Normal (a : A)
| Thrown (e : error).
Arguments Normal {A} a.
Arguments Thrown {A} e.

Definition M (A : Type) : Type := state -> outcome A * state.

Definition ret {A} (a : A) : M A := fun w => (Normal a, w).

Definition bind {A B} (m : M A) (k : A -> M B) : M B :=
  fun w =>
    match m w with
    | (Normal a, w') => k a w'
    | (Thrown e, w') => (Thrown e, w')
    end.

Definition throw {A} (e : error) : M A := fun w => (Thrown e, w).

(** [try { m } catch (e) { h e }] *)
Definition try_catch {A} (m : M A) (h : error -> M A) : M A :=
  fun w =>
    match m w with
    | (Normal a, w') => (Normal a, w')
    | (Thrown e, w') => h e w'
    end.

(** [try { m } finally { f }] *)
Definition try_finally {A} (m : M A) (f : M unit) : M A :=
  fun w =>
    match m w with
    | (r, w') =>
        match f w' with
        | (Normal _, w'') => (r, w'')
        | (Thrown e, w'') => (Thrown e, w'')
        end
    end.

Definition get : M state := fun w => (Normal w, w).
Definition modify (f : state -> state) : M unit := fun w => (Normal tt, f w).

Declare Scope js_scope.
Delimit Scope js_scope with js.
Notation "x <- m ;; k" := (bind m (fun x => k))
  (at level 61, m at next level, right associativity) : js_scope.
Notation "m ;; k" := (bind m (fun _ => k))
  (at level 61, right associativity) : js_scope.
Open Scope js_scope.

Definition set_shutting_down (b : bool) (w : state) : state :=
  State b (NODE_ENV w) (public_index w) (disk w) (timers w) (console w)
        (tempFilePath w) (sent w) (streamed w).
Definition set_disk (d : list path) (w : state) : state :=
  State (isShuttingDown w) (NODE_ENV w) (public_index w) d (timers w)
        (console w) (tempFilePath w) (sent w) (streamed w).
Definition set_timers (t : list timer) (w : state) : state :=
  State (isShuttingDown w) (NODE_ENV w) (public_index w) (disk w) t
        (console w) (tempFilePath w) (sent w) (streamed w).
Definition set_console (c : list entry) (w : state) : state :=
  State (isShuttingDown w) (NODE_ENV w) (public_index w) (disk w) (timers w)
        c (tempFilePath w) (sent w) (streamed w).
Definition set_tempFilePath (p : option path) (w : state) : state :=
  State (isShuttingDown w) (NODE_ENV w) (public_index w) (disk w) (timers w)
        (console w) p (sent w) (streamed w).
Definition set_sent (r : option response) (w : state) : state :=
  State (isShuttingDown w) (NODE_ENV w) (public_index w) (disk w) (timers w)
        (console w) (tempFilePath w) r (streamed w).
Definition set_streamed (s : option (path * jstring)) (w : state) : state :=
  State (isShuttingDown w) (NODE_ENV w) (public_index w) (disk w) (timers w)
        (console w) (tempFilePath w) (sent w) s.

(** [console.log], [console.error] *)
Definition log (args : list jstring) : M unit :=
  modify (fun w => set_console (console w ++ [Log args]) w).
Definition log_error (args : list jstring) : M unit :=
  modify (fun w => set_console (console w ++ [LogError args]) w).

(** [res.status(s).json(b)] *)
Definition send (s : N) (b : body) : M unit :=
  modify (set_sent (Some (Response s b))).

Definition setTimeout (t : timer) : M unit :=
  modify (fun w => set_timers (timers w ++ [t]) w).

(** A request arrives with a response object nothing was sent on. *)
Definition new_request : M unit :=
  modify (fun w => set_streamed None (set_sent None w)).

Definition existsSync (w : state) (p : path) : bool :=
  existsb (path_eqb p) (disk w).

(** ** The upload middleware *)

(** [limits: { fileSize: 10 * 1024 * 1024, files: 1 }] *)
Definition fileSize : N := 10 * 1024 * 1024.
Definition files : nat := 1.

(** [fileFilter]: [None] stands for [cb(null, true)]. *)
Definition fileFilter (f : part) : option error :=
  if str_eqb (mimetype f) (lit "application/pdf") then None
  else Some (Error None (lit "Only PDF files are allowed")).

Definition MulterError (c m : string) : error := Error (Some (lit c)) (lit m).

(** [upload.single('pdfFile')] over the file parts of the body, in the
    order they arrive: a part beyond the [files] limit aborts with
    [LIMIT_FILE_COUNT], a part the filter refuses aborts with the filter's
    error, a part larger than [fileSize] aborts with [LIMIT_FILE_SIZE];
    otherwise the part is stored under [stored] and becomes [req.file].
    The result is the error handed to the callback and [req.file].
    Here the body is one the parser reads to its end without an error of
    its own, and a part of exactly [fileSize] bytes is within the limit;
    [receive_of] below takes both as parameters. *)
Fixpoint receive (stored : jstring) (seen : nat) (accepted : option file)
    (parts : list part) : option error * option file :=
  match parts with
  | [] => (None, accepted)
  | p :: rest =>
      if Nat.leb files seen
      then (Some (MulterError "LIMIT_FILE_COUNT" "Too many files"), None)
      else match fileFilter p with
           | Some e => (Some e, None)
           | None =>
               if N.ltb fileSize (size p)
               then (Some (MulterError "LIMIT_FILE_SIZE" "File too large"), None)
               else receive stored (S seen)
                      (Some (File p (Path uploadsDir stored))) rest
           end
  end.

Definition upload_single (stored : jstring) (parts : list part)
  : option error * option file :=
  receive stored O None parts.

(** ** safeFileCleanup *)

(** [fs.unlinkSync]; [io p] is the exception the operating system raises
    for [p], if any. *)
Definition unlinkSync (io : path -> option error) (p : path) : M unit :=
  match io p with
  | Some e => throw e
  | None =>
      modify (fun w => set_disk (filter (fun q => negb (path_eqb p q)) (disk w)) w)
  end.

Definition safeFileCleanup (io : path -> option error) (filePath : option path)
  : M unit :=
  w <- get ;;
  match filePath with
  | Some p =>
      if existsSync w p then
        try_catch
          (unlinkSync io p ;;
           log [lit "File cleaned up:"; base p])
          (fun error => log_error [lit "Cleanup failed:"; message error])
      else ret tt
  | None => ret tt
  end.

(** What a pending timer does when it fires. *)
Definition fire (io : path -> option error) (t : timer) : M unit :=
  match t with
  | Cleanup _ p => safeFileCleanup io (Some p)
  | ForceExit _ => ret tt
  end.

(** ** gracefulShutdown and uncaught exceptions *)

(** The flag is raised, the server stops accepting connections
    ([server.close]) and the forced exit is armed. *)
Definition gracefulShutdown (signal : jstring) : M unit :=
  log [lit "Received " ++ signal ++ lit ". Starting graceful shutdown..."] ;;
  modify (set_shutting_down true) ;;
  setTimeout (ForceExit 10000).

(** A callback the event loop runs (a stream listener): an exception it
    throws has no enclosing [try] any more and reaches the
    [uncaughtException] handler of the process. *)
Definition as_listener (m : M unit) (w : state) : state :=
  match m w with
  | (Normal _, w') => w'
  | (Thrown e, w') =>
      snd ((log_error [lit "Uncaught Exception:"; message e] ;;
            gracefulShutdown (lit "UNCAUGHT_EXCEPTION")) w')
  end.

(** ** POST /convert *)

(** What the world outside decides during one conversion. *)
Record conv_env : Type := ConvEnv {
  now : N;                          (* Date.now() *)
  stored_as : jstring;              (* the name diskStorage chose *)
  parse : value + error             (* readFileSync and pdfParse: pdfData.text,
                                       or the exception either one throws *)
}.

Inductive stream_event : Type :=
| StreamClose
| StreamError (err : error).

(** The document handed to [docx.generate(output)], and the two listeners
    waiting on [output]. *)
Record writing : Type := Writing {
  outputFileName : jstring;
  source_name : jstring;
  extractedText : jstring
}.

Definition shutting_down_response : M unit :=
  send 503 (JsonError (lit "Server is shutting down") None).

Definition extraction_failed (pdfError : error) : jstring :=
  lit "Error extracting text from PDF: " ++ message pdfError ++ [LF; LF]
  ++ lit "This may be an image-based PDF or the file may be corrupted.".

(** Lines 151-164: the inner [try]/[catch]. *)
Definition extract (env : conv_env) : M jstring :=
  try_catch
    (match parse env with
     | inr e => throw e
     | inl text => ret (cleanText text)
     end)
    (fun pdfError =>
       log_error [lit "PDF parsing error:"; message pdfError] ;;
       ret (extraction_failed pdfError)).

Definition code_is (e : error) (c : jstring) : bool :=
  match err_code e with
  | Some c' => str_eqb c' c
  | None => false
  end.

Definition errorMessage (e : error) : jstring :=
  if code_is e (lit "LIMIT_FILE_SIZE")
  then lit "File too large. Maximum size is 10MB"
  else if includes (message e) (lit "Only PDF files")
  then lit "Please select a valid PDF file"
  else if includes (message e) (lit "No file uploaded")
  then lit "No file was uploaded"
  else lit "Failed to convert PDF".

(** [process.env.NODE_ENV === 'development'] *)
Definition development (w : state) : bool :=
  match NODE_ENV w with
  | Some v => str_eqb v (lit "development")
  | None => false
  end.

(** The outer [catch] block. *)
Definition conversion_failed (error : error) : M (option writing) :=
  log_error [lit "Conversion error:"; message error] ;;
  w <- get ;;
  send 400 (JsonError (errorMessage error)
              (if development w then Some (message error) else None)) ;;
  ret None.

(** The [finally] block. *)
Definition schedule_temp_cleanup : M unit :=
  w <- get ;;
  match tempFilePath w with
  | Some p => setTimeout (Cleanup 1000 p)
  | None => ret tt
  end.

(** [(n / 1024).toFixed(1)] for a size in bytes.  Below 2^53 the
    division by 1024 is exact in binary floating point, and [toFixed]
    rounds the exact value to one decimal, a tie going up. *)
Definition kilobytes (n : N) : jstring :=
  let tenths := ((10 * n + 512) / 1024)%N in
  decimal (tenths / 10) ++ lit "." ++ decimal (tenths mod 10).

(** The callback given to [upload.single('pdfFile')(req, res, ..)].  It
    ends when [docx.generate(output)] has been started; the paragraphs of
    the document are not modelled. *)
Definition convert_callback (uploadError : option error)
    (req_file : option file) (env : conv_env) : M (option writing) :=
  modify (set_tempFilePath None) ;;
  try_finally
    (try_catch
       (match uploadError with
        | Some e => throw e
        | None => ret tt
        end ;;
        match req_file with
        | None => throw (Error None (lit "No file uploaded"))
        | Some f =>
            modify (set_tempFilePath (Some (file_path f))) ;;
            log [lit "Converting:"; originalname (file_part f);
                 lit "(" ++ kilobytes (size (file_part f)) ++ lit "KB)"] ;;
            text <- extract env ;;
            ret (Some (Writing (lit "converted-" ++ decimal (now env) ++ lit ".docx")
                               (originalname (file_part f)) text))
        end)
       conversion_failed)
    schedule_temp_cleanup.

(** [upload.single('pdfFile')(req, res, callback)]: the middleware stores
    what it accepts and calls back. *)
Definition upload_and_convert (parts : list part) (env : conv_env)
  : M (option writing) :=
  match upload_single (stored_as env) parts with
  | (uploadError, req_file) =>
      match req_file with
      | Some f => modify (fun w => set_disk (file_path f :: disk w) w)
      | None => ret tt
      end ;;
      convert_callback uploadError req_file env
  end.

Definition post_convert (parts : list part) (env : conv_env)
  : M (option writing) :=
  new_request ;;
  w <- get ;;
  if isShuttingDown w then shutting_down_response ;; ret None
  else upload_and_convert parts env.

(** The listeners on [output]: ['error'] throws, ['close'] answers. *)
Definition output_event (ev : stream_event) (d : writing) : M unit :=
  match ev with
  | StreamError err =>
      throw (Error None (lit "Failed to write document: " ++ message err))
  | StreamClose =>
      log [lit "Conversion completed successfully"] ;;
      send 200 (JsonSuccess (lit "PDF converted successfully")
                  (lit "/download/" ++ outputFileName d) (source_name d))
  end.

(** What the end of the write makes of a handler that has returned. *)
Definition finish (ev : stream_event) (r : outcome (option writing) * state)
  : state :=
  match r with
  | (Normal (Some d), w') => as_listener (output_event ev d) w'
  | (_, w') => w'
  end.

(** One conversion from the request to the end of the write. *)
Definition conversion (parts : list part) (env : conv_env) (ev : stream_event)
    (w : state) : state :=
  finish ev (post_convert parts env w).

(** ** What the source leaves to the upload library *)

(** multer is not part of the repository and its version is not pinned.
    Two things the handler meets depend on it.  Whether a part of exactly
    [fileSize] bytes is over the limit: depending on its version the
    parser stops a file that grows beyond the limit, or one that reaches
    it.  And the errors of the parser itself (a body that ends too early,
    a file in another field, ...), which the middleware hands to the
    callback like the three above.  The definitions that follow take both
    as parameters: [strict] says that reaching the limit is too much, and
    the body says which error the parser raises, if any. *)

(** The body of a request as the middleware reads it: the file parts of
    the field [pdfFile], in order, and the error the parser itself raises,
    if any, with the number of file parts it has handed over before. *)
Record multipart : Type := Multipart {
  file_parts : list part;
  fault : option (nat * error)
}.

Definition over_limit (strict : bool) (n : N) : bool :=
  if strict then N.leb fileSize n else N.ltb fileSize n.

(** The error of the parser, once [seen] parts have been handed over. *)
Definition raised (fault : option (nat * error)) (seen : nat) : option error :=
  match fault with
  | Some (after, e) => if Nat.leb after seen then Some e else None
  | None => None
  end.

(** [receive] with these two parameters: the first error wins, whether it
    comes from the parser or from a check on a part; an error of the
    parser that has not come before the last part comes at the end. *)
Fixpoint receive_of (strict : bool) (stored : jstring)
    (fault : option (nat * error)) (seen : nat) (accepted : option file)
    (parts : list part) : option error * option file :=
  match parts with
  | [] =>
      match fault with
      | Some (_, e) => (Some e, None)
      | None => (None, accepted)
      end
  | p :: rest =>
      match raised fault seen with
      | Some e => (Some e, None)
      | None =>
          if Nat.leb files seen
          then (Some (MulterError "LIMIT_FILE_COUNT" "Too many files"), None)
          else match fileFilter p with
               | Some e => (Some e, None)
               | None =>
                   if over_limit strict (size p)
                   then (Some (MulterError "LIMIT_FILE_SIZE" "File too large"),
                         None)
                   else receive_of strict stored fault (S seen)
                          (Some (File p (Path uploadsDir stored))) rest
               end
      end
  end.

Definition upload_single_of (strict : bool) (stored : jstring)
    (body : multipart) : option error * option file :=
  receive_of strict stored (fault body) O None (file_parts body).

Definition upload_and_convert_of (strict : bool) (body : multipart)
    (env : conv_env) : M (option writing) :=
  match upload_single_of strict (stored_as env) body with
  | (uploadError, req_file) =>
      match req_file with
      | Some f => modify (fun w => set_disk (file_path f :: disk w) w)
      | None => ret tt
      end ;;
      convert_callback uploadError req_file env
  end.

Definition post_convert_of (strict : bool) (body : multipart)
    (env : conv_env) : M (option writing) :=
  new_request ;;
  w <- get ;;
  if isShuttingDown w then shutting_down_response ;; ret None
  else upload_and_convert_of strict body env.

Definition conversion_of (strict : bool) (body : multipart) (env : conv_env)
    (ev : stream_event) (w : state) : state :=
  finish ev (post_convert_of strict body env w).

(** ** GET /download/:filename *)

Definition get_download (filename : jstring) (clock : N)
  : M (option (path * jstring)) :=
  new_request ;;
  w <- get ;;
  if isShuttingDown w then shutting_down_response ;; ret None
  else if negb (test re_filename filename)
  then send 400 (JsonError (lit "Invalid filename") None) ;; ret None
  else
    let filePath := Path outputDir filename in
    if negb (existsSync w filePath)
    then send 404 (JsonError (lit "File not found or expired") None) ;; ret None
    else
      let downloadName := lit "document-" ++ decimal clock ++ lit ".docx" in
      modify (set_streamed (Some (filePath, downloadName))) ;;
      ret (Some (filePath, downloadName)).

(** The callback of [res.download]; [headersSent] is [res.headersSent] at
    the time it runs. *)
Definition download_callback (d : path * jstring) (err : option error)
    (headersSent : bool) : M unit :=
  match err with
  | Some e =>
      log_error [lit "Download error:"; message e] ;;
      if negb headersSent
      then send 500 (JsonError (lit "Download failed") None)
      else ret tt
  | None =>
      log [lit "File downloaded:"; snd d] ;;
      setTimeout (Cleanup 120000 (fst d))
  end.

(** ** The other handlers *)

Definition get_health (info : process_info) : M unit :=
  send 200 (JsonHealth (lit "OK") info).

(** The error-handling middleware. *)
Definition error_middleware (e : error) (isMulterError headersSent : bool)
  : M unit :=
  log_error [lit "Express error:"; message e] ;;
  if headersSent then ret tt
  else if isMulterError && code_is e (lit "LIMIT_FILE_SIZE")
  then send 400 (JsonError (lit "File too large (max 10MB)") None)
  else send 500 (JsonError (lit "Internal server error") None).

(** [res.sendFile] hands a missing file to the error middleware. *)
Definition get_root : M unit :=
  w <- get ;;
  if isShuttingDown w then shutting_down_response
  else if public_index w then send 200 IndexPage
  else error_middleware (Error (Some (lit "ENOENT")) (lit "no such file")) false false.

Definition not_found : M unit := send 404 (JsonError (lit "Not found") None).

(** ** The application: middleware and routes in registration order *)

(** [PUT] stands for any method no route is registered for. *)
Inductive method : Type := GET | POST | PUT.

Inductive target : Type :=
| Root                          (* / *)
| Health                        (* /health *)
| Convert                       (* /convert *)
| Download (filename : jstring) (* /download/:filename *)
| Elsewhere.                    (* a path no route is registered for and
                                   public/ holds no file for *)

Record request : Type := Request {
  req_method : method;
  req_target : target;
  req_parts : list part
}.

Record surroundings : Type := Surroundings {
  conv : conv_env;
  info_now : process_info
}.

Inductive pending : Type :=
| Finished
| AwaitWrite (d : writing)
| AwaitDownload (d : path * jstring).

(** [express.static('public')] is registered before every route.  Of the
    paths the routes use it can answer only [/], with [public/index.html]
    when that file exists; otherwise it passes the request on. *)
Definition static_serves (w : state) (req : request) : bool :=
  match req_method req, req_target req with
  | GET, Root => public_index w
  | _, _ => false
  end.

(** What the handlers do with a request.  The middleware of lines 33-41
    only sets a timeout of thirty seconds on the socket of the response
    and passes the request on; what it answers when that time runs out
    (408, if nothing was sent) is not part of [app]. *)
Definition app (req : request) (sur : surroundings) : M pending :=
  new_request ;;
  w <- get ;;
  if static_serves w req then send 200 IndexPage ;; ret Finished
  else
    match req_method req, req_target req with
    | GET, Health => get_health (info_now sur) ;; ret Finished
    | GET, Root => get_root ;; ret Finished
    | POST, Convert =>
        r <- post_convert (req_parts req) (conv sur) ;;
        ret (match r with Some d => AwaitWrite d | None => Finished end)
    | GET, Download filename =>
        r <- get_download filename (now (conv sur)) ;;
        ret (match r with Some d => AwaitDownload d | None => Finished end)
    | _, _ => not_found ;; ret Finished
    end.

(* ===================================================================== *)
(** * Auxiliary notions used in the proofs                                *)
(* ===================================================================== *)

(** The unit before the position reached after reading [l]. *)
Definition lastc (prev : option code) (l : jstring) : option code :=
  fold_left (fun _ c => Some c) l prev.

(** The continuation of a repetition that is followed by [$] alone. *)
Definition line_end (m : bool) (_ : option code) (t : jstring) : option nat :=
  if at_line_end m t then Some O else None.

(** [quiet re prev s]: the pattern matches at no index of [s]. *)
Fixpoint quiet (re : regex) (prev : option code) (s : jstring) : Prop :=
  exec_at re prev s = None /\
  match s with
  | [] => True
  | c :: s' => quiet re (Some c) s'
  end.

(** Edge-clean strings: no white space at either end, none next to a line
    terminator.  [tidy a z] reads [z] with [a] as the unit kept before it. *)
Definition pair_ok (a : option code) (b : code) : bool :=
  match a with
  | None => negb (cls_s b)
  | Some a =>
      negb (isLineTerminator a && cls_s b) && negb (cls_s a && isLineTerminator b)
  end.

Definition end_ok (a : option code) : bool :=
  match a with
  | None => true
  | Some a => negb (cls_s a)
  end.

Fixpoint tidy (a : option code) (z : jstring) : bool :=
  match z with
  | [] => end_ok a
  | b :: z' => pair_ok a b && tidy (Some b) z'
  end.

(** A run of white space without line terminators, then a solid unit. *)
Fixpoint soft_lead (s : jstring) : bool :=
  match s with
  | [] => false
  | c :: s' =>
      if cls_s c then negb (isLineTerminator c) && soft_lead s' else true
  end.

Definition starts_solid (s : jstring) : bool :=
  match s with
  | c :: _ => negb (cls_s c)
  | [] => false
  end.

Definition has_solid (s : jstring) : bool :=
  existsb (fun c => negb (cls_s c)) s.

(** What the scan of [re_edges] knows about the rest of the input, given
    the last unit it kept. *)
Definition edge_inv (lastk prev : option code) (s : jstring) : Prop :=
  match lastk with
  | None => prev = None \/ s = [] \/ starts_solid s = true
  | Some a =>
      if cls_s a then
        if isLineTerminator a
        then starts_solid s = true \/ (prev = Some a /\ has_solid s = true)
        else at_line_start true prev = false /\ soft_lead s = true
      else True
  end.

(** No two blanks side by side, reading [z] after the kept unit [a]. *)
Definition blank_before (a : option code) : bool :=
  match a with
  | None => false
  | Some a => cls_blank a
  end.

Fixpoint spaced (a : option code) (z : jstring) : bool :=
  match z with
  | [] => true
  | b :: z' => negb (blank_before a && cls_blank b) && spaced (Some b) z'
  end.

Definition head_not_blank (s : jstring) : bool :=
  match s with
  | [] => true
  | c :: _ => negb (cls_blank c)
  end.

Definition no_cr (s : jstring) : Prop := Forall (fun c => chr CR c = false) s.

(** ** Notions the statements about the server use *)

Definition pdf_type : jstring := lit "application/pdf".

(** The four reasons for which a submission is refused. *)
Definition refused (parts : list part) : Prop :=
  parts = [] \/
  (exists p, In p parts /\ mimetype p <> pdf_type) \/
  (exists p, In p parts /\ (fileSize < size p)%N) \/
  1 < length parts.

(** A part of exactly the size of the limit. *)
Definition at_the_limit (parts : list part) : Prop :=
  exists p, In p parts /\ size p = fileSize.

(** The shape [converted-<digits>.docx], in the words of the
    specification. *)
Definition converted_name (filename : jstring) : Prop :=
  exists digits,
    digits <> [] /\ forallb cls_d digits = true /\
    filename = lit "converted-" ++ digits ++ lit ".docx".

Definition is_json_error (r : option response) : Prop :=
  exists s e d, r = Some (Response s (JsonError e d)) /\ (400 <= s)%N.

(** What the catch block of the conversion looks at in an error. *)
Definition error_class (e : error) : bool * bool * bool :=
  (code_is e (lit "LIMIT_FILE_SIZE"),
   includes (message e) (lit "Only PDF files"),
   includes (message e) (lit "No file uploaded")).

(** The timers a step added. *)
Definition added (before after : state) (ts : list timer) : Prop :=
  timers after = timers before ++ ts.

Definition targets_output (t : timer) : bool :=
  match t with
  | Cleanup _ p => dir_eqb (dir_of p) outputDir
  | ForceExit _ => false
  end.

(** ** Sample inputs *)

Definition idle : state :=
  State false (Some (lit "production")) true [] [] [] None None None.

Definition closing : state :=
  State true (Some (lit "production")) true [] [] [] None None None.

Definition report_pdf : part := Part (lit "report.pdf") pdf_type 2048.
Definition picture_png : part := Part (lit "picture.png") (lit "image/png") 2048.

Definition readable : conv_env :=
  ConvEnv 1700000000000 (lit "pdfFile-1700000000000-42.pdf")
    (inl (VString (lit "Hello"))).

Definition unreadable : conv_env :=
  ConvEnv 1700000000000 (lit "pdfFile-1700000000000-42.pdf")
    (inr (Error None (lit "Invalid PDF structure"))).

Definition ten_megabytes_pdf : part := Part (lit "big.pdf") pdf_type 10485760.

(** A body that ends before its closing boundary, after one file part. *)
Definition cut_short : multipart :=
  Multipart [report_pdf] (Some (1, Error None (lit "Unexpected end of form"))).

Definition disk_full : error := Error (Some (lit "ENOSPC")) (lit "no space left on device").

Definition no_io_error (_ : path) : option error := None.

Definition development_mode : state :=
  State false (Some (lit "development")) true [] [] [] None None None.

(** The file-name pattern read as a sequence of checks. *)
Definition is_nil (s : jstring) : bool :=
  match s with
  | [] => true
  | _ :: _ => false
  end.

Definition filename_ok (s : jstring) : bool :=
  let s1 := skipn 10 s in
  let n := prefix_len cls_d s1 in
  starts_with (lit "converted-") s && Nat.leb 1 n &&
  starts_with (lit ".docx") (skipn n s1) && is_nil (skipn 5 (skipn n s1)).

(** Unfolding the handlers down to the state they produce. *)
Ltac run :=
  unfold conversion, finish, post_convert, upload_and_convert,
    convert_callback, schedule_temp_cleanup, conversion_failed,
    extract, output_event,
    as_listener, gracefulShutdown, shutting_down_response, get_download,
    download_callback, get_root, get_health, error_middleware, not_found,
    try_finally, try_catch, bind, ret, throw, get, modify, send, log,
    log_error, setTimeout, new_request in *;
  simpl in *.


(* ===================================================================== *)
(** * Part III.  The text, the document, the page and the process         *)
(* ===================================================================== *)

(** ** What the normaliser keeps *)

(** The units [\s] does not match: what a reader sees of a text. *)
Definition solid (c : code) : bool := negb (cls_s c).

Definition visible (s : jstring) : jstring := filter solid s.

(** A pattern all of whose matches lie inside the input and hold white
    space only. *)
Definition matches_space (re : regex) : Prop :=
  forall prev s n,
    exec_at re prev s = Some n ->
    n <= length s /\ forallb cls_s (firstn n s) = true.

(** A pattern that can only start at a unit of the class [p]. *)
Definition starts_in (re : regex) (p : code -> bool) : Prop :=
  forall prev c s, p c = false -> exec_at re prev (c :: s) = None.

Definition outside (p : code -> bool) (l : jstring) : bool :=
  forallb (fun c => negb (p c)) l.

(** ** The paragraphs of the document (lines 166-208) *)

(** [String.prototype.split] with a separator string that is not empty:
    the pieces between its occurrences, found from left to right.
    [piece] is the piece being read, [skip] the units of a separator still
    to pass. *)
Fixpoint split_from (sep : jstring) (skip : nat) (piece s : jstring)
  : list jstring :=
  match s with
  | [] => [piece]
  | c :: s' =>
      match skip with
      | S k => split_from sep k piece s'
      | O =>
          if starts_with sep s
          then piece :: split_from sep (pred (length sep)) [] s'
          else split_from sep O (piece ++ [c]) s'
      end
  end.

Definition split (s sep : jstring) : list jstring := split_from sep O [] s.

(** The options of [addText]. *)
Record text_options : Type := TextOptions {
  bold : bool;
  italic : bool;
  font_size : N;
  color : option jstring
}.

Inductive filling : Type :=
| AddText (text : jstring) (options : text_options)
| AddLineBreak.

(** [docx.createP(..)] followed by the one call made on it. *)
Record para : Type := Para {
  align : option jstring;
  filled_with : filling
}.

Definition body_options : text_options := TextOptions false false 11 None.

(** Lines 199-208: one paragraph for each piece between two line feeds in
    a row; a piece that trims to nothing gives a line break. *)
Definition body_paragraph (paragraph : jstring) : para :=
  match trim paragraph with
  | [] => Para None AddLineBreak
  | t => Para None (AddText t body_options)
  end.

Definition text_paragraphs (extractedText : jstring) : list para :=
  map body_paragraph (split extractedText [LF; LF]).

(** Lines 183-208: heading, source line, a line break, then the text. *)
Definition document (d : writing) : list para :=
  [ Para (Some (lit "center"))
      (AddText (lit "PDF to Word Conversion")
         (TextOptions true false 16 (Some (lit "2F5496"))));
    Para (Some (lit "center"))
      (AddText (lit "Source: " ++ source_name d)
         (TextOptions false true 10 (Some (lit "808080"))));
    Para None AddLineBreak ]
  ++ text_paragraphs (extractedText d).

Definition shown (p : para) : jstring :=
  match filled_with p with
  | AddText t _ => t
  | AddLineBreak => []
  end.

(** ** The earlier revision of [cleanText] *)

(** Every run of units of [p] in [z] is shorter than [k], [seen] units of
    [p] standing just before [z]. *)
Fixpoint short_runs (p : code -> bool) (k seen : nat) (z : jstring) : bool :=
  match z with
  | [] => true
  | c :: z' =>
      if p c then Nat.ltb (S seen) k && short_runs p k (S seen) z'
      else short_runs p k 0 z'
  end.

(** No white space at either end. *)
Definition ends_clean (z : jstring) : bool :=
  match z with
  | [] => true
  | c :: _ => solid c
  end &&
  match rev z with
  | [] => true
  | c :: _ => solid c
  end.

(** ** The page (public/script.js) *)

Module Client.

(** The elements the script shows and hides, its two variables, and what
    it has asked of the browser: the requests sent with [fetch], the
    settlements and timers still to come, the addresses assigned to
    [window.location.href].  The size label, the progress bar and the
    [dragover] class are left out.  A [File] of the browser is the [part]
    the server receives: name, type and size. *)
Record page : Type := Page {
  selectedFile : option part;
  downloadUrl : option jstring;
  fileName : jstring;               (* fileName.textContent *)
  uploadArea : bool;                (* displayed or not *)
  fileInfo : bool;
  convertBtn_disabled : bool;
  progressSection : bool;
  downloadSection : bool;
  errorShown : bool;                (* errorMessage.style.display *)
  errorText : jstring;
  fetched : list part;              (* bodies of the POST /convert sent *)
  awaited : nat;                    (* fetches not settled yet *)
  pending_timers : nat;             (* setTimeout(.., 1000) not fired yet *)
  location : list jstring           (* window.location.href = .. *)
}.

Definition set_selectedFile (v : option part) (g : page) : page :=
  Page v (downloadUrl g) (fileName g) (uploadArea g) (fileInfo g)
       (convertBtn_disabled g) (progressSection g) (downloadSection g)
       (errorShown g) (errorText g) (fetched g) (awaited g)
       (pending_timers g) (location g).
Definition set_downloadUrl (v : option jstring) (g : page) : page :=
  Page (selectedFile g) v (fileName g) (uploadArea g) (fileInfo g)
       (convertBtn_disabled g) (progressSection g) (downloadSection g)
       (errorShown g) (errorText g) (fetched g) (awaited g)
       (pending_timers g) (location g).
Definition set_fileName (v : jstring) (g : page) : page :=
  Page (selectedFile g) (downloadUrl g) v (uploadArea g) (fileInfo g)
       (convertBtn_disabled g) (progressSection g) (downloadSection g)
       (errorShown g) (errorText g) (fetched g) (awaited g)
       (pending_timers g) (location g).
Definition set_uploadArea (v : bool) (g : page) : page :=
  Page (selectedFile g) (downloadUrl g) (fileName g) v (fileInfo g)
       (convertBtn_disabled g) (progressSection g) (downloadSection g)
       (errorShown g) (errorText g) (fetched g) (awaited g)
       (pending_timers g) (location g).
Definition set_fileInfo (v : bool) (g : page) : page :=
  Page (selectedFile g) (downloadUrl g) (fileName g) (uploadArea g) v
       (convertBtn_disabled g) (progressSection g) (downloadSection g)
       (errorShown g) (errorText g) (fetched g) (awaited g)
       (pending_timers g) (location g).
Definition set_convertBtn_disabled (v : bool) (g : page) : page :=
  Page (selectedFile g) (downloadUrl g) (fileName g) (uploadArea g)
       (fileInfo g) v (progressSection g) (downloadSection g)
       (errorShown g) (errorText g) (fetched g) (awaited g)
       (pending_timers g) (location g).
Definition set_progressSection (v : bool) (g : page) : page :=
  Page (selectedFile g) (downloadUrl g) (fileName g) (uploadArea g)
       (fileInfo g) (convertBtn_disabled g) v (downloadSection g)
       (errorShown g) (errorText g) (fetched g) (awaited g)
       (pending_timers g) (location g).
Definition set_downloadSection (v : bool) (g : page) : page :=
  Page (selectedFile g) (downloadUrl g) (fileName g) (uploadArea g)
       (fileInfo g) (convertBtn_disabled g) (progressSection g) v
       (errorShown g) (errorText g) (fetched g) (awaited g)
       (pending_timers g) (location g).
Definition set_error (shown : bool) (text : jstring) (g : page) : page :=
  Page (selectedFile g) (downloadUrl g) (fileName g) (uploadArea g)
       (fileInfo g) (convertBtn_disabled g) (progressSection g)
       (downloadSection g) shown text (fetched g) (awaited g)
       (pending_timers g) (location g).
Definition set_browser (f : list part) (a t : nat) (l : list jstring)
    (g : page) : page :=
  Page (selectedFile g) (downloadUrl g) (fileName g) (uploadArea g)
       (fileInfo g) (convertBtn_disabled g) (progressSection g)
       (downloadSection g) (errorShown g) (errorText g) f a t l.

Definition showProgress : page -> page := set_progressSection true.
Definition hideProgress : page -> page := set_progressSection false.
Definition showDownload : page -> page := set_downloadSection true.
Definition hideDownload : page -> page := set_downloadSection false.
Definition showError (message : jstring) : page -> page := set_error true message.
Definition hideError (g : page) : page := set_error false (errorText g) g.

(** Lines 85-107. *)
Definition handleFile (file : part) (g : page) : page :=
  if negb (str_eqb (mimetype file) (lit "application/pdf"))
  then showError (lit "Please select only PDF files") g
  else if N.ltb (10 * 1024 * 1024) (size file)
  then showError (lit "File is too large. Maximum size allowed is 10MB") g
  else
    hideDownload (hideProgress (hideError
      (set_convertBtn_disabled false
        (set_fileInfo true
          (set_uploadArea false
            (set_fileName (originalname file)
              (set_selectedFile (Some file) g))))))).

(** Lines 109-132, up to the call of [fetch]; [file] is [selectedFile]. *)
Definition convertFile (file : part) (g : page) : page :=
  let g := hideDownload (hideError (showProgress
             (set_convertBtn_disabled true g))) in
  set_browser (fetched g ++ [file]) (S (awaited g)) (pending_timers g)
    (location g) g.

(** What [response.json()] makes of a body: the three fields the script
    reads, [None] where the field is missing. *)
Record data : Type := Data {
  success : bool;
  data_downloadUrl : option jstring;
  error : option jstring
}.

(** [None]: the body is not JSON and the promise is rejected. *)
Definition json (b : body) : option data :=
  match b with
  | JsonError e _ => Some (Data false None (Some e))
  | JsonSuccess _ u _ => Some (Data true (Some u) None)
  | JsonHealth _ _ => Some (Data false None None)
  | IndexPage => None
  end.

(** [a || b] on strings that may be missing. *)
Definition or_else (a : option jstring) (b : jstring) : jstring :=
  match a with
  | Some (c :: s) => c :: s
  | _ => b
  end.

(** Lines 134-149 and 156-158: the second [then], and [finally]. *)
Definition fulfilled (d : data) (g : page) : page :=
  let g :=
    if success d
    then set_browser (fetched g) (awaited g) (S (pending_timers g))
           (location g) (set_downloadUrl (data_downloadUrl d) g)
    else showError (or_else (error d) (lit "Error converting file"))
           (hideProgress g) in
  set_convertBtn_disabled false g.

(** Lines 150-158: [catch], and [finally]. *)
Definition rejected (g : page) : page :=
  set_convertBtn_disabled false
    (showError (lit "Error connecting to server") (hideProgress g)).

Inductive event : Type :=
| Change (files : list part)        (* the file input changes *)
| Drop (files : list part)          (* files are dropped on the area *)
| RemoveClick
| ConvertClick
| DownloadClick
| Fulfilled (d : data)              (* a fetch is answered with JSON *)
| Rejected                          (* a fetch fails, or its body is no JSON *)
| SecondPassed.                     (* the timer of the success branch fires *)

Definition on (e : event) (g : page) : page :=
  match e with
  | Change files =>
      match files with
      | file :: _ => handleFile file g
      | [] => g
      end
  | Drop files =>
      match files with
      | file :: _ =>
          if str_eqb (mimetype file) (lit "application/pdf")
          then handleFile file g
          else showError (lit "Please select only PDF files") g
      | [] => g
      end
  | RemoveClick =>
      hideDownload (hideProgress (hideError
        (set_convertBtn_disabled true
          (set_uploadArea true
            (set_fileInfo false
              (set_selectedFile None g))))))
  | ConvertClick =>
      match selectedFile g with
      | Some file => convertFile file g
      | None => g
      end
  | DownloadClick =>
      match downloadUrl g with
      | Some (c :: u) =>
          set_browser (fetched g) (awaited g) (pending_timers g)
            (location g ++ [c :: u]) g
      | _ => g
      end
  | Fulfilled d =>
      match awaited g with
      | S n =>
          fulfilled d
            (set_browser (fetched g) n (pending_timers g) (location g) g)
      | O => g
      end
  | Rejected =>
      match awaited g with
      | S n =>
          rejected
            (set_browser (fetched g) n (pending_timers g) (location g) g)
      | O => g
      end
  | SecondPassed =>
      match pending_timers g with
      | S n =>
          showDownload (hideProgress
            (set_browser (fetched g) (awaited g) n (location g) g))
      | O => g
      end
  end.

Definition after (es : list event) (g : page) : page :=
  fold_left (fun g e => on e g) es g.

(** The script has just been loaded: nothing chosen, nothing asked. *)
Definition loaded (g : page) : Prop :=
  selectedFile g = None /\ downloadUrl g = None /\ fetched g = [] /\
  awaited g = 0 /\ pending_timers g = 0 /\ location g = [].

(** The file passes both checks of [handleFile]. *)
Definition passes (f : part) : bool :=
  str_eqb (mimetype f) (lit "application/pdf") &&
  negb (N.ltb (10 * 1024 * 1024) (size f)).

(** The answer comes from the conversion route of the server. *)
Definition from_server (d : data) : Prop :=
  exists parts env ev w s b,
    sent (conversion parts env ev w) = Some (Response s b) /\ json b = Some d.

End Client.

(** ** The server over time *)

(** The process between two callbacks: its variables, the documents being
    written, the downloads being streamed, and whether [process.exit] was
    called.  The timers of [st] are those armed with [setTimeout]; the
    timeout lines 33-41 set on the socket of every response is not among
    them, and its expiry is not among the happenings. *)
Record server : Type := Server {
  st : state;
  writes : list writing;
  downloads : list (path * jstring);
  exited : bool
}.

Inductive happening : Type :=
| Arrives (req : request) (sur : surroundings)
| WriteEnds (n : nat) (ev : stream_event)      (* of the [n]-th document *)
| DownloadEnds (n : nat) (err : option error) (headersSent : bool)
| TimerFires (n : nat) (io : path -> option error)
| Signal (name : jstring)                      (* SIGTERM, SIGINT, SIGHUP *)
| ConnectionsClosed.                           (* the callback of [server.close] *)

Definition remove_nth {A} (n : nat) (l : list A) : list A :=
  firstn n l ++ skipn (S n) l.

Definition is_some {A} (o : option A) : bool :=
  match o with
  | Some _ => true
  | None => false
  end.

(** [fs.createWriteStream(outputPath)]: when the stream closes the
    document is on disk. *)
Definition created (ev : stream_event) (d : writing) (w : state) : state :=
  match ev with
  | StreamClose => set_disk (Path outputDir (outputFileName d) :: disk w) w
  | StreamError _ => w
  end.

Definition step (h : happening) (s : server) : server :=
  if exited s then s
  else
    match h with
    | Arrives req sur =>
        match app req sur (st s) with
        | (Normal Finished, w) => Server w (writes s) (downloads s) false
        | (Normal (AwaitWrite d), w) =>
            Server w (writes s ++ [d]) (downloads s) false
        | (Normal (AwaitDownload d), w) =>
            Server w (writes s) (downloads s ++ [d]) false
        | (Thrown e, w) =>
            Server (snd (error_middleware e false (is_some (sent w)) w))
                   (writes s) (downloads s) false
        end
    | WriteEnds n ev =>
        match nth_error (writes s) n with
        | Some d =>
            Server (as_listener (output_event ev d) (created ev d (st s)))
                   (remove_nth n (writes s)) (downloads s) false
        | None => s
        end
    | DownloadEnds n err headersSent =>
        match nth_error (downloads s) n with
        | Some d =>
            Server (as_listener (download_callback d err headersSent) (st s))
                   (writes s) (remove_nth n (downloads s)) false
        | None => s
        end
    | TimerFires n io =>
        match nth_error (timers (st s)) n with
        | Some t =>
            let w := set_timers (remove_nth n (timers (st s))) (st s) in
            match t with
            | Cleanup _ _ =>
                Server (as_listener (fire io t) w) (writes s) (downloads s)
                       false
            | ForceExit _ =>
                Server (snd (log [lit "Forcing shutdown"] w)) (writes s)
                       (downloads s) true
            end
        | None => s
        end
    | Signal name =>
        Server (as_listener (gracefulShutdown name) (st s)) (writes s)
               (downloads s) false
    | ConnectionsClosed =>
        if isShuttingDown (st s)
        then Server (snd (log [lit "Server closed gracefully"] (st s)))
                    (writes s) (downloads s) true
        else s
    end.

Definition run_server (hs : list happening) (s : server) : server :=
  fold_left (fun s h => step h s) hs s.

(** The timers the code arms, and the downloads it starts. *)
Definition timer_ok (t : timer) : bool :=
  match t with
  | Cleanup ms p =>
      (N.eqb ms 1000 && dir_eqb (dir_of p) uploadsDir) ||
      (N.eqb ms 120000 && dir_eqb (dir_of p) outputDir &&
       test re_filename (base p))
  | ForceExit ms => N.eqb ms 10000
  end.

Definition download_ok (d : path * jstring) : bool :=
  dir_eqb (dir_of (fst d)) outputDir && test re_filename (base (fst d)).

Definition sound (s : server) : bool :=
  forallb timer_ok (timers (st s)) && forallb download_ok (downloads s).

(** A server that has just started to listen. *)
Definition listening (w : state) : server :=
  Server (set_timers [] w) [] [] false.

(** An address the download route accepts the file name of. *)
Definition download_link (u : jstring) : Prop :=
  exists name, u = lit "/download/" ++ name /\ test re_filename name = true.

(** The units a file name must not hold to stay inside its directory. *)
Definition SLASH : code := 47%N.
Definition BACKSLASH : code := 92%N.
Definition DOT : code := 46%N.

(* ===================================================================== *)
(** * Part I, proofs: the normaliser                                      *)
(* ===================================================================== *)

(** ** Unit classes *)

Lemma chr_true a c : chr a c = true <-> c = a.
Proof. unfold chr. apply N.eqb_eq. Qed.

Lemma lt_is_s c : isLineTerminator c = true -> cls_s c = true.
Proof. intros H. unfold cls_s. rewrite H. apply orb_true_r. Qed.

Lemma solid_not_lt c : cls_s c = false -> isLineTerminator c = false.
Proof.
  intros H. destruct (isLineTerminator c) eqn:E; [|reflexivity].
  apply lt_is_s in E. congruence.
Qed.

Lemma blank_cases c : cls_blank c = true -> c = SP \/ c = TAB.
Proof.
  unfold cls_blank. intros H. apply orb_true_iff in H.
  destruct H as [H|H]; apply chr_true in H; auto.
Qed.

Lemma blank_is_s c : cls_blank c = true -> cls_s c = true.
Proof. intros H. destruct (blank_cases c H); subst; reflexivity. Qed.

Lemma blank_not_lt c : cls_blank c = true -> isLineTerminator c = false.
Proof. intros H. destruct (blank_cases c H); subst; reflexivity. Qed.

Lemma blank_not_cr c : cls_blank c = true -> chr CR c = false.
Proof. intros H. destruct (blank_cases c H); subst; reflexivity. Qed.

(** ** Runs and greedy repetitions *)

Section Repetition.

Variable p : code -> bool.

Lemma prefix_len_le s : prefix_len p s <= length s.
Proof. induction s as [|c s IH]; simpl; [lia|]. destruct (p c); simpl; lia. Qed.

Lemma skipn_prefix_len s :
  match skipn (prefix_len p s) s with
  | [] => True
  | c :: _ => p c = false
  end.
Proof.
  induction s as [|c s IH]; simpl; [exact I|].
  destruct (p c) eqn:E; simpl; [exact IH|exact E].
Qed.

Lemma prefix_firstn : forall s, forallb p (firstn (prefix_len p s) s) = true.
Proof.
  induction s as [|c s IH]; simpl; [reflexivity|].
  destruct (p c) eqn:E; simpl; [rewrite E; exact IH|reflexivity].
Qed.

Lemma prefix_len_app c t : forall ds,
  forallb p ds = true -> p c = false -> prefix_len p (ds ++ c :: t) = length ds.
Proof.
  induction ds as [|d ds IH]; simpl; intros H E.
  - rewrite E. reflexivity.
  - apply andb_true_iff in H. destruct H as [Hd H]. rewrite Hd.
    f_equal. apply IH; assumption.
Qed.

Variable k : option code -> jstring -> option nat.

(** A repetition that ends the pattern takes the whole run. *)
Lemma rep_always :
  (forall q t, k q t = Some O) ->
  forall s n prev,
    rep p k n prev s =
    if Nat.leb n (prefix_len p s) then Some (prefix_len p s) else None.
Proof.
  intros Hk. induction s as [|c s IH]; intros n prev; simpl.
  - destruct n; simpl; [apply Hk|reflexivity].
  - destruct (p c) eqn:E.
    + rewrite IH. destruct n as [|n]; simpl.
      * reflexivity.
      * destruct (Nat.leb n (prefix_len p s)); reflexivity.
    + destruct n; simpl; [apply Hk|reflexivity].
Qed.

(** A repetition followed by [$] stops in front of a line end. *)
Lemma rep_dollar_sound m :
  (forall q t, k q t = if at_line_end m t then Some O else None) ->
  forall s n prev j,
    rep p k n prev s = Some j ->
    n <= j /\ j <= length s /\ at_line_end m (skipn j s) = true.
Proof.
  intros Hk.
  assert (Hstop : forall n prev s j,
            match n with O => k prev s | S _ => None end = Some j ->
            n <= j /\ j <= length s /\ at_line_end m (skipn j s) = true).
  { intros n prev s j H. destruct n; [|discriminate].
    rewrite Hk in H. destruct (at_line_end m s) eqn:E; [|discriminate].
    injection H as <-. simpl. repeat split; try lia. exact E. }
  induction s as [|c s IH]; intros n prev j H; simpl in H.
  - apply (Hstop n prev [] j H).
  - destruct (p c).
    + destruct (rep p k (pred n) (Some c) s) as [j'|] eqn:R.
      * injection H as <-. destruct (IH _ _ _ R) as (A & B & C).
        simpl. repeat split; [lia|lia|exact C].
      * apply (Hstop n prev (c :: s) j H).
    + apply (Hstop n prev (c :: s) j H).
Qed.

(** A repetition whose continuation cannot start inside the class takes
    the whole run and never gives any of it back. *)
Lemma rep_committed :
  (forall q c t, p c = true -> k q (c :: t) = None) ->
  forall s n prev,
    rep p k n prev s =
    if Nat.leb n (prefix_len p s)
    then option_map (Nat.add (prefix_len p s))
           (k (lastc prev (firstn (prefix_len p s) s))
              (skipn (prefix_len p s) s))
    else None.
Proof.
  intros Hk. induction s as [|c s IH]; intros n prev.
  - simpl. destruct n; [|reflexivity]. simpl. destruct (k prev []); reflexivity.
  - cbn [rep prefix_len]. destruct (p c) eqn:E.
    + rewrite IH. cbn [firstn skipn lastc fold_left].
      fold (lastc (Some c) (firstn (prefix_len p s) s)).
      destruct n as [|n]; cbn [pred Nat.leb].
      * destruct (k _ (skipn (prefix_len p s) s)); simpl; [reflexivity|].
        apply Hk, E.
      * destruct (Nat.leb n (prefix_len p s)); [|reflexivity].
        destruct (k _ (skipn (prefix_len p s) s)); reflexivity.
    + destruct n; [|reflexivity]. simpl.
      destruct (k prev (c :: s)); reflexivity.
Qed.

End Repetition.

(** ** The scan *)

(** Dropping the units of a match is the same as resuming behind it. *)
Lemma replace_from_skip re by_ k : forall s prev,
  k <= length s ->
  replace_from re by_ k prev s =
  replace_from re by_ O (lastc prev (firstn k s)) (skipn k s).
Proof.
  induction k as [|k IH]; intros s prev Hk.
  - reflexivity.
  - destruct s as [|c s]; simpl in Hk; [lia|].
    simpl. apply IH. lia.
Qed.

Lemma replace_from_match re by_ prev s k :
  exec_at re prev s = Some (S k) -> S k <= length s ->
  replace_from re by_ O prev s =
  by_ ++ replace_from re by_ O (lastc prev (firstn (S k) s)) (skipn (S k) s).
Proof.
  intros E Hk. destruct s as [|c s]; simpl in Hk; [lia|].
  change (replace_from re by_ O prev (c :: s))
    with (match exec_at re prev (c :: s) with
          | Some (S k) => by_ ++ replace_from re by_ k (Some c) s
          | Some O => by_ ++ c :: replace_from re by_ O (Some c) s
          | None => c :: replace_from re by_ O (Some c) s
          end).
  rewrite E. f_equal. rewrite replace_from_skip by lia. reflexivity.
Qed.

Lemma replace_from_keep re by_ prev c s :
  exec_at re prev (c :: s) = None ->
  replace_from re by_ O prev (c :: s) = c :: replace_from re by_ O (Some c) s.
Proof.
  intros E.
  change (replace_from re by_ O prev (c :: s))
    with (match exec_at re prev (c :: s) with
          | Some (S k) => by_ ++ replace_from re by_ k (Some c) s
          | Some O => by_ ++ c :: replace_from re by_ O (Some c) s
          | None => c :: replace_from re by_ O (Some c) s
          end).
  rewrite E. reflexivity.
Qed.

Lemma replace_from_nil re by_ prev :
  exec_at re prev [] = None -> replace_from re by_ O prev [] = [].
Proof. intros E. simpl. rewrite E. reflexivity. Qed.

(** Where the pattern never matches, nothing is replaced. *)
Lemma replace_quiet re by_ : forall s prev,
  quiet re prev s -> replace_from re by_ O prev s = s.
Proof.
  induction s as [|c s IH]; intros prev [E Q].
  - apply replace_from_nil, E.
  - rewrite replace_from_keep by exact E. f_equal. apply IH, Q.
Qed.

(** The output consists of units of the input and of the replacement. *)
Lemma replace_from_Forall (P : code -> Prop) re by_ : forall s k prev,
  Forall P by_ -> Forall P s -> Forall P (replace_from re by_ k prev s).
Proof.
  induction s as [|c s IH]; intros k prev Hb Hs.
  - destruct k; simpl; [|constructor].
    destruct (exec_at re prev []) as [[|j]|]; rewrite ?app_nil_r; auto.
  - inversion Hs as [|? ? Hc Hs']; subst.
    destruct k as [|k]; simpl.
    + destruct (exec_at re prev (c :: s)) as [[|j]|].
      * apply Forall_app; split; [assumption|]. constructor; auto.
      * apply Forall_app; split; auto.
      * constructor; auto.
    + auto.
Qed.

(** ** The matcher on the patterns of the source *)

Lemma rep_dollar_soft k :
  (forall q t, k q t = if at_line_end true t then Some O else None) ->
  forall s prev, rep cls_s k O prev s = None <-> soft_lead s = true.
Proof.
  intros Hk. induction s as [|c s IH]; intros prev; simpl.
  - rewrite Hk. simpl. split; discriminate.
  - destruct (cls_s c) eqn:E.
    + specialize (IH (Some c)).
      destruct (rep cls_s k 0 (Some c) s) as [j|].
      * destruct (soft_lead s).
        -- destruct IH as [_ IH]. discriminate (IH eq_refl).
        -- rewrite andb_false_r. split; discriminate.
      * destruct IH as [IH _]. rewrite (IH eq_refl), andb_true_r.
        rewrite Hk. simpl. destruct (isLineTerminator c); simpl; split;
          congruence.
    + rewrite Hk. simpl. rewrite (solid_not_lt c E). split; reflexivity.
Qed.

Lemma dollar_cont m q t :
  line_end m q t = if at_line_end m t then Some O else None.
Proof. reflexivity. Qed.

Lemma exec_edges prev s :
  exec_at re_edges prev s =
  if at_line_start true prev && Nat.leb 1 (prefix_len cls_s s)
  then Some (prefix_len cls_s s)
  else rep cls_s (line_end true) 1 prev s.
Proof.
  unfold exec_at, re_edges. cbn [alternatives multiline alt seq].
  change (fun (_ : option code) (t : jstring) =>
            if at_line_end true t then Some 0 else None)
    with (line_end true).
  rewrite (rep_always cls_s (fun _ _ => Some 0)) by reflexivity.
  destruct (at_line_start true prev); simpl.
  - destruct (prefix_len cls_s s) as [|n]; simpl; [|reflexivity].
    destruct (rep cls_s (line_end true) 1 prev s); reflexivity.
  - destruct (rep cls_s (line_end true) 1 prev s); reflexivity.
Qed.

Lemma exec_edges_solid prev s :
  prefix_len cls_s s = 0 -> exec_at re_edges prev s = None.
Proof.
  intros H. rewrite exec_edges, H. simpl. rewrite andb_false_r.
  destruct (rep cls_s (line_end true) 1 prev s) as [j|] eqn:R;
    [|reflexivity].
  destruct s as [|c s]; simpl in *; [discriminate|].
  destruct (cls_s c); discriminate.
Qed.

(** After a match of [re_edges] the input goes on with a line terminator
    or a solid unit, never with a blank. *)
Lemma exec_edges_some prev s j :
  exec_at re_edges prev s = Some j ->
  1 <= j /\ j <= length s /\ head_not_blank (skipn j s) = true.
Proof.
  rewrite exec_edges.
  destruct (at_line_start true prev && Nat.leb 1 (prefix_len cls_s s)) eqn:E.
  - intros H. injection H as <-. apply andb_true_iff in E.
    destruct E as [_ E]. apply Nat.leb_le in E.
    repeat split; [exact E|apply prefix_len_le|].
    pose proof (skipn_prefix_len cls_s s) as K.
    destruct (skipn (prefix_len cls_s s) s) as [|c t]; [reflexivity|].
    simpl. destruct (cls_blank c) eqn:B; [|reflexivity].
    apply blank_is_s in B. congruence.
  - intros H.
    destruct (rep_dollar_sound cls_s _ true (dollar_cont true) _ _ _ _ H)
      as (A & B & C).
    repeat split; [exact A|exact B|].
    destruct (skipn j s) as [|c t]; [reflexivity|].
    simpl in *. destruct (cls_blank c) eqn:Bl; [|reflexivity].
    apply blank_not_lt in Bl. congruence.
Qed.

(** When [re_edges] does not match in front of a white-space unit, the
    position is inside a line and the run leads to a solid unit without
    crossing a line end. *)
Lemma exec_edges_none_space prev c s :
  exec_at re_edges prev (c :: s) = None -> cls_s c = true ->
  at_line_start true prev = false /\ soft_lead s = true.
Proof.
  rewrite exec_edges. simpl. intros H E. rewrite E in H. simpl in H.
  destruct (at_line_start true prev); simpl in H; [discriminate|].
  split; [reflexivity|].
  destruct (rep cls_s (line_end true) 0 (Some c) s) as [j|] eqn:R;
    [discriminate|].
  apply (rep_dollar_soft _ (dollar_cont true) s (Some c)), R.
Qed.

Lemma exec_edges_inside prev c s :
  at_line_start true prev = false -> soft_lead s = true ->
  exec_at re_edges prev (c :: s) = None.
Proof.
  intros A L. rewrite exec_edges, A. simpl.
  destruct (cls_s c); [|reflexivity].
  apply (rep_dollar_soft _ (dollar_cont true) s (Some c)) in L.
  rewrite L. reflexivity.
Qed.

(** ** The per-line trim leaves an edge-clean string *)

Lemma prefix_len_solid s : starts_solid s = true -> prefix_len cls_s s = 0.
Proof.
  destruct s as [|c s]; simpl; [discriminate|].
  destruct (cls_s c); [discriminate|reflexivity].
Qed.

Lemma soft_lead_has_solid s : soft_lead s = true -> has_solid s = true.
Proof.
  induction s as [|c s IH]; simpl; [discriminate|].
  destruct (cls_s c); simpl; [|reflexivity].
  intros H. apply andb_true_iff in H. apply IH, H.
Qed.

Lemma has_solid_skip s :
  has_solid s = true -> starts_solid (skipn (prefix_len cls_s s) s) = true.
Proof.
  induction s as [|c s IH]; simpl; [discriminate|].
  destruct (cls_s c) eqn:E; simpl; [exact IH|].
  intros _. rewrite E. reflexivity.
Qed.

Lemma exec_edges_start prev s j :
  exec_at re_edges prev s = Some j -> at_line_start true prev = true ->
  j = prefix_len cls_s s.
Proof.
  intros X A. destruct (prefix_len cls_s s) as [|n] eqn:P.
  - rewrite (exec_edges_solid prev s P) in X. discriminate.
  - rewrite exec_edges, A, P in X. simpl in X. congruence.
Qed.

Lemma edge_inv_end lastk prev : edge_inv lastk prev [] -> end_ok lastk = true.
Proof.
  destruct lastk as [a|]; simpl; [|reflexivity].
  destruct (cls_s a); [|reflexivity].
  destruct (isLineTerminator a).
  - intros [H|[_ H]]; discriminate.
  - intros [_ H]; discriminate.
Qed.

Lemma edge_inv_jump lastk prev s j :
  edge_inv lastk prev s -> exec_at re_edges prev s = Some j ->
  forall prev', edge_inv lastk prev' (skipn j s).
Proof.
  intros Inv X prev'.
  assert (Hsolid : starts_solid s = true -> False).
  { intros H. rewrite (exec_edges_solid prev s (prefix_len_solid s H)) in X.
    discriminate. }
  destruct lastk as [a|]; simpl in *.
  - destruct (cls_s a); [|exact I].
    destruct (isLineTerminator a) eqn:La.
    + destruct Inv as [H|[-> H]]; [destruct (Hsolid H)|].
      left. rewrite (exec_edges_start _ _ _ X) by (simpl; exact La).
      apply has_solid_skip, H.
    + destruct Inv as [A L]. destruct s as [|c s]; [discriminate|].
      simpl in L. destruct (cls_s c) eqn:E.
      * apply andb_true_iff in L. destruct L as [_ L].
        rewrite (exec_edges_inside prev c s A L) in X. discriminate.
      * destruct Hsolid. simpl. rewrite E. reflexivity.
  - destruct Inv as [->|[->|H]].
    + rewrite (exec_edges_start _ _ _ X) by reflexivity.
      pose proof (skipn_prefix_len cls_s s) as K.
      destruct (skipn (prefix_len cls_s s) s) as [|c t]; [auto|].
      right. right. simpl. rewrite K. reflexivity.
    + destruct j; simpl; auto.
    + destruct (Hsolid H).
Qed.

Lemma edge_inv_keep lastk prev c s :
  edge_inv lastk prev (c :: s) -> exec_at re_edges prev (c :: s) = None ->
  pair_ok lastk c = true /\ edge_inv (Some c) (Some c) s.
Proof.
  intros Inv X.
  assert (Hin : cls_s c = true ->
                at_line_start true prev = false /\ soft_lead s = true).
  { apply exec_edges_none_space, X. }
  split.
  - destruct lastk as [a|]; simpl in *.
    + destruct (cls_s a) eqn:Ea.
      * destruct (isLineTerminator a) eqn:La; simpl.
        -- assert (E : cls_s c = false).
           { destruct Inv as [H|[-> _]].
             - destruct (cls_s c); [discriminate|reflexivity].
             - destruct (cls_s c); [|reflexivity].
               destruct (Hin eq_refl) as [A _]. simpl in A.
               rewrite La in A. discriminate. }
           rewrite E, (solid_not_lt c E). reflexivity.
        -- destruct Inv as [_ L]. destruct (cls_s c) eqn:E.
           ++ apply andb_true_iff in L. destruct L as [L _].
              apply negb_true_iff in L. rewrite L. reflexivity.
           ++ rewrite (solid_not_lt c E). reflexivity.
      * rewrite (solid_not_lt a Ea). reflexivity.
    + destruct (cls_s c) eqn:E; [|reflexivity].
      destruct (Hin eq_refl) as [A _].
      destruct Inv as [->|[H|H]]; discriminate.
  - simpl. destruct (cls_s c) eqn:E; [|exact I].
    destruct (Hin eq_refl) as [A L].
    destruct (isLineTerminator c) eqn:Lc.
    + right. split; [reflexivity|apply soft_lead_has_solid, L].
    + split; [reflexivity|exact L].
Qed.

Lemma edges_tidy : forall n s, length s <= n -> forall lastk prev,
  edge_inv lastk prev s ->
  tidy lastk (replace_from re_edges [] O prev s) = true.
Proof.
  induction n as [|n IH]; intros s Hn lastk prev Inv;
    (destruct s as [|c s];
     [rewrite replace_from_nil by (apply exec_edges_solid; reflexivity);
      simpl; apply (edge_inv_end lastk prev Inv)|]).
  - simpl in Hn. lia.
  - simpl in Hn.
    destruct (exec_at re_edges prev (c :: s)) as [j|] eqn:X.
    + destruct (exec_edges_some _ _ _ X) as (A & B & _).
      destruct j as [|k]; [lia|].
      rewrite (replace_from_match _ _ _ _ _ X B). simpl app.
      apply IH.
      * simpl. rewrite length_skipn. lia.
      * apply (edge_inv_jump _ _ _ _ Inv X).
    + rewrite (replace_from_keep _ _ _ _ _ X).
      destruct (edge_inv_keep _ _ _ _ Inv X) as [P Inv'].
      simpl. rewrite P. simpl. apply IH; [lia|exact Inv'].
Qed.

Lemma replace_edges_tidy s : tidy None (replace re_edges [] s) = true.
Proof.
  unfold replace. apply (edges_tidy (length s)); [lia|]. left. reflexivity.
Qed.

(** ** Consequences of edge-cleanness *)

Lemma tidy_trimStart z : tidy None z = true -> trimStart z = z.
Proof.
  destruct z as [|c z]; simpl; [reflexivity|].
  destruct (cls_s c); simpl; [discriminate|reflexivity].
Qed.

Lemma tidy_last : forall z a c, tidy a (z ++ [c]) = true -> cls_s c = false.
Proof.
  induction z as [|b z IH]; intros a c H; simpl in H;
    apply andb_true_iff in H; destruct H as [_ H].
  - simpl in H. apply negb_true_iff, H.
  - apply (IH _ _ H).
Qed.

Lemma tidy_trim z : tidy None z = true -> trim z = z.
Proof.
  intros H. unfold trim, trimEnd. rewrite (tidy_trimStart z H).
  destruct z as [|b z _] using rev_ind; [reflexivity|].
  rewrite rev_app_distr. simpl. rewrite (tidy_last _ _ _ H).
  simpl. rewrite rev_involutive. reflexivity.
Qed.

Lemma tidy_lt_prefix p :
  (forall c, p c = true -> isLineTerminator c = true) ->
  forall z a, tidy a z = true -> prefix_len p z <= 1.
Proof.
  intros Hp z a H. destruct z as [|c z]; simpl; [lia|].
  destruct (p c) eqn:E; [|lia].
  apply Hp in E. simpl in H. apply andb_true_iff in H. destruct H as [_ H].
  destruct z as [|d z]; simpl in *.
  - rewrite (lt_is_s c E) in H. discriminate.
  - rewrite E in H. simpl in H. destruct (p d) eqn:Ed; [|lia].
    apply Hp, lt_is_s in Ed. rewrite Ed in H. discriminate.
Qed.

Lemma tidy_tail a c z : tidy a (c :: z) = true -> tidy (Some c) z = true.
Proof. simpl. intros H. apply andb_true_iff in H. apply H. Qed.

Lemma tidy_no_run p n :
  (forall c, p c = true -> isLineTerminator c = true) -> 2 <= n ->
  forall z a, tidy a z = true -> has_run p n z = false.
Proof.
  intros Hp Hn. induction z as [|c z IH]; intros a H; [reflexivity|].
  cbn [has_run]. rewrite (IH _ (tidy_tail _ _ _ H)), orb_false_r.
  apply Nat.leb_gt. pose proof (tidy_lt_prefix p Hp _ _ H). lia.
Qed.

Lemma exec_blank_lines prev s :
  exec_at re_blank_lines prev s =
  if Nat.leb 3 (prefix_len (chr LF) s) then Some (prefix_len (chr LF) s)
  else None.
Proof.
  unfold exec_at, re_blank_lines. cbn [alternatives multiline alt seq].
  rewrite (rep_always (chr LF) (fun _ _ => Some 0)) by reflexivity.
  destruct (Nat.leb 3 (prefix_len (chr LF) s)); reflexivity.
Qed.

Lemma lf_is_lt c : chr LF c = true -> isLineTerminator c = true.
Proof. intros H. apply chr_true in H. subst. reflexivity. Qed.

Lemma tidy_quiet_blank_lines : forall z a prev,
  tidy a z = true -> quiet re_blank_lines prev z.
Proof.
  induction z as [|c z IH]; intros a prev H.
  - split; [reflexivity|exact I].
  - split.
    + rewrite exec_blank_lines.
      pose proof (tidy_lt_prefix (chr LF) lf_is_lt _ _ H) as K.
      destruct (Nat.leb_spec 3 (prefix_len (chr LF) (c :: z))); [lia|].
      reflexivity.
    + apply (IH (Some c)), (tidy_tail _ _ _ H).
Qed.

Lemma tidy_soft_lead : forall z b,
  cls_s b = true -> tidy (Some b) z = true -> soft_lead z = true.
Proof.
  induction z as [|c z IH]; intros b Eb H; simpl in H.
  - rewrite Eb in H. discriminate.
  - apply andb_true_iff in H. destruct H as [P H].
    apply andb_true_iff in P. destruct P as [_ P]. rewrite Eb in P.
    simpl in P. apply negb_true_iff in P. simpl. rewrite P. simpl.
    destruct (cls_s c) eqn:Ec; [|reflexivity].
    apply (IH c Ec H).
Qed.

Lemma tidy_quiet_edges : forall z a, tidy a z = true -> quiet re_edges a z.
Proof.
  induction z as [|c z IH]; intros a H.
  - split; [apply exec_edges_solid; reflexivity|exact I].
  - split; [|apply IH, (tidy_tail _ _ _ H)].
    destruct (cls_s c) eqn:Ec.
    + apply exec_edges_inside.
      * simpl in H. apply andb_true_iff in H. destruct H as [P _].
        destruct a as [a|]; simpl in P; rewrite Ec in P;
          [|discriminate].
        apply andb_true_iff in P. destruct P as [P _].
        rewrite andb_true_r in P. apply negb_true_iff in P. exact P.
      * apply (tidy_soft_lead z c Ec), (tidy_tail _ _ _ H).
    + apply exec_edges_solid. simpl. rewrite Ec. reflexivity.
Qed.

(** ** Blanks *)

Lemma exec_blanks prev s :
  exec_at re_blanks prev s =
  if Nat.leb 2 (prefix_len cls_blank s) then Some (prefix_len cls_blank s)
  else None.
Proof.
  unfold exec_at, re_blanks. cbn [alternatives multiline alt seq].
  rewrite (rep_always cls_blank (fun _ _ => Some 0)) by reflexivity.
  destruct (Nat.leb 2 (prefix_len cls_blank s)); reflexivity.
Qed.

Lemma head_not_blank_prefix s :
  head_not_blank s = true <-> prefix_len cls_blank s = 0.
Proof.
  destruct s as [|c s]; simpl; [tauto|].
  destruct (cls_blank c); simpl; split; congruence.
Qed.

Lemma blanks_spaced : forall n s, length s <= n -> forall lastk prev,
  (blank_before lastk = true -> head_not_blank s = true) ->
  spaced lastk (replace_from re_blanks [SP] O prev s) = true.
Proof.
  induction n as [|n IH]; intros s Hn lastk prev Hl;
    (destruct s as [|c s];
     [rewrite replace_from_nil by reflexivity; reflexivity|]);
    simpl in Hn; [lia|].
  destruct (exec_at re_blanks prev (c :: s)) as [j|] eqn:X.
  - rewrite exec_blanks in X.
    destruct (Nat.leb_spec 2 (prefix_len cls_blank (c :: s))) as [L|L];
      [|discriminate].
    injection X as <-.
    assert (X : exec_at re_blanks prev (c :: s)
                = Some (prefix_len cls_blank (c :: s))).
    { rewrite exec_blanks. apply Nat.leb_le in L. rewrite L. reflexivity. }
    pose proof (prefix_len_le cls_blank (c :: s)) as B.
    pose proof (skipn_prefix_len cls_blank (c :: s)) as K.
    destruct (prefix_len cls_blank (c :: s)) as [|k] eqn:P; [lia|].
    rewrite (replace_from_match _ _ _ _ _ X B).
    cbn [app spaced]. apply andb_true_iff. split.
    + destruct (blank_before lastk); [|reflexivity].
      specialize (Hl eq_refl). apply head_not_blank_prefix in Hl.
      rewrite P in Hl. discriminate.
    + apply IH.
      * rewrite length_skipn. simpl. lia.
      * intros _. destruct (skipn (S k) (c :: s)) as [|d t]; [reflexivity|].
        simpl. rewrite K. reflexivity.
  - rewrite (replace_from_keep _ _ _ _ _ X).
    cbn [spaced]. apply andb_true_iff. split.
    + destruct (blank_before lastk); [|reflexivity].
      specialize (Hl eq_refl). simpl in Hl. simpl. exact Hl.
    + apply IH; [lia|]. simpl. intros Bc.
      rewrite exec_blanks in X. simpl in X. rewrite Bc in X.
      apply head_not_blank_prefix.
      destruct (prefix_len cls_blank s); [reflexivity|discriminate].
Qed.

Lemma spaced_weaken : forall z a, spaced a z = true -> spaced None z = true.
Proof.
  destruct z as [|c z]; intros a H; [reflexivity|].
  simpl in *. apply andb_true_iff in H. apply H.
Qed.

Lemma spaced_skipn : forall j z a,
  spaced a z = true -> spaced None (skipn j z) = true.
Proof.
  induction j as [|j IH]; intros z a H; simpl.
  - apply (spaced_weaken _ _ H).
  - destruct z as [|c z]; [reflexivity|].
    simpl in H. apply andb_true_iff in H. apply (IH _ (Some c)), H.
Qed.

Lemma spaced_after z a :
  spaced None z = true -> head_not_blank z = true -> spaced a z = true.
Proof.
  destruct z as [|c z]; simpl; [reflexivity|].
  intros H Hc. apply negb_true_iff in Hc. rewrite Hc, andb_false_r. exact H.
Qed.

Lemma edges_spaced : forall n s, length s <= n -> forall lastk prev,
  spaced lastk s = true ->
  spaced lastk (replace_from re_edges [] O prev s) = true.
Proof.
  induction n as [|n IH]; intros s Hn lastk prev Hs;
    (destruct s as [|c s];
     [rewrite replace_from_nil by (apply exec_edges_solid; reflexivity);
      reflexivity|]);
    simpl in Hn; [lia|].
  destruct (exec_at re_edges prev (c :: s)) as [j|] eqn:X.
  - destruct (exec_edges_some _ _ _ X) as (A & B & C).
    destruct j as [|k]; [lia|].
    rewrite (replace_from_match _ _ _ _ _ X B). simpl app.
    apply IH.
    + rewrite length_skipn. simpl. lia.
    + apply spaced_after; [|exact C].
      apply (spaced_skipn (S k) (c :: s) lastk Hs).
  - rewrite (replace_from_keep _ _ _ _ _ X).
    simpl in Hs. apply andb_true_iff in Hs. destruct Hs as [P Hs].
    cbn [spaced]. rewrite P. simpl. apply IH; [lia|exact Hs].
Qed.

Lemma spaced_prefix z a : spaced a z = true -> prefix_len cls_blank z <= 1.
Proof.
  destruct z as [|c z]; simpl; [lia|].
  destruct (cls_blank c) eqn:E; [|lia].
  intros H. apply andb_true_iff in H. destruct H as [_ H].
  destruct z as [|d z]; simpl in *; [lia|].
  rewrite E in H. simpl in H. destruct (cls_blank d); [discriminate|lia].
Qed.

Lemma spaced_tail a c z : spaced a (c :: z) = true -> spaced (Some c) z = true.
Proof. simpl. intros H. apply andb_true_iff in H. apply H. Qed.

Lemma spaced_no_run : forall z a,
  spaced a z = true -> has_run cls_blank 2 z = false.
Proof.
  induction z as [|c z IH]; intros a H; [reflexivity|].
  cbn [has_run]. rewrite (IH _ (spaced_tail _ _ _ H)), orb_false_r.
  apply Nat.leb_gt. pose proof (spaced_prefix _ _ H). lia.
Qed.

Lemma spaced_quiet_blanks : forall z a prev,
  spaced a z = true -> quiet re_blanks prev z.
Proof.
  induction z as [|c z IH]; intros a prev H.
  - split; [reflexivity|exact I].
  - split; [|apply (IH (Some c)), (spaced_tail _ _ _ H)].
    rewrite exec_blanks. pose proof (spaced_prefix _ _ H) as K.
    destruct (Nat.leb_spec 2 (prefix_len cls_blank (c :: z))); [lia|].
    reflexivity.
Qed.

(** ** Carriage returns *)

Lemma replace_cr_no_cr : forall s prev, no_cr (replace_from re_cr [LF] O prev s).
Proof.
  induction s as [|c s IH]; intros prev.
  - rewrite replace_from_nil by reflexivity. constructor.
  - destruct (chr CR c) eqn:E.
    + assert (X : exec_at re_cr prev (c :: s) = Some 1).
      { unfold exec_at. simpl. rewrite E. reflexivity. }
      rewrite (replace_from_match _ _ _ _ _ X) by (simpl; lia).
      simpl. constructor; [reflexivity|apply IH].
    + assert (X : exec_at re_cr prev (c :: s) = None).
      { unfold exec_at. simpl. rewrite E. reflexivity. }
      rewrite (replace_from_keep _ _ _ _ _ X). constructor; [exact E|apply IH].
Qed.

Lemma no_cr_mem s : no_cr s -> mem CR s = false.
Proof.
  induction 1 as [|c s E _ IH]; [reflexivity|].
  unfold mem in *. simpl. rewrite E, IH. reflexivity.
Qed.

Lemma no_cr_quiet : forall s prev,
  no_cr s -> quiet re_crlf prev s /\ quiet re_cr prev s.
Proof.
  induction s as [|c s IH]; intros prev H.
  - repeat split.
  - inversion H as [|? ? E H']; subst.
    destruct (IH (Some c) H') as [Q1 Q2].
    split; (split; [unfold exec_at; simpl; rewrite E; reflexivity|assumption]).
Qed.

(** ** The normal form *)

Lemma normalise_clean s :
  tidy None (normalise s) = true /\ spaced None (normalise s) = true /\
  no_cr (normalise s).
Proof.
  unfold normalise.
  set (v := replace re_blank_lines [LF; LF]
              (replace re_cr [LF] (replace re_crlf [LF] s))).
  set (w := replace re_blanks [SP] v).
  assert (T : tidy None (replace re_edges [] w) = true)
    by apply replace_edges_tidy.
  rewrite (tidy_trim _ T). split; [exact T|]. split.
  - unfold replace. apply (edges_spaced (length w)); [lia|].
    unfold w, replace. apply (blanks_spaced (length v)); [lia|].
    discriminate.
  - unfold w, v, replace, no_cr.
    apply replace_from_Forall; [constructor|].
    apply replace_from_Forall; [repeat constructor|].
    apply replace_from_Forall; [repeat constructor|].
    apply replace_cr_no_cr.
Qed.

Lemma normalise_fixed y :
  tidy None y = true -> spaced None y = true -> no_cr y -> normalise y = y.
Proof.
  intros T S C. unfold normalise, replace.
  destruct (no_cr_quiet y None C) as [Q1 Q2].
  rewrite (replace_quiet _ _ _ _ Q1), (replace_quiet _ _ _ _ Q2).
  rewrite (replace_quiet _ _ _ _ (tidy_quiet_blank_lines y None None T)).
  rewrite (replace_quiet _ _ _ _ (spaced_quiet_blanks y None None S)).
  rewrite (replace_quiet _ _ _ _ (tidy_quiet_edges y None T)).
  apply tidy_trim, T.
Qed.

(** The two fixed messages are in normal form themselves. *)
Lemma no_text_msg_fixed : cleanText (VString no_text_msg) = no_text_msg.
Proof. vm_compute. reflexivity. Qed.

Lemma empty_doc_msg_fixed : cleanText (VString empty_doc_msg) = empty_doc_msg.
Proof. vm_compute. reflexivity. Qed.

(** C1. For every input (a string or not) the output of [cleanText] is
    not the empty string, contains no carriage return, no run of three or
    more line feeds and no run of two or more blanks (space or tab). *)
Theorem cleanText_output (text : value) :
  cleanText text <> [] /\
  mem CR (cleanText text) = false /\
  has_run (chr LF) 3 (cleanText text) = false /\
  has_run cls_blank 2 (cleanText text) = false.
Proof.
  assert (M1 : no_text_msg <> [] /\ mem CR no_text_msg = false /\
               has_run (chr LF) 3 no_text_msg = false /\
               has_run cls_blank 2 no_text_msg = false)
    by (vm_compute; repeat split; discriminate).
  destruct text as [[|c s]|]; try exact M1.
  unfold cleanText.
  destruct (normalise_clean (c :: s)) as (T & S & C).
  destruct (normalise (c :: s)) as [|d r] eqn:N.
  - vm_compute. repeat split; discriminate.
  - split; [discriminate|]. split; [apply no_cr_mem, C|]. split.
    + apply (tidy_no_run (chr LF) 3 lf_is_lt) with (a := None); [lia|exact T].
    + apply (spaced_no_run _ None S).
Qed.

(** C2. [cleanText] is idempotent. *)
Theorem cleanText_idempotent (text : value) :
  cleanText (VString (cleanText text)) = cleanText text.
Proof.
  destruct text as [[|c s]|]; try exact no_text_msg_fixed.
  unfold cleanText at 2 3.
  destruct (normalise_clean (c :: s)) as (T & S & C).
  destruct (normalise (c :: s)) as [|d r] eqn:N.
  - exact empty_doc_msg_fixed.
  - unfold cleanText. rewrite (normalise_fixed (d :: r) T S C). reflexivity.
Qed.

(** The output never has two line terminators in a row, of any kind: the
    per-line trim removes blank lines altogether. *)
Lemma cleanText_single_breaks (text : value) :
  has_run isLineTerminator 2 (cleanText text) = false.
Proof.
  destruct text as [[|c s]|]; try (vm_compute; reflexivity).
  unfold cleanText.
  destruct (normalise_clean (c :: s)) as (T & _ & _).
  destruct (normalise (c :: s)) as [|d r] eqn:N.
  - vm_compute. reflexivity.
  - apply (tidy_no_run isLineTerminator 2) with (a := None); auto.
Qed.

(** The earlier revision can return the empty string. *)
Lemma earlier_cleanText_empty : Earlier.cleanText [SP] = [].
Proof. reflexivity. Qed.

(* ===================================================================== *)
(** * Part II, proofs: the server                                         *)
(* ===================================================================== *)

Lemma str_eqb_refl a : str_eqb a a = true.
Proof. induction a as [|x a IH]; simpl; [reflexivity|]. rewrite N.eqb_refl. exact IH. Qed.

Lemma str_eqb_eq a : forall b, str_eqb a b = true <-> a = b.
Proof.
  induction a as [|x a IH]; intros [|y b]; simpl; split; try discriminate;
    try reflexivity.
  - intros H. apply andb_true_iff in H. destruct H as [H1 H2].
    apply N.eqb_eq in H1. apply IH in H2. congruence.
  - intros H. injection H as -> ->. rewrite N.eqb_refl. apply str_eqb_refl.
Qed.

(** ** safeFileCleanup and the download callback *)

Lemma safeFileCleanup_returns io filePath w :
  fst (safeFileCleanup io filePath w) = Normal tt.
Proof.
  unfold safeFileCleanup, bind, get. destruct filePath as [p|]; [|reflexivity].
  destruct (existsSync w p); [|reflexivity].
  unfold try_catch, unlinkSync, bind. destruct (io p) as [e|]; reflexivity.
Qed.

Lemma fire_returns io t w : fst (fire io t w) = Normal tt.
Proof. destruct t; [apply safeFileCleanup_returns|reflexivity]. Qed.

(** A failed unlink leaves the file and is logged. *)
Lemma safeFileCleanup_failure io p e w :
  existsSync w p = true -> io p = Some e ->
  snd (safeFileCleanup io (Some p) w) =
  set_console (console w ++ [LogError [lit "Cleanup failed:"; message e]]) w.
Proof.
  intros Ex Io. unfold safeFileCleanup, bind, get. rewrite Ex.
  unfold try_catch, unlinkSync, bind. rewrite Io. reflexivity.
Qed.

(** ** The conversion, case by case *)

(** ** The upload middleware *)

Lemma fileFilter_pdf p : mimetype p = pdf_type -> fileFilter p = None.
Proof. intros H. unfold fileFilter. rewrite H. reflexivity. Qed.

Lemma fileFilter_other p : mimetype p <> pdf_type -> exists e, fileFilter p = Some e.
Proof.
  intros H. unfold fileFilter.
  destruct (str_eqb (mimetype p) (lit "application/pdf")) eqn:E.
  - apply str_eqb_eq in E. destruct (H E).
  - eexists. reflexivity.
Qed.

Lemma upload_single_accepts stored p :
  mimetype p = pdf_type -> (size p <= fileSize)%N ->
  upload_single stored [p] = (None, Some (File p (Path uploadsDir stored))).
Proof.
  intros Hm Hs. unfold upload_single. cbn [receive]. simpl Nat.leb. cbv iota.
  rewrite (fileFilter_pdf p Hm).
  destruct (N.ltb_spec fileSize (size p)); [lia|reflexivity].
Qed.

(** A submission is either one PDF part within the size limit, or it is
    refused and the middleware hands no file to the callback. *)
Lemma accepted_or_refused stored parts :
  (exists p, parts = [p] /\ mimetype p = pdf_type /\ (size p <= fileSize)%N) \/
  (refused parts /\ exists u, upload_single stored parts = (u, None)).
Proof.
  destruct parts as [|p rest].
  - right. split; [left; reflexivity|]. exists None. reflexivity.
  - destruct (str_eqb (mimetype p) pdf_type) eqn:Em.
    + apply str_eqb_eq in Em.
      destruct (N.ltb_spec fileSize (size p)) as [Hs|Hs].
      * right. split.
        -- right. right. left. exists p. split; [left; reflexivity|exact Hs].
        -- unfold upload_single. cbn [receive]. simpl Nat.leb. cbv iota.
           rewrite (fileFilter_pdf p Em).
           apply N.ltb_lt in Hs. rewrite Hs. eexists. reflexivity.
      * destruct rest as [|q rest].
        -- left. exists p. auto.
        -- right. split.
           ++ right. right. right. simpl. lia.
           ++ unfold upload_single. cbn [receive]. simpl Nat.leb. cbv iota.
              rewrite (fileFilter_pdf p Em).
              destruct (N.ltb_spec fileSize (size p)); [lia|].
              eexists. reflexivity.
    + assert (Hm : mimetype p <> pdf_type).
      { intros H. apply str_eqb_eq in H. congruence. }
      right. split.
      * right. left. exists p. split; [left; reflexivity|exact Hm].
      * destruct (fileFilter_other p Hm) as (e & He).
        unfold upload_single. cbn [receive]. simpl Nat.leb. cbv iota.
        rewrite He. eexists. reflexivity.
Qed.

Lemma accepted_not_refused p :
  mimetype p = pdf_type -> (size p <= fileSize)%N -> ~ refused [p].
Proof.
  intros Hm Hs [H|[(q & [<-|[]] & H)|[(q & [<-|[]] & H)|H]]].
  - discriminate.
  - congruence.
  - lia.
  - simpl in H. lia.
Qed.

(** ** The conversion, case by case *)

(** Without a file the callback answers 400, knows no temporary path and
    schedules nothing. *)
Lemma callback_refusal u env w :
  let r := convert_callback u None env w in
  fst r = Normal None /\
  (exists b, sent (snd r) = Some (Response 400 b)) /\
  tempFilePath (snd r) = None /\ timers (snd r) = timers w.
Proof.
  run. destruct u as [e|]; simpl; (split; [reflexivity|]);
    (split; [eexists; reflexivity|]); rewrite ?app_nil_r; split; reflexivity.
Qed.

(** With a file the callback always gets as far as starting the write:
    it returns the document, has sent nothing, and has scheduled the
    deletion of the temporary file. *)
Lemma callback_accepts f env w :
  let r := convert_callback None (Some f) env w in
  (exists text,
      fst r = Normal (Some (Writing (lit "converted-" ++ decimal (now env)
                                       ++ lit ".docx")
                              (originalname (file_part f)) text)) /\
      text = match parse env with
             | inl v => cleanText v
             | inr e => extraction_failed e
             end) /\
  sent (snd r) = sent w /\
  tempFilePath (snd r) = Some (file_path f) /\
  timers (snd r) = timers w ++ [Cleanup 1000 (file_path f)] /\
  In (Log [lit "Converting:"; originalname (file_part f);
           lit "(" ++ kilobytes (size (file_part f)) ++ lit "KB)"])
     (console (snd r)) /\
  (forall e, parse env = inr e ->
     In (LogError [lit "PDF parsing error:"; message e]) (console (snd r))).
Proof.
  run. destruct (parse env) as [v|e]; simpl;
    (split; [eexists; split; reflexivity|]);
    repeat (split; [reflexivity|]);
    (split; [rewrite ?in_app_iff; simpl; tauto|]).
  - discriminate.
  - intros e' H. injection H as <-. rewrite ?in_app_iff. simpl. tauto.
Qed.

Lemma upload_and_convert_refused parts env w :
  refused parts ->
  let r := upload_and_convert parts env w in
  fst r = Normal None /\
  (exists b, sent (snd r) = Some (Response 400 b)) /\
  tempFilePath (snd r) = None /\ timers (snd r) = timers w.
Proof.
  intros R.
  destruct (accepted_or_refused (stored_as env) parts)
    as [(p & -> & Hm & Hs)|(_ & u & U)].
  - destruct (accepted_not_refused p Hm Hs R).
  - unfold upload_and_convert. rewrite U. unfold bind at 1, ret at 1.
    exact (callback_refusal u env w).
Qed.

Lemma upload_and_convert_accepted p env w :
  mimetype p = pdf_type -> (size p <= fileSize)%N ->
  upload_and_convert [p] env w =
  convert_callback None (Some (File p (Path uploadsDir (stored_as env)))) env
    (set_disk (Path uploadsDir (stored_as env) :: disk w) w).
Proof.
  intros Hm Hs. unfold upload_and_convert.
  rewrite (upload_single_accepts _ p Hm Hs). reflexivity.
Qed.

Lemma post_convert_running parts env w :
  isShuttingDown w = false ->
  post_convert parts env w =
  upload_and_convert parts env (set_streamed None (set_sent None w)).
Proof.
  intros Sh. unfold post_convert, bind, new_request, modify, get. simpl.
  rewrite Sh. reflexivity.
Qed.

Lemma post_convert_closing parts env w :
  isShuttingDown w = true ->
  fst (post_convert parts env w) = Normal None /\
  timers (snd (post_convert parts env w)) = timers w /\
  sent (snd (post_convert parts env w)) =
  Some (Response 503 (JsonError (lit "Server is shutting down") None)).
Proof.
  intros Sh. unfold post_convert, bind, new_request, modify, get. simpl.
  rewrite Sh. repeat split.
Qed.

Lemma finish_timers ev r :
  timers (finish ev r) =
  timers (snd r) ++ match fst r, ev with
                    | Normal (Some _), StreamError _ => [ForceExit 10000]
                    | _, _ => []
                    end.
Proof.
  destruct r as [[[d|]|e] w]; simpl; rewrite ?app_nil_r; try reflexivity.
  destruct ev; run; rewrite ?app_nil_r; reflexivity.
Qed.

(** The timers a whole conversion adds. *)
Lemma conversion_timers parts env ev w :
  exists ts, added w (conversion parts env ev w) ts /\
             forall t, In t ts -> targets_output t = false.
Proof.
  unfold added, conversion. rewrite finish_timers.
  destruct (isShuttingDown w) eqn:Sh.
  - destruct (post_convert_closing parts env w Sh) as (R & T & _).
    rewrite R, T. exists []. split; [reflexivity|intros t []].
  - rewrite (post_convert_running parts env w Sh).
    destruct (accepted_or_refused (stored_as env) parts)
      as [(p & -> & Hm & Hs)|(R & _)].
    + rewrite (upload_and_convert_accepted p env _ Hm Hs).
      match goal with
      | |- context [convert_callback None (Some ?f) env ?v] =>
          destruct (callback_accepts f env v) as ((text & R & _) & _ & _ & T & _)
      end.
      rewrite R, T. simpl timers. rewrite <- app_assoc. eexists.
      split; [reflexivity|].
      intros t [<-|Ht]; [reflexivity|].
      destruct ev; simpl in Ht; [destruct Ht|].
      destruct Ht as [<-|[]]. reflexivity.
    + match goal with
      | |- context [upload_and_convert parts env ?v] =>
          destruct (upload_and_convert_refused parts env v R) as (F & _ & _ & T)
      end.
      rewrite F, T. exists []. split; [reflexivity|intros t []].
Qed.

(** What [safeFileCleanup] does, in full. *)
Lemma safeFileCleanup_effect io p w :
  snd (safeFileCleanup io (Some p) w) =
  if existsSync w p then
    match io p with
    | Some e =>
        set_console (console w ++ [LogError [lit "Cleanup failed:"; message e]]) w
    | None =>
        let w' := set_disk (filter (fun q => negb (path_eqb p q)) (disk w)) w in
        set_console (console w' ++ [Log [lit "File cleaned up:"; base p]]) w'
    end
  else w.
Proof.
  unfold safeFileCleanup, bind, get. destruct (existsSync w p); [|reflexivity].
  unfold try_catch, unlinkSync, bind. destruct (io p); reflexivity.
Qed.

(** C10. The deletion of an output file is scheduled by the download
    callback when the download ended without error, and nowhere else: a
    callback that reports an error adds no timer and leaves the disk as it
    is; a conversion and the download route before its callback add no
    timer for the output directory.  The scheduled deletion returns
    normally whatever the file system does: a missing file is skipped and
    a failing unlink is caught and logged. *)
Theorem output_cleanup_after_download :
  (forall d headersSent w,
      added w (snd (download_callback d None headersSent w))
            [Cleanup 120000 (fst d)]) /\
  (forall d e headersSent w,
      timers (snd (download_callback d (Some e) headersSent w)) = timers w /\
      disk (snd (download_callback d (Some e) headersSent w)) = disk w) /\
  (forall parts env ev w,
      exists ts, added w (conversion parts env ev w) ts /\
                 existsb targets_output ts = false) /\
  (forall filename clock w,
      timers (snd (get_download filename clock w)) = timers w) /\
  (forall io t w, fst (fire io t w) = Normal tt) /\
  (forall io p w,
      snd (safeFileCleanup io (Some p) w) =
      if existsSync w p then
        match io p with
        | Some e =>
            set_console
              (console w ++ [LogError [lit "Cleanup failed:"; message e]]) w
        | None =>
            let w' :=
              set_disk (filter (fun q => negb (path_eqb p q)) (disk w)) w in
            set_console (console w' ++ [Log [lit "File cleaned up:"; base p]]) w'
        end
      else w).
Proof.
  repeat match goal with |- _ /\ _ => split end.
  - intros d h w. reflexivity.
  - intros d e h w. destruct h; split; reflexivity.
  - intros parts env ev w.
    destruct (conversion_timers parts env ev w) as (ts & A & H).
    exists ts. split; [exact A|].
    destruct (existsb targets_output ts) eqn:E; [|reflexivity].
    apply existsb_exists in E. destruct E as (t & Ht & E).
    rewrite (H t Ht) in E. discriminate.
  - intros filename clock w. unfold get_download, bind, new_request, modify, get.
    simpl. destruct (isShuttingDown w); [reflexivity|].
    destruct (test re_filename filename); simpl; [|reflexivity].
    destruct (existsSync _ _); reflexivity.
  - apply fire_returns.
  - apply safeFileCleanup_effect.
Qed.

(** ** The shutdown gate *)

(** [/health] answers 200 in every state. *)
Lemma health_always parts sur w :
  sent (snd (app (Request GET Health parts) sur w)) =
  Some (Response 200 (JsonHealth (lit "OK") (info_now sur))).
Proof. reflexivity. Qed.

(** Once the flag is set the conversion and the download answer 503, and
    so does the handler of [/] when a request reaches it. *)
Lemma gates_closed parts filename sur w :
  isShuttingDown w = true ->
  let busy := Some (Response 503 (JsonError (lit "Server is shutting down") None)) in
  sent (snd (app (Request POST Convert parts) sur w)) = busy /\
  sent (snd (app (Request GET (Download filename) []) sur w)) = busy /\
  sent (snd (get_root w)) = busy.
Proof.
  intros Sh. unfold app, post_convert, get_download, get_root,
    shutting_down_response, bind, new_request, modify, get, send. simpl.
  rewrite Sh. simpl. repeat split; reflexivity.
Qed.

(** With [public/index.html] in place [express.static] answers [/] before
    the route and its gate are reached. *)
Lemma static_answers_root parts sur w :
  public_index w = true ->
  sent (snd (app (Request GET Root parts) sur w)) = Some (Response 200 IndexPage).
Proof.
  intros Pi. unfold app, static_serves, bind, new_request, modify, get, send.
  simpl. rewrite Pi. reflexivity.
Qed.

(** C9.  While the server is shutting down, [GET /health] answers 200 and
    [POST /convert] and [GET /download/:filename] answer 503, but [GET /]
    is answered 200 with the client page by the static middleware: the 503
    gate of its route is not reached. *)
Theorem root_served_during_shutdown :
  let sur := Surroundings readable (ProcessInfo (lit "2024-01-01T00:00:00.000Z") 12 34) in
  let busy := Some (Response 503 (JsonError (lit "Server is shutting down") None)) in
  isShuttingDown closing = true /\
  sent (snd (app (Request GET Health []) sur closing)) =
    Some (Response 200 (JsonHealth (lit "OK") (info_now sur))) /\
  sent (snd (app (Request POST Convert [report_pdf]) sur closing)) = busy /\
  sent (snd (app (Request GET (Download (lit "converted-1.docx")) []) sur closing))
    = busy /\
  sent (snd (app (Request GET Root []) sur closing)) = Some (Response 200 IndexPage) /\
  sent (snd (app (Request GET Root []) sur closing)) <> busy.
Proof. repeat split; try reflexivity. discriminate. Qed.

(** ** Write failures *)

(** An ['error'] event on the output stream makes its listener throw
    outside of any [try]: nothing is sent and the process starts to shut
    down. *)
Lemma write_failure_unanswered d err w :
  let w' := as_listener (output_event (StreamError err) d) w in
  sent w' = sent w /\ isShuttingDown w' = true.
Proof. split; reflexivity. Qed.

(** C5.  A conversion whose output stream fails: the client gets no
    response at all (in particular no 500), and the server is shutting
    down afterwards. *)
Theorem write_failure_not_reported :
  let w' := conversion [report_pdf] readable (StreamError disk_full) idle in
  sent w' = None /\ isShuttingDown w' = true /\
  In (LogError [lit "Uncaught Exception:";
                lit "Failed to write document: no space left on device"])
     (console w').
Proof. vm_compute. repeat split. auto. Qed.

(** ** The gatekeeper *)

(** The size as line 149 logs it: 2048 bytes are 2.0 KB, and a tie (256
    bytes are 0.25 KB) is rounded up. *)
Example kilobytes_rounding :
  kilobytes 2048 = lit "2.0" /\ kilobytes 256 = lit "0.3" /\
  kilobytes 1000 = lit "1.0" /\ kilobytes 10485760 = lit "10240.0".
Proof. vm_compute. repeat split. Qed.

(** An accepted part becomes the temporary file of the handler, and the
    conversion starts. *)
Lemma accepted_state p env w :
  mimetype p = pdf_type -> (size p <= fileSize)%N ->
  let w' := snd (upload_and_convert [p] env w) in
  tempFilePath w' = Some (Path uploadsDir (stored_as env)) /\
  In (Log [lit "Converting:"; originalname p;
           lit "(" ++ kilobytes (size p) ++ lit "KB)"]) (console w').
Proof.
  intros Hm Hs. cbv zeta.
  rewrite (upload_and_convert_accepted p env w Hm Hs).
  match goal with
  | |- context [convert_callback None (Some ?f) env ?v] =>
      destruct (callback_accepts f env v) as (_ & _ & T & _ & L & _)
  end.
  split; [exact T|exact L].
Qed.

(** The definitions with the parameters of the library agree with the
    plain ones on a body without an error of the parser, the limit being
    inclusive. *)
Lemma receive_of_plain stored : forall parts seen accepted,
  receive_of false stored None seen accepted parts =
  receive stored seen accepted parts.
Proof.
  induction parts as [|p rest IH]; intros seen accepted; [reflexivity|].
  cbn [receive_of receive raised over_limit].
  destruct (Nat.leb files seen); [reflexivity|].
  destruct (fileFilter p); [reflexivity|].
  destruct (N.ltb fileSize (size p)); [reflexivity|apply IH].
Qed.

Lemma upload_and_convert_of_plain parts env :
  upload_and_convert_of false (Multipart parts None) env =
  upload_and_convert parts env.
Proof.
  unfold upload_and_convert_of, upload_and_convert, upload_single_of,
    upload_single. cbn [fault file_parts].
  rewrite receive_of_plain. reflexivity.
Qed.

Lemma over_limit_false strict n :
  over_limit strict n = false <->
  ((n < fileSize)%N \/ (n = fileSize /\ strict = false)).
Proof.
  unfold over_limit. destruct strict.
  - rewrite N.leb_gt. split; [auto|]. intros [H|[_ H]]; [exact H|discriminate].
  - rewrite N.ltb_ge. split; [|intros [H|[H _]]; lia].
    intros H. destruct (N.eq_dec n fileSize); [right; auto|left; lia].
Qed.

(** The middleware on any body, for either reading of the limit: it lets
    one PDF part in, or it hands no file to the callback. *)
Lemma upload_of_cases strict stored body :
  (exists p,
     file_parts body = [p] /\ fault body = None /\ mimetype p = pdf_type /\
     over_limit strict (size p) = false /\
     upload_single_of strict stored body =
     (None, Some (File p (Path uploadsDir stored)))) \/
  ((refused (file_parts body) \/ fault body <> None \/
    (strict = true /\ at_the_limit (file_parts body))) /\
   exists u, upload_single_of strict stored body = (u, None)).
Proof.
  destruct body as [parts flt]. unfold upload_single_of.
  cbn [file_parts fault].
  destruct parts as [|p rest].
  { right. destruct flt as [[a e]|]; (split; [|eexists; reflexivity]).
    - right. left. discriminate.
    - left. left. reflexivity. }
  cbn [receive_of].
  destruct (raised flt 0) as [e|] eqn:R0.
  { right. split; [|eexists; reflexivity].
    right. left. destruct flt; [discriminate|discriminate R0]. }
  simpl Nat.leb. cbv iota.
  destruct (str_eqb (mimetype p) pdf_type) eqn:Em.
  - apply str_eqb_eq in Em. rewrite (fileFilter_pdf p Em).
    destruct (over_limit strict (size p)) eqn:Ho.
    + right. split; [|eexists; reflexivity].
      unfold over_limit in Ho. destruct strict.
      * apply N.leb_le in Ho.
        destruct (N.eq_dec (size p) fileSize) as [E|E].
        -- right. right. split; [reflexivity|].
           exists p. split; [left; reflexivity|exact E].
        -- left. right. right. left. exists p.
           split; [left; reflexivity|lia].
      * apply N.ltb_lt in Ho. left. right. right. left. exists p.
        split; [left; reflexivity|exact Ho].
    + destruct rest as [|q rest].
      * cbn [receive_of]. destruct flt as [[a e]|].
        -- right. split; [right; left; discriminate|eexists; reflexivity].
        -- left. exists p. auto.
      * right. split; [left; right; right; right; simpl; lia|].
        cbn [receive_of]. destruct (raised flt 1); eexists; reflexivity.
  - assert (Hm : mimetype p <> pdf_type).
    { intros H. apply str_eqb_eq in H. congruence. }
    right. split.
    + left. right. left. exists p. split; [left; reflexivity|exact Hm].
    + destruct (fileFilter_other p Hm) as (e & He). rewrite He.
      eexists. reflexivity.
Qed.

(** C4, as the code has it.  For either reading of the size limit and for
    every body, the upload middleware with its callback refuses a
    submission with status 400, no file being accepted and no conversion
    started, exactly when the submission has no file, a file whose
    declared type is not application/pdf, a file larger than 10 MB, or
    more than one file, or the parser raises an error of its own, or a
    file has exactly 10 MB and the library counts that as too much; a
    single application/pdf file of less than 10 MB in a body read without
    error (and one of exactly 10 MB when the limit is inclusive) is let
    in: it becomes the temporary file of the handler and its conversion
    starts. *)
Theorem upload_gatekeeper (strict : bool) (body : multipart) (env : conv_env)
    (w : state) :
  let parts := file_parts body in
  let r := upload_and_convert_of strict body env w in
  (((exists b, sent (snd r) = Some (Response 400 b)) /\
    tempFilePath (snd r) = None /\ fst r = Normal None)
   <-> (refused parts \/ fault body <> None \/
        (strict = true /\ at_the_limit parts))) /\
  (forall p, parts = [p] -> fault body = None -> mimetype p = pdf_type ->
     ((size p < fileSize)%N \/ (size p = fileSize /\ strict = false)) ->
     tempFilePath (snd r) = Some (Path uploadsDir (stored_as env)) /\
     (exists d, fst r = Normal (Some d) /\ source_name d = originalname p) /\
     sent (snd r) = sent w).
Proof.
  cbv zeta.
  destruct (upload_of_cases strict (stored_as env) body)
    as [(p & Ep & Ef & Hm & Ho & U)|(R & u & U)].
  - assert (Eq : upload_and_convert_of strict body env w =
                 convert_callback None
                   (Some (File p (Path uploadsDir (stored_as env)))) env
                   (set_disk (Path uploadsDir (stored_as env) :: disk w) w))
      by (unfold upload_and_convert_of; rewrite U; reflexivity).
    rewrite Eq. clear Eq.
    destruct (callback_accepts (File p (Path uploadsDir (stored_as env))) env
                (set_disk (Path uploadsDir (stored_as env) :: disk w) w))
      as ((t & E & _) & S & T & _).
    cbv zeta in *. cbn [file_path file_part] in *. split.
    + split.
      * intros (_ & T' & _). rewrite T in T'. discriminate.
      * apply over_limit_false in Ho.
        intros [Rf|[Ff|[Es (q & Hq & Eq)]]].
        -- exfalso. rewrite Ep in Rf.
           apply (accepted_not_refused p Hm); [|exact Rf].
           destruct Ho as [Ho|[Ho _]]; lia.
        -- destruct (Ff Ef).
        -- exfalso. rewrite Ep in Hq. destruct Hq as [<-|[]].
           destruct Ho as [Ho|[_ Ho]]; [lia|congruence].
    + intros p' Ep' _ _ _. rewrite Ep in Ep'. injection Ep' as <-.
      split; [exact T|]. split; [|exact S].
      eexists. split; [exact E|reflexivity].
  - assert (Eq : upload_and_convert_of strict body env w =
                 convert_callback u None env w)
      by (unfold upload_and_convert_of; rewrite U; reflexivity).
    rewrite Eq. clear Eq.
    destruct (callback_refusal u env w) as (F & S & T & _).
    cbv zeta in *. split.
    + split; [intros _; exact R|]. intros _. repeat split; assumption.
    + intros p Ep Ef Hm Ho. exfalso.
      destruct R as [Rf|[Ff|[Es (q & Hq & Eq)]]].
      * rewrite Ep in Rf. apply (accepted_not_refused p Hm); [|exact Rf].
        destruct Ho as [Ho|[Ho _]]; lia.
      * destruct (Ff Ef).
      * rewrite Ep in Hq. destruct Hq as [<-|[]].
        destruct Ho as [Ho|[_ Ho]]; [lia|congruence].
Qed.

Lemma upload_gatekeeper_witness :
  (exists b,
     sent (snd (upload_and_convert_of true (Multipart [picture_png] None)
                  readable idle)) = Some (Response 400 b)) /\
  tempFilePath (snd (upload_and_convert_of true (Multipart [report_pdf] None)
                       readable idle))
  = Some (Path uploadsDir (stored_as readable)).
Proof.
  destruct (upload_gatekeeper true (Multipart [picture_png] None) readable idle)
    as [[_ R] _].
  destruct (upload_gatekeeper true (Multipart [report_pdf] None) readable idle)
    as [_ A].
  split.
  - apply R. left. right. left. exists picture_png.
    split; [left; reflexivity|]. intros H. discriminate H.
  - apply (A report_pdf eq_refl eq_refl eq_refl). left. reflexivity.
Defined.

(** C4, as the claim has it, fails in both halves.  The four reasons are
    not the only ones: a body cut short after its one good PDF part is
    answered 400, no file accepted, though none of the four holds; the
    catch block answers 400 to every error of the upload.  And a PDF of
    exactly 10 MB is not let in by a library that stops a file reaching
    the limit. *)
Lemma upload_refused_for_other_reasons :
  (let r := upload_and_convert_of false cut_short readable idle in
   (exists b, sent (snd r) = Some (Response 400 b)) /\
   tempFilePath (snd r) = None /\
   ~ refused (file_parts cut_short)) /\
  (let r := upload_and_convert_of true (Multipart [ten_megabytes_pdf] None)
              readable idle in
   (exists b, sent (snd r) = Some (Response 400 b)) /\
   tempFilePath (snd r) = None /\
   mimetype ten_megabytes_pdf = pdf_type /\
   (size ten_megabytes_pdf <= fileSize)%N).
Proof.
  split; cbv zeta.
  - split; [eexists; vm_compute; reflexivity|]. split; [reflexivity|].
    apply accepted_not_refused; [reflexivity|]. vm_compute. discriminate.
  - split; [eexists; vm_compute; reflexivity|]. split; [reflexivity|].
    split; [reflexivity|]. vm_compute. discriminate.
Qed.

(** On the route, behind the shutdown gate: a refused submission is
    answered 400, an accepted one is not. *)
Lemma post_convert_gate w parts env :
  isShuttingDown w = false ->
  (refused parts ->
   exists b, sent (snd (post_convert parts env w)) = Some (Response 400 b)) /\
  (forall p, parts = [p] -> mimetype p = pdf_type -> (size p <= fileSize)%N ->
   sent (snd (post_convert parts env w)) = None).
Proof.
  intros Sh. rewrite (post_convert_running parts env w Sh). split.
  - intros R.
    match goal with
    | |- context [upload_and_convert parts env ?v] =>
        destruct (upload_and_convert_refused parts env v R) as (_ & S & _)
    end.
    exact S.
  - intros p -> Hm Hs. rewrite (upload_and_convert_accepted p env _ Hm Hs).
    match goal with
    | |- context [convert_callback None (Some ?f) env ?v] =>
        destruct (callback_accepts f env v) as (_ & S & _)
    end.
    rewrite S. reflexivity.
Qed.

(** ** Soft extraction failure *)

Lemma extract_never_throws env w :
  exists text w', extract env w = (Normal text, w').
Proof.
  unfold extract, try_catch. destruct (parse env) as [text|e]; simpl;
    eexists; eexists; reflexivity.
Qed.

(** C3.  For an upload that passes validation, when reading or parsing the
    PDF throws, the handler sends no response of its own, logs the
    failure and goes on to write a document whose text is the placeholder
    quoting the failure; when the document has been written the client
    receives [success: true] with the download URL. *)
Theorem soft_extraction_failure
    (w : state) (p : part) (env : conv_env) (e : error) :
  mimetype p = pdf_type -> (size p <= fileSize)%N ->
  parse env = inr e ->
  exists d w',
    upload_and_convert [p] env w = (Normal (Some d), w') /\
    extractedText d = extraction_failed e /\
    sent w' = sent w /\
    In (LogError [lit "PDF parsing error:"; message e]) (console w') /\
    sent (finish StreamClose (upload_and_convert [p] env w)) =
      Some (Response 200
              (JsonSuccess (lit "PDF converted successfully")
                 (lit "/download/" ++ lit "converted-" ++ decimal (now env)
                    ++ lit ".docx")
                 (originalname p))).
Proof.
  intros Hm Hs Hp. rewrite (upload_and_convert_accepted p env w Hm Hs).
  match goal with
  | |- context [convert_callback None (Some ?f) env ?v] =>
      destruct (callback_accepts f env v) as ((text & R & Ht) & S & _ & _ & _ & L);
      destruct (convert_callback None (Some f) env v) as [r w'] eqn:C
  end.
  simpl in *. subst r. rewrite Hp in Ht. subst text.
  eexists. exists w'. split; [reflexivity|]. split; [reflexivity|].
  split; [exact S|]. split; [exact (L e Hp)|]. reflexivity.
Qed.

Lemma soft_extraction_failure_witness :
  exists d w',
    upload_and_convert [report_pdf] unreadable idle = (Normal (Some d), w') /\
    extractedText d =
      lit "Error extracting text from PDF: Invalid PDF structure" ++ [LF; LF]
      ++ lit "This may be an image-based PDF or the file may be corrupted." /\
    sent (finish StreamClose (upload_and_convert [report_pdf] unreadable idle)) =
      Some (Response 200
              (JsonSuccess (lit "PDF converted successfully")
                 (lit "/download/converted-1700000000000.docx")
                 (lit "report.pdf"))).
Proof.
  destruct (soft_extraction_failure idle report_pdf unreadable
              (Error None (lit "Invalid PDF structure"))
              eq_refl ltac:(vm_compute; discriminate) eq_refl)
    as (d & w' & P & T & _ & _ & S).
  exists d, w'. split; [exact P|]. split; [exact T|exact S].
Defined.

(** The same on the route, from the request to the response, whatever
    the PDF holds: once the document is written the answer is the
    success. *)
Lemma conversion_succeeds w p env :
  isShuttingDown w = false ->
  mimetype p = pdf_type -> (size p <= fileSize)%N ->
  sent (conversion [p] env StreamClose w) =
    Some (Response 200
            (JsonSuccess (lit "PDF converted successfully")
               (lit "/download/" ++ lit "converted-" ++ decimal (now env)
                  ++ lit ".docx")
               (originalname p))).
Proof.
  intros Sh Hm Hs. unfold conversion.
  rewrite (post_convert_running [p] env w Sh).
  rewrite (upload_and_convert_accepted p env _ Hm Hs).
  match goal with
  | |- context [convert_callback None (Some ?f) env ?v] =>
      destruct (callback_accepts f env v) as ((text & R & _) & _);
      destruct (convert_callback None (Some f) env v) as [r w']
  end.
  simpl in R. subst r. reflexivity.
Qed.

(** ** Cleanup of the temporary file *)

(** Whatever the body of the [try] does, the [finally] block schedules
    the deletion of the temporary file the body has recorded. *)
Lemma finally_schedules (body : M (option writing)) w :
  timers (snd (try_finally body schedule_temp_cleanup w)) =
  timers (snd (body w)) ++
  match tempFilePath (snd (body w)) with
  | Some p => [Cleanup 1000 p]
  | None => []
  end.
Proof.
  unfold try_finally, schedule_temp_cleanup, bind, get.
  destruct (body w) as [r w']. simpl.
  destruct (tempFilePath w'); simpl; [reflexivity|].
  rewrite app_nil_r. reflexivity.
Qed.

(** C6, as the code has it.  Once the upload has been accepted, every way
    the conversion can end (success, extraction failure, write failure)
    leaves the deletion of the temporary file scheduled, one second after
    the handler; this is the work of the [finally] block, which schedules
    it whatever the body of the [try] did, once the body has recorded the
    temporary path.  When the upload is refused, or the server is
    shutting down, the handler knows no temporary file and schedules no
    deletion. *)
Theorem temp_cleanup_scheduled :
  (forall w p env ev,
      isShuttingDown w = false ->
      mimetype p = pdf_type -> (size p <= fileSize)%N ->
      In (Cleanup 1000 (Path uploadsDir (stored_as env)))
         (timers (conversion [p] env ev w))) /\
  (forall (body : M (option writing)) w p,
      tempFilePath (snd (body w)) = Some p ->
      In (Cleanup 1000 p)
         (timers (snd (try_finally body schedule_temp_cleanup w)))) /\
  (forall w parts env ev,
      refused parts -> timers (conversion parts env ev w) = timers w) /\
  (forall w parts env ev,
      isShuttingDown w = true ->
      timers (conversion parts env ev w) = timers w).
Proof.
  assert (C : forall w parts env ev,
             isShuttingDown w = true ->
             timers (conversion parts env ev w) = timers w).
  { intros w parts env ev Sh. unfold conversion. rewrite finish_timers.
    destruct (post_convert_closing parts env w Sh) as (R & T & _).
    rewrite R, T. apply app_nil_r. }
  split; [|split; [|split]]; [| | |exact C].
  - intros w p env ev Sh Hm Hs. unfold conversion. rewrite finish_timers.
    rewrite (post_convert_running [p] env w Sh).
    rewrite (upload_and_convert_accepted p env _ Hm Hs).
    match goal with
    | |- context [convert_callback None (Some ?f) env ?v] =>
        destruct (callback_accepts f env v) as (_ & _ & _ & T & _)
    end.
    rewrite T. rewrite !in_app_iff. simpl. tauto.
  - intros body w p H. rewrite finally_schedules, H.
    apply in_or_app. right. left. reflexivity.
  - intros w parts env ev R. destruct (isShuttingDown w) eqn:Sh;
      [apply (C w parts env ev Sh)|].
    unfold conversion. rewrite finish_timers.
    rewrite (post_convert_running parts env w Sh).
    match goal with
    | |- context [upload_and_convert parts env ?v] =>
        destruct (upload_and_convert_refused parts env v R) as (F & _ & _ & T)
    end.
    rewrite F, T. apply app_nil_r.
Qed.

Lemma temp_cleanup_scheduled_witness :
  In (Cleanup 1000 (Path uploadsDir (stored_as unreadable)))
     (timers (conversion [report_pdf] unreadable (StreamError disk_full) idle)) /\
  In (Cleanup 1000 (Path uploadsDir (lit "pdfFile-1.pdf")))
     (timers (snd (try_finally
                     (modify (set_tempFilePath
                                (Some (Path uploadsDir (lit "pdfFile-1.pdf")))) ;;
                      (throw disk_full : M (option writing)))
                     schedule_temp_cleanup idle))) /\
  timers (conversion [] readable StreamClose idle) = timers idle /\
  timers (conversion [report_pdf] readable StreamClose closing) = timers closing.
Proof.
  destruct temp_cleanup_scheduled as (A & F & B & C).
  split; [|split; [|split]].
  - apply (A idle report_pdf unreadable (StreamError disk_full) eq_refl eq_refl).
    vm_compute. discriminate.
  - apply (F _ idle (Path uploadsDir (lit "pdfFile-1.pdf"))). reflexivity.
  - apply (B idle [] readable StreamClose). left. reflexivity.
  - apply (C closing [report_pdf] readable StreamClose eq_refl).
Defined.

(** C6, as the claim has it, fails: an upload refused by validation ends
    with a 400 and with no deletion scheduled, whether nothing was stored
    (a PNG the filter turns down) or a first file had been stored before
    the second one broke the limit. *)
Lemma refused_upload_schedules_nothing :
  let w1 := conversion [picture_png] readable StreamClose idle in
  let w2 := conversion [report_pdf; report_pdf] readable StreamClose idle in
  sent w1 = Some (Response 400 (JsonError (lit "Please select a valid PDF file") None))
  /\ ~ (exists ms p, In (Cleanup ms p) (timers w1)) /\
  sent w2 = Some (Response 400 (JsonError (lit "Failed to convert PDF") None))
  /\ ~ (exists ms p, In (Cleanup ms p) (timers w2)).
Proof.
  vm_compute. repeat split; intros (ms & p & []).
Qed.

(** ** What an error response tells *)

(** The body the catch block sends, in full. *)
Lemma conversion_failed_sent e w :
  sent (snd (conversion_failed e w)) =
  Some (Response 400
          (JsonError (errorMessage e)
             (if development w then Some (message e) else None))).
Proof. reflexivity. Qed.

Lemma errorMessage_class e1 e2 :
  error_class e1 = error_class e2 -> errorMessage e1 = errorMessage e2.
Proof.
  unfold error_class, errorMessage. intros H. injection H as -> -> ->.
  reflexivity.
Qed.

(** What the upload and its callback answer: nothing, or the body of the
    catch block. *)
Lemma upload_and_convert_sent parts env w :
  sent (snd (upload_and_convert parts env w)) = sent w \/
  exists e,
    sent (snd (upload_and_convert parts env w)) =
    Some (Response 400
            (JsonError (errorMessage e)
               (if development w then Some (message e) else None))).
Proof.
  unfold upload_and_convert.
  destruct (upload_single (stored_as env) parts) as [[u|] [f|]]; run.
  - right. exists u. reflexivity.
  - right. exists u. reflexivity.
  - left. destruct (parse env); reflexivity.
  - right. exists (Error None (lit "No file uploaded")). reflexivity.
Qed.

Lemma bind_ret_state {A B} (m : M A) (f : A -> B) w :
  snd ((r <- m ;; ret (f r)) w) = snd (m w).
Proof. unfold bind, ret. destruct (m w) as [[a|e] w']; reflexivity. Qed.

Lemma post_convert_details parts env w s t d :
  sent (snd (post_convert parts env w)) = Some (Response s (JsonError t (Some d))) ->
  development w = true.
Proof.
  destruct (isShuttingDown w) eqn:Sh.
  - destruct (post_convert_closing parts env w Sh) as (_ & _ & S).
    rewrite S. discriminate.
  - rewrite (post_convert_running parts env w Sh).
    destruct (upload_and_convert_sent parts env
                (set_streamed None (set_sent None w))) as [H|(e & H)];
      rewrite H; [discriminate|].
    change (development (set_streamed None (set_sent None w)))
      with (development w).
    destruct (development w); [reflexivity|discriminate].
Qed.

(** No route sends the message of an error outside development mode. *)
Lemma app_details req sur w s t d :
  sent (snd (app req sur w)) = Some (Response s (JsonError t (Some d))) ->
  development w = true.
Proof.
  unfold app. unfold bind at 1 2, new_request, modify, get. simpl.
  destruct (static_serves _ req); [discriminate|].
  destruct req as [[] [] parts]; simpl; try discriminate.
  - unfold get_root, error_middleware, shutting_down_response, bind, get, send,
      modify, log_error. simpl.
    destruct (isShuttingDown w); [discriminate|].
    destruct (public_index w); discriminate.
  - rewrite bind_ret_state.
    unfold get_download, shutting_down_response, bind, new_request, get, send,
      modify, ret. simpl.
    destruct (isShuttingDown w); [discriminate|].
    destruct (test re_filename filename); simpl; [|discriminate].
    match goal with |- context [existsSync ?v ?q] => destruct (existsSync v q) end;
      discriminate.
  - rewrite bind_ret_state. intros H.
    apply post_convert_details in H. exact H.
Qed.

(** C8, as the code has it.  The message of the error is sent, as
    [details], by the catch block of the conversion and only in
    development mode; no route, no failed download and not the error
    middleware send it otherwise.  Outside development mode the body the
    catch block sends depends on the error through three tests only (is
    its code LIMIT_FILE_SIZE, does its message contain "Only PDF files",
    does it contain "No file uploaded"): two errors that agree on them get
    the same response.  The body of the error middleware depends on the
    code alone. *)
Theorem error_details_only_in_development :
  (forall e w s t d,
      sent (snd (conversion_failed e w)) = Some (Response s (JsonError t (Some d))) ->
      development w = true /\ d = message e) /\
  (forall req sur w s t d,
      sent (snd (app req sur w)) = Some (Response s (JsonError t (Some d))) ->
      development w = true) /\
  (forall e1 e2 w,
      development w = false -> error_class e1 = error_class e2 ->
      sent (snd (conversion_failed e1 w)) = sent (snd (conversion_failed e2 w))) /\
  (forall e1 e2 isMulterError w,
      code_is e1 (lit "LIMIT_FILE_SIZE") = code_is e2 (lit "LIMIT_FILE_SIZE") ->
      sent (snd (error_middleware e1 isMulterError false w)) =
      sent (snd (error_middleware e2 isMulterError false w))) /\
  (forall e isMulterError w s t d,
      sent (snd (error_middleware e isMulterError false w))
      <> Some (Response s (JsonError t (Some d)))) /\
  (forall f e w s t d,
      sent (snd (download_callback f (Some e) false w))
      <> Some (Response s (JsonError t (Some d)))).
Proof.
  repeat match goal with |- _ /\ _ => split end.
  - intros e w s t d. rewrite conversion_failed_sent.
    destruct (development w); intros H; [|discriminate].
    injection H as _ _ <-. split; reflexivity.
  - apply app_details.
  - intros e1 e2 w Dev Cl. rewrite !conversion_failed_sent, Dev.
    rewrite (errorMessage_class e1 e2 Cl). reflexivity.
  - intros e1 e2 m w H. run. rewrite H. destruct (m && _); reflexivity.
  - intros e m w s t d. run. destruct (m && _); discriminate.
  - intros f e w s t d. run. discriminate.
Qed.

Lemma error_details_only_in_development_witness :
  sent (snd (conversion_failed (Error None (lit "socket hang up")) idle)) =
  sent (snd (conversion_failed (Error None (lit "write EPIPE")) idle)) /\
  development development_mode = true.
Proof.
  destruct error_details_only_in_development as (A & _ & B & _).
  split.
  - apply (B (Error None (lit "socket hang up")) (Error None (lit "write EPIPE"))
             idle eq_refl eq_refl).
  - apply (A disk_full development_mode 400%N (lit "Failed to convert PDF")
             (lit "no space left on device") eq_refl).
Defined.

(** C8, as the claim has it, fails: outside development mode two upload
    errors that differ in their message only are answered differently. *)
Lemma error_body_depends_on_message :
  let e1 := Error None (lit "No file uploaded") in
  let e2 := Error None (lit "Unexpected end of form") in
  development idle = false /\
  err_code e1 = err_code e2 /\
  sent (snd (convert_callback (Some e1) None readable idle)) =
    Some (Response 400 (JsonError (lit "No file was uploaded") None)) /\
  sent (snd (convert_callback (Some e2) None readable idle)) =
    Some (Response 400 (JsonError (lit "Failed to convert PDF") None)) /\
  sent (snd (convert_callback (Some e1) None readable idle)) <>
  sent (snd (convert_callback (Some e2) None readable idle)).
Proof. vm_compute. repeat split. discriminate. Qed.

(** ** The file-name pattern of the download route *)

Lemma seq_literal m ts : forall pat prev s,
  seq m (literal pat ++ ts) prev s =
  if starts_with pat s
  then option_map (Nat.add (length pat))
         (seq m ts (lastc prev pat) (skipn (length pat) s))
  else None.
Proof.
  induction pat as [|a pat IH]; intros prev s.
  - simpl. destruct (seq m ts prev s); reflexivity.
  - destruct s as [|c s]; [reflexivity|].
    change (literal (a :: pat) ++ ts) with (One (chr a) :: (literal pat ++ ts)).
    cbn [seq starts_with]. unfold chr. rewrite (N.eqb_sym c a).
    destruct (N.eqb_spec a c) as [->|]; [|reflexivity].
    rewrite IH. simpl andb. destruct (starts_with pat s); [|reflexivity].
    simpl. destruct (seq m ts _ _); reflexivity.
Qed.

Lemma docx_tail_commits m q c t :
  cls_d c = true -> seq m (literal (lit ".docx") ++ [Dollar]) q (c :: t) = None.
Proof.
  intros H. rewrite seq_literal.
  assert (E : N.eqb 46 c = false).
  { unfold cls_d in H. apply andb_true_iff in H. destruct H as [H _].
    apply N.leb_le in H. apply N.eqb_neq. lia. }
  cbn [lit list_ascii_of_string map starts_with]. 
  change (N_of_ascii ".") with 46%N. rewrite E. reflexivity.
Qed.

Lemma exec_filename_start s :
  exec_at re_filename None s = None <-> filename_ok s = false.
Proof.
  unfold exec_at, re_filename, filename_ok.
  cbn [alternatives multiline alt]. cbn [seq at_line_start].
  rewrite seq_literal.
  destruct (starts_with (lit "converted-") s); [|simpl; tauto].
  change (length (lit "converted-")) with 10.
  set (s1 := skipn 10 s).
  change ([AtLeast 1 cls_d] ++ literal (lit ".docx") ++ [Dollar])
    with (AtLeast 1 cls_d :: (literal (lit ".docx") ++ [Dollar])).
  cbn [seq].
  rewrite (rep_committed cls_d _ (docx_tail_commits false)).
  destruct (Nat.leb 1 (prefix_len cls_d s1)); [|simpl; tauto].
  rewrite seq_literal.
  destruct (starts_with (lit ".docx") (skipn (prefix_len cls_d s1) s1));
    [|simpl; tauto].
  change (length (lit ".docx")) with 5.
  cbn [seq at_line_end].
  destruct (skipn 5 (skipn (prefix_len cls_d s1) s1)); simpl; split;
    congruence.
Qed.

Lemma search_anchored : forall s c, search re_filename (Some c) s = false.
Proof.
  induction s as [|d s IH]; intros c; simpl; [reflexivity|apply IH].
Qed.

Lemma test_filename s : test re_filename s = filename_ok s.
Proof.
  unfold test. pose proof (exec_filename_start s) as H.
  destruct s as [|c s]; cbn [search].
  - destruct (exec_at re_filename None []); [|symmetry; apply H; reflexivity].
    destruct (filename_ok []); [reflexivity|].
    destruct H as [_ H]. discriminate (H eq_refl).
  - rewrite search_anchored.
    destruct (exec_at re_filename None (c :: s)).
    + destruct (filename_ok (c :: s)); [reflexivity|].
      destruct H as [_ H]. discriminate (H eq_refl).
    + symmetry. apply H. reflexivity.
Qed.

Lemma starts_with_app pat t : starts_with pat (pat ++ t) = true.
Proof.
  induction pat as [|a pat IH]; simpl; [reflexivity|].
  rewrite N.eqb_refl. exact IH.
Qed.

Lemma starts_with_split : forall pat s,
  starts_with pat s = true -> s = pat ++ skipn (length pat) s.
Proof.
  induction pat as [|a pat IH]; intros s H; [reflexivity|].
  destruct s as [|c s]; simpl in H; [discriminate|].
  apply andb_true_iff in H. destruct H as [E H]. apply N.eqb_eq in E.
  subst c. simpl. f_equal. apply IH, H.
Qed.

Lemma skipn_exact (l t : jstring) : skipn (length l) (l ++ t) = t.
Proof. induction l as [|a l IH]; simpl; [reflexivity|exact IH]. Qed.

(** The pattern of the source accepts exactly the names
    [converted-<digits>.docx]. *)
Lemma filename_ok_iff s : filename_ok s = true <-> converted_name s.
Proof.
  unfold filename_ok, converted_name. split.
  - intros H. apply andb_true_iff in H. destruct H as [H Hnil].
    apply andb_true_iff in H. destruct H as [H Hdocx].
    apply andb_true_iff in H. destruct H as [Hconv Hn].
    apply Nat.leb_le in Hn.
    apply starts_with_split in Hconv. apply starts_with_split in Hdocx.
    change (length (lit "converted-")) with 10 in Hconv.
    change (length (lit ".docx")) with 5 in Hdocx.
    set (s1 := skipn 10 s) in *. set (n := prefix_len cls_d s1) in *.
    destruct (skipn 5 (skipn n s1)); [|discriminate].
    exists (firstn n s1). split; [|split].
    + intros E. apply (f_equal (@length code)) in E.
      rewrite length_firstn in E. simpl in E.
      pose proof (prefix_len_le cls_d s1). fold n in H. lia.
    + apply prefix_firstn.
    + rewrite Hconv at 1. f_equal.
      rewrite <- (firstn_skipn n s1) at 1. f_equal.
      rewrite Hdocx. apply app_nil_r.
  - intros (ds & Hne & Hds & ->).
    rewrite starts_with_app.
    change 10 with (length (lit "converted-")). rewrite skipn_exact.
    assert (P : prefix_len cls_d (ds ++ lit ".docx") = length ds)
      by (apply (prefix_len_app cls_d); [exact Hds|reflexivity]).
    rewrite P, skipn_exact.
    destruct ds as [|d ds]; [destruct (Hne eq_refl)|]. reflexivity.
Qed.

Lemma test_filename_iff s : test re_filename s = true <-> converted_name s.
Proof. rewrite test_filename. apply filename_ok_iff. Qed.

(** What the download route does, in full. *)
Lemma get_download_effect filename clock w :
  let w' := snd (get_download filename clock w) in
  (sent w', streamed w') =
  if isShuttingDown w
  then (Some (Response 503 (JsonError (lit "Server is shutting down") None)), None)
  else if negb (test re_filename filename)
  then (Some (Response 400 (JsonError (lit "Invalid filename") None)), None)
  else if negb (existsSync w (Path outputDir filename))
  then (Some (Response 404 (JsonError (lit "File not found or expired") None)), None)
  else (None, Some (Path outputDir filename,
                    lit "document-" ++ decimal clock ++ lit ".docx")).
Proof.
  unfold get_download, bind, new_request, modify, get, shutting_down_response,
    send, ret. simpl.
  destruct (isShuttingDown w); [reflexivity|].
  destruct (test re_filename filename); simpl; [|reflexivity].
  change (existsSync (set_streamed None (set_sent None w)) (Path outputDir filename))
    with (existsSync w (Path outputDir filename)).
  destruct (existsSync w (Path outputDir filename)); reflexivity.
Qed.

(** C7, as the code has it.  A request for a name that is not of the
    shape [converted-<digits>.docx] is answered with a JSON error (400, or
    503 while the server is shutting down) and no file is streamed;
    whatever is streamed is a file of the output directory with a name of
    that shape; on a server that is not shutting down, a name of that
    shape whose file is absent is answered 404.  The path-traversal name
    [../../etc/passwd] is not of that shape. *)
Theorem download_filename_checked :
  (forall w filename clock,
      ~ converted_name filename ->
      let w' := snd (get_download filename clock w) in
      is_json_error (sent w') /\ streamed w' = None /\
      (isShuttingDown w = false ->
       sent w' = Some (Response 400 (JsonError (lit "Invalid filename") None)))) /\
  (forall w filename clock p name,
      streamed (snd (get_download filename clock w)) = Some (p, name) ->
      converted_name filename /\ p = Path outputDir filename) /\
  (forall w filename clock,
      isShuttingDown w = false -> converted_name filename ->
      existsSync w (Path outputDir filename) = false ->
      let w' := snd (get_download filename clock w) in
      sent w' = Some (Response 404 (JsonError (lit "File not found or expired") None))
      /\ streamed w' = None) /\
  ~ converted_name (lit "../../etc/passwd").
Proof.
  split; [|split; [|split]].
  - intros w filename clock Hn w'.
    pose proof (get_download_effect filename clock w) as E. fold w' in E.
    assert (T : test re_filename filename = false).
    { destruct (test re_filename filename) eqn:T; [|reflexivity].
      apply test_filename_iff in T. destruct (Hn T). }
    rewrite T in E. simpl in E.
    destruct (isShuttingDown w); injection E as -> ->;
      (split; [do 3 eexists; split; [reflexivity|discriminate]|]);
      split; try reflexivity. discriminate.
  - intros w filename clock p name S.
    pose proof (get_download_effect filename clock w) as E. cbv zeta in E.
    rewrite S in E.
    destruct (isShuttingDown w); [discriminate|].
    destruct (test re_filename filename) eqn:T; [|discriminate].
    simpl in E. destruct (existsSync w (Path outputDir filename));
      [|discriminate].
    simpl in E. injection E as _ -> _.
    split; [apply test_filename_iff, T|reflexivity].
  - intros w filename clock Sh Hc Ex w'.
    pose proof (get_download_effect filename clock w) as E. fold w' in E.
    apply test_filename_iff in Hc. rewrite Sh, Hc, Ex in E. simpl in E.
    injection E as -> ->. split; reflexivity.
  - intros H. apply test_filename_iff in H. vm_compute in H. discriminate.
Qed.

Lemma download_filename_checked_witness :
  sent (snd (get_download (lit "../../etc/passwd") 5 idle)) =
    Some (Response 400 (JsonError (lit "Invalid filename") None)) /\
  streamed (snd (get_download (lit "../../etc/passwd") 5 idle)) = None /\
  sent (snd (get_download (lit "converted-1700000000000.docx") 5 idle)) =
    Some (Response 404 (JsonError (lit "File not found or expired") None)).
Proof.
  destruct download_filename_checked as (A & _ & C & D).
  destruct (A idle (lit "../../etc/passwd") 5%N D) as (_ & S & R).
  split; [exact (R eq_refl)|]. split; [exact S|].
  apply (C idle (lit "converted-1700000000000.docx") 5%N eq_refl).
  - apply test_filename_iff. vm_compute. reflexivity.
  - reflexivity.
Defined.

(** C7, as the claim has it, fails in its last part: while the server is
    shutting down a well-formed name whose file is absent is answered 503,
    not 404. *)
Lemma absent_file_during_shutdown :
  let name := lit "converted-1700000000000.docx" in
  converted_name name /\
  isShuttingDown closing = true /\
  existsSync closing (Path outputDir name) = false /\
  sent (snd (get_download name 5 closing)) =
    Some (Response 503 (JsonError (lit "Server is shutting down") None)) /\
  sent (snd (get_download name 5 closing)) <>
    Some (Response 404 (JsonError (lit "File not found or expired") None)).
Proof.
  split; [apply test_filename_iff; vm_compute; reflexivity|].
  vm_compute. repeat split. discriminate.
Qed.

(** ** The name of the generated document *)

Lemma uint_digits (d : Decimal.uint) :
  forallb cls_d (lit (NilEmpty.string_of_uint d)) = true.
Proof. induction d; simpl; try reflexivity; exact IHd. Qed.

Lemma uint_nonempty (d : Decimal.uint) :
  d <> Decimal.Nil -> lit (NilEmpty.string_of_uint d) <> [].
Proof. destruct d; intros H; try discriminate. destruct (H eq_refl). Qed.

Lemma decimal_digits n : forallb cls_d (decimal n) = true /\ decimal n <> [].
Proof.
  unfold decimal. split; [apply uint_digits|].
  apply uint_nonempty. destruct n as [|p]; [discriminate|].
  apply Unsigned.to_uint_nonnil.
Qed.

(** The name a conversion gives its document is one the download route
    accepts. *)
Lemma generated_name_accepted n :
  test re_filename (lit "converted-" ++ decimal n ++ lit ".docx") = true.
Proof.
  apply test_filename_iff. destruct (decimal_digits n) as [D N].
  exists (decimal n). auto.
Qed.

(** ** The timers at work *)

Lemma path_eqb_refl p : path_eqb p p = true.
Proof.
  unfold path_eqb. rewrite str_eqb_refl. destruct (dir_of p); reflexivity.
Qed.

(** When the timer fires and the unlink succeeds the file is gone. *)
Lemma cleanup_removes io p w :
  io p = None -> existsSync (snd (safeFileCleanup io (Some p) w)) p = false.
Proof.
  intros Io. rewrite safeFileCleanup_effect, Io.
  destruct (existsSync w p) eqn:E; [|exact E].
  unfold existsSync. simpl.
  induction (disk w) as [|q l IH]; [reflexivity|].
  simpl. destruct (path_eqb p q) eqn:Q; simpl; [exact IH|].
  rewrite Q. exact IH.
Qed.

(** After a conversion the upload is on disk; when its timer fires, it is
    gone. *)
Example temp_file_removed :
  let temp := Path uploadsDir (stored_as readable) in
  let w' := conversion [report_pdf] readable StreamClose idle in
  existsSync w' temp = true /\
  timers w' = [Cleanup 1000 temp] /\
  existsSync (snd (fire no_io_error (Cleanup 1000 temp) w')) temp = false.
Proof. vm_compute. repeat split. Qed.

(* ===================================================================== *)
(** * Part III, proofs                                                    *)
(* ===================================================================== *)

(** ** The normaliser keeps the visible text *)

Lemma visible_space l : forallb cls_s l = true -> visible l = [].
Proof.
  induction l as [|c l IH]; simpl; [reflexivity|].
  intros H. apply andb_true_iff in H. destruct H as [Hc H].
  unfold solid. rewrite Hc. simpl. apply IH, H.
Qed.

Lemma visible_app a b : visible (a ++ b) = visible a ++ visible b.
Proof. apply filter_app. Qed.

Lemma forallb_weaken (p q : code -> bool) l :
  (forall c, p c = true -> q c = true) ->
  forallb p l = true -> forallb q l = true.
Proof.
  intros Hpq. induction l as [|c l IH]; simpl; [reflexivity|].
  intros H. apply andb_true_iff in H. destruct H as [Hc H].
  rewrite (Hpq c Hc). apply IH, H.
Qed.

Lemma firstn_prefix p : forall s j,
  j <= prefix_len p s -> forallb p (firstn j s) = true.
Proof.
  induction s as [|c s IH]; intros j H; simpl in H.
  - destruct j; [reflexivity|lia].
  - destruct j as [|j]; [reflexivity|]. simpl.
    destruct (p c); [|lia]. apply IH. lia.
Qed.

(** A repetition whose continuation consumes nothing stays inside the
    run. *)
Lemma rep_within p k :
  (forall q t j, k q t = Some j -> j = 0) ->
  forall s n prev j, rep p k n prev s = Some j -> j <= prefix_len p s.
Proof.
  intros Hk.
  assert (Hstop : forall n prev s j,
            match n with O => k prev s | S _ => None end = Some j -> j = 0).
  { intros n prev s j H. destruct n; [apply (Hk _ _ _ H)|discriminate]. }
  induction s as [|c s IH]; intros n prev j H; simpl in H.
  - rewrite (Hstop _ _ _ _ H). simpl. lia.
  - simpl. destruct (p c).
    + destruct (rep p k (pred n) (Some c) s) as [j'|] eqn:R.
      * injection H as <-. apply IH in R. lia.
      * rewrite (Hstop _ _ _ _ H). lia.
    + rewrite (Hstop _ _ _ _ H). lia.
Qed.

Lemma replace_from_empty_match re by_ prev c s :
  exec_at re prev (c :: s) = Some 0 ->
  replace_from re by_ O prev (c :: s) =
  by_ ++ c :: replace_from re by_ O (Some c) s.
Proof.
  intros E.
  change (replace_from re by_ O prev (c :: s))
    with (match exec_at re prev (c :: s) with
          | Some (S k) => by_ ++ replace_from re by_ k (Some c) s
          | Some O => by_ ++ c :: replace_from re by_ O (Some c) s
          | None => c :: replace_from re by_ O (Some c) s
          end).
  rewrite E. reflexivity.
Qed.

(** Replacing white space by white space leaves the visible text alone. *)
Lemma replace_visible re by_ :
  matches_space re -> forallb cls_s by_ = true ->
  forall n s, length s <= n -> forall prev,
    visible (replace_from re by_ O prev s) = visible s.
Proof.
  intros Hre Hby. pose proof (visible_space by_ Hby) as Vb.
  induction n as [|n IH]; intros s Hn prev.
  - destruct s; [|simpl in Hn; lia]. simpl.
    destruct (exec_at re prev []) as [[|k]|] eqn:X; try reflexivity.
    + rewrite app_nil_r. exact Vb.
    + destruct (Hre _ _ _ X) as [L _]. simpl in L. lia.
  - destruct s as [|c s].
    + simpl. destruct (exec_at re prev []) as [[|k]|] eqn:X; try reflexivity.
      * rewrite app_nil_r. exact Vb.
      * destruct (Hre _ _ _ X) as [L _]. simpl in L. lia.
    + simpl in Hn. destruct (exec_at re prev (c :: s)) as [[|k]|] eqn:X.
      * rewrite (replace_from_empty_match _ _ _ _ _ X).
        rewrite visible_app, Vb. simpl. rewrite IH by lia. reflexivity.
      * destruct (Hre _ _ _ X) as [L F].
        rewrite (replace_from_match _ _ _ _ _ X L).
        rewrite visible_app, Vb. cbn [List.app].
        rewrite IH by (rewrite length_skipn; simpl; lia).
        rewrite <- (firstn_skipn (S k) (c :: s)) at 2.
        rewrite visible_app, (visible_space _ F). reflexivity.
      * rewrite (replace_from_keep _ _ _ _ _ X). simpl.
        rewrite IH by lia. reflexivity.
Qed.

Lemma crlf_matches_space : matches_space re_crlf.
Proof.
  intros prev s n. unfold exec_at. simpl.
  destruct s as [|c [|d s]]; try discriminate.
  - destruct (chr CR c); discriminate.
  - destruct (chr CR c) eqn:Ec; [|discriminate].
    destruct (chr LF d) eqn:Ed; [|discriminate].
    intros H. injection H as <-. apply chr_true in Ec, Ed. subst.
    split; [simpl; lia|reflexivity].
Qed.

Lemma cr_matches_space : matches_space re_cr.
Proof.
  intros prev s n. unfold exec_at. simpl.
  destruct s as [|c s]; [discriminate|].
  destruct (chr CR c) eqn:Ec; [|discriminate].
  intros H. injection H as <-. apply chr_true in Ec. subst.
  split; [simpl; lia|reflexivity].
Qed.

Lemma blank_lines_matches_space : matches_space re_blank_lines.
Proof.
  intros prev s n. rewrite exec_blank_lines.
  destruct (Nat.leb 3 (prefix_len (chr LF) s)); [|discriminate].
  intros H. injection H as <-. split; [apply prefix_len_le|].
  apply (forallb_weaken (chr LF) cls_s); [|apply prefix_firstn].
  intros c Hc. apply lt_is_s, lf_is_lt, Hc.
Qed.

Lemma blanks_matches_space : matches_space re_blanks.
Proof.
  intros prev s n. rewrite exec_blanks.
  destruct (Nat.leb 2 (prefix_len cls_blank s)); [|discriminate].
  intros H. injection H as <-. split; [apply prefix_len_le|].
  apply (forallb_weaken cls_blank cls_s); [apply blank_is_s|apply prefix_firstn].
Qed.

Lemma edges_matches_space : matches_space re_edges.
Proof.
  intros prev s n X.
  assert (L : n <= prefix_len cls_s s).
  { rewrite exec_edges in X.
    destruct (at_line_start true prev && Nat.leb 1 (prefix_len cls_s s)).
    - injection X as <-. lia.
    - apply (rep_within cls_s (line_end true)) in X; [exact X|].
      intros q t j. unfold line_end. destruct (at_line_end true t);
        congruence. }
  split; [pose proof (prefix_len_le cls_s s); lia|].
  apply firstn_prefix, L.
Qed.

Lemma visible_trimStart s : visible (trimStart s) = visible s.
Proof.
  induction s as [|c s IH]; [reflexivity|].
  cbn [trimStart]. destruct (cls_s c) eqn:E; [|reflexivity].
  rewrite IH. unfold visible. simpl. unfold solid at 2. rewrite E. reflexivity.
Qed.

Lemma visible_trim s : visible (trim s) = visible s.
Proof.
  unfold trim, trimEnd, visible. rewrite filter_rev.
  fold (visible (trimStart (rev (trimStart s)))).
  rewrite visible_trimStart. unfold visible. rewrite filter_rev, rev_involutive.
  apply visible_trimStart.
Qed.

Lemma visible_normalise s : visible (normalise s) = visible s.
Proof.
  unfold normalise, replace. rewrite visible_trim.
  rewrite (replace_visible re_edges [] edges_matches_space eq_refl _ _ (le_n _)).
  rewrite (replace_visible re_blanks [SP] blanks_matches_space eq_refl _ _ (le_n _)).
  rewrite (replace_visible re_blank_lines [LF; LF] blank_lines_matches_space
             eq_refl _ _ (le_n _)).
  rewrite (replace_visible re_cr [LF] cr_matches_space eq_refl _ _ (le_n _)).
  apply (replace_visible re_crlf [LF] crlf_matches_space eq_refl _ _ (le_n _)).
Qed.

(** X1.  Whatever [cleanText] removes or replaces is white space: a
    string with some visible unit comes out with the same visible units,
    in the same order. *)
Theorem cleanText_keeps_text (s : jstring) :
  visible s <> [] -> visible (cleanText (VString s)) = visible s.
Proof.
  intros H. pose proof (visible_normalise s) as V.
  destruct s as [|c s]; [destruct (H eq_refl)|].
  unfold cleanText. destruct (normalise (c :: s)) as [|d r].
  - destruct (H (eq_sym V)).
  - exact V.
Qed.

Lemma cleanText_keeps_text_witness :
  visible (cleanText (VString (lit "  a b  "))) = lit "ab".
Proof.
  apply (cleanText_keeps_text (lit "  a b  ")). vm_compute. discriminate.
Defined.

Lemma tidy_visible z : tidy None z = true -> visible z = [] -> z = [].
Proof.
  destruct z as [|c z]; [reflexivity|]. simpl. intros T V.
  apply andb_true_iff in T. destruct T as [T _].
  unfold solid in V. rewrite T in V. discriminate.
Qed.

(** X2.  The text trims to nothing exactly when it has no visible unit,
    and then, unless it is the empty string, the answer is the
    empty-document message. *)
Theorem cleanText_blank_input (s : jstring) :
  (normalise s = [] <-> visible s = []) /\
  (s <> [] -> visible s = [] -> cleanText (VString s) = empty_doc_msg).
Proof.
  assert (E : normalise s = [] <-> visible s = []).
  { split; intros H.
    - rewrite <- (visible_normalise s), H. reflexivity.
    - apply tidy_visible; [apply normalise_clean|].
      rewrite visible_normalise. exact H. }
  split; [exact E|].
  intros Hs Hv. destruct s as [|c s]; [destruct (Hs eq_refl)|].
  unfold cleanText. destruct E as [_ E]. rewrite (E Hv). reflexivity.
Qed.

Lemma cleanText_blank_input_witness :
  cleanText (VString [SP; LF; TAB; CR]) = empty_doc_msg.
Proof.
  destruct (cleanText_blank_input [SP; LF; TAB; CR]) as [_ H].
  apply H; [discriminate|reflexivity].
Defined.

(** ** What comes out between two words *)

Lemma replace_inert_prefix re by_ p :
  starts_in re p ->
  forall m prev r,
    outside p m = true ->
    replace_from re by_ O prev (m ++ r) =
    m ++ replace_from re by_ O (lastc prev m) r.
Proof.
  intros Hre. induction m as [|c m IH]; intros prev r H; [reflexivity|].
  simpl in H. apply andb_true_iff in H. destruct H as [Hc H].
  apply negb_true_iff in Hc. cbn [List.app].
  rewrite (replace_from_keep _ _ _ _ _ (Hre prev c (m ++ r) Hc)).
  rewrite (IH _ _ H). reflexivity.
Qed.

Lemma crlf_starts : starts_in re_crlf (chr CR).
Proof.
  intros prev c s H. unfold exec_at. simpl. rewrite H. reflexivity.
Qed.

Lemma cr_starts : starts_in re_cr (chr CR).
Proof.
  intros prev c s H. unfold exec_at. simpl. rewrite H. reflexivity.
Qed.

Lemma blank_lines_starts : starts_in re_blank_lines (chr LF).
Proof.
  intros prev c s H. rewrite exec_blank_lines. simpl. rewrite H. reflexivity.
Qed.

Lemma blanks_starts : starts_in re_blanks cls_blank.
Proof.
  intros prev c s H. rewrite exec_blanks. simpl. rewrite H. reflexivity.
Qed.

Lemma edges_starts : starts_in re_edges cls_s.
Proof.
  intros prev c s H. apply exec_edges_solid. simpl. rewrite H. reflexivity.
Qed.

Lemma solid_outside (p : code -> bool) l :
  (forall c, p c = true -> cls_s c = true) ->
  forallb solid l = true -> outside p l = true.
Proof.
  intros Hp. unfold outside. apply forallb_weaken. intros c Hc.
  unfold solid in Hc. destruct (p c) eqn:E; [|reflexivity].
  rewrite (Hp c E) in Hc. discriminate.
Qed.

Lemma cr_is_s c : chr CR c = true -> cls_s c = true.
Proof. intros H. apply chr_true in H. subst. reflexivity. Qed.

Lemma lf_is_s c : chr LF c = true -> cls_s c = true.
Proof. intros H. apply lt_is_s, lf_is_lt, H. Qed.

Lemma lastc_app prev l c : lastc prev (l ++ [c]) = Some c.
Proof. unfold lastc. rewrite fold_left_app. reflexivity. Qed.

Lemma lastc_cons prev c l : exists d, lastc prev (c :: l) = Some d /\ In d (c :: l).
Proof.
  destruct (exists_last (l := c :: l)) as (l' & d & E); [discriminate|].
  exists d. rewrite E, lastc_app. split; [reflexivity|].
  apply in_or_app. right. left. reflexivity.
Qed.

(** Behind a word the scan is inside a line. *)
Lemma inside_after_word prev x :
  forallb solid x = true -> x <> [] -> at_line_start true (lastc prev x) = false.
Proof.
  intros H Hx. destruct x as [|c x]; [destruct (Hx eq_refl)|].
  destruct (lastc_cons prev c x) as (d & -> & Hd).
  rewrite forallb_forall in H. specialize (H d Hd). unfold solid in H.
  apply negb_true_iff in H. simpl. apply solid_not_lt, H.
Qed.

Lemma replace_word re by_ p prev y :
  starts_in re p -> outside p y = true ->
  exec_at re (lastc prev y) [] = None ->
  replace_from re by_ O prev y = y.
Proof.
  intros Hre Hy E. rewrite <- (app_nil_r y) at 1.
  rewrite (replace_inert_prefix re by_ p Hre y prev [] Hy).
  rewrite (replace_from_nil _ _ _ E). apply app_nil_r.
Qed.

Lemma trim_word_ends x m y :
  forallb solid x = true -> forallb solid y = true -> x <> [] -> y <> [] ->
  trim (x ++ m ++ y) = x ++ m ++ y.
Proof.
  intros Hx Hy Nx Ny. unfold trim, trimEnd.
  assert (S1 : trimStart (x ++ m ++ y) = x ++ m ++ y).
  { destruct x as [|c x]; [destruct (Nx eq_refl)|]. simpl in *.
    apply andb_true_iff in Hx. destruct Hx as [Hc _]. unfold solid in Hc.
    apply negb_true_iff in Hc. rewrite Hc. reflexivity. }
  rewrite S1.
  destruct (exists_last Ny) as (y' & d & ->).
  rewrite !app_assoc, rev_app_distr. simpl.
  rewrite forallb_app in Hy. apply andb_true_iff in Hy. destruct Hy as [_ Hd].
  simpl in Hd. rewrite andb_true_r in Hd. unfold solid in Hd.
  apply negb_true_iff in Hd. rewrite Hd. simpl. rewrite rev_involutive.
  reflexivity.
Qed.

Section Run.

Variables (re : regex) (p : code -> bool) (k : nat).

Hypothesis Hexec : forall prev s,
  exec_at re prev s =
  if Nat.leb k (prefix_len p s) then Some (prefix_len p s) else None.

Hypothesis Hk : 1 <= k.

(** A run shorter than the pattern asks for is passed over. *)
Lemma run_short by_ c0 t :
  p c0 = false ->
  forall m prev,
    forallb p m = true -> length m < k ->
    replace_from re by_ O prev (m ++ c0 :: t) =
    m ++ replace_from re by_ O (lastc prev m) (c0 :: t).
Proof using Hexec Hk.
  intros H0. induction m as [|c m IH]; intros prev Hm Hl; [reflexivity|].
  rewrite <- !app_comm_cons.
  rewrite (replace_from_keep re by_ prev c (m ++ c0 :: t)).
  - simpl in Hm. apply andb_true_iff in Hm. destruct Hm as [_ Hm].
    rewrite IH; [reflexivity|exact Hm|simpl in Hl; lia].
  - rewrite Hexec. change (c :: m ++ c0 :: t) with ((c :: m) ++ c0 :: t).
    rewrite (prefix_len_app p c0 t (c :: m) Hm H0).
    destruct (Nat.leb_spec k (length (c :: m))); [lia|reflexivity].
Qed.

(** A run long enough is replaced as a whole. *)
Lemma run_long by_ c0 t m prev :
  p c0 = false -> forallb p m = true -> k <= length m ->
  replace_from re by_ O prev (m ++ c0 :: t) =
  by_ ++ replace_from re by_ O (lastc prev m) (c0 :: t).
Proof using Hexec Hk.
  intros H0 Hm Hl.
  assert (E : exec_at re prev (m ++ c0 :: t) = Some (length m)).
  { rewrite Hexec, (prefix_len_app p c0 t m Hm H0).
    destruct (Nat.leb_spec k (length m)); [reflexivity|lia]. }
  destruct (length m) as [|j] eqn:L; [lia|].
  rewrite (replace_from_match re by_ prev _ j E).
  - rewrite <- L, firstn_app, Nat.sub_diag, firstn_all, skipn_app, skipn_all,
      Nat.sub_diag. simpl. rewrite app_nil_r. reflexivity.
  - rewrite length_app. lia.
Qed.

End Run.

Lemma exec_nil_crlf prev : exec_at re_crlf prev [] = None.
Proof. reflexivity. Qed.

Lemma exec_nil_cr prev : exec_at re_cr prev [] = None.
Proof. reflexivity. Qed.

Lemma exec_nil_blank_lines prev : exec_at re_blank_lines prev [] = None.
Proof. rewrite exec_blank_lines. reflexivity. Qed.

Lemma exec_nil_blanks prev : exec_at re_blanks prev [] = None.
Proof. rewrite exec_blanks. reflexivity. Qed.

Lemma exec_nil_edges prev : exec_at re_edges prev [] = None.
Proof. apply exec_edges_solid. reflexivity. Qed.

Lemma outside_app p a b :
  outside p (a ++ b) = outside p a && outside p b.
Proof. apply forallb_app. Qed.

(** A text without CR passes the two line-ending replacements as it is. *)
Lemma cr_stages s :
  outside (chr CR) s = true ->
  replace re_cr [LF] (replace re_crlf [LF] s) = s.
Proof.
  intros H. unfold replace.
  rewrite (replace_word re_crlf [LF] (chr CR) None s crlf_starts H
             (exec_nil_crlf _)).
  apply (replace_word re_cr [LF] (chr CR) None s cr_starts H (exec_nil_cr _)).
Qed.

Lemma blank_outside_lf b : forallb cls_blank b = true -> outside (chr LF) b = true.
Proof.
  unfold outside. apply forallb_weaken. intros c H.
  destruct (chr LF c) eqn:E; [|reflexivity].
  apply lf_is_lt in E. rewrite (blank_not_lt c H) in E. discriminate.
Qed.

Lemma blank_outside_cr b : forallb cls_blank b = true -> outside (chr CR) b = true.
Proof.
  unfold outside. apply forallb_weaken. intros c H.
  rewrite (blank_not_cr c H). reflexivity.
Qed.

Lemma repeat_lf n : forallb (chr LF) (repeat LF n) = true.
Proof. induction n as [|n IH]; [reflexivity|exact IH]. Qed.

Lemma lf_outside_cr n : outside (chr CR) (repeat LF n) = true.
Proof. induction n as [|n IH]; [reflexivity|exact IH]. Qed.

Section Words.

Variables x y : jstring.

Hypothesis Hx : forallb solid x = true.
Hypothesis Hy : forallb solid y = true.
Hypothesis Nx : x <> [].
Hypothesis Ny : y <> [].

Lemma word_head : exists c t, y = c :: t /\ cls_s c = false.
Proof.
  destruct y as [|c t]; [destruct (Ny eq_refl)|]. exists c, t.
  split; [reflexivity|]. simpl in Hy. apply andb_true_iff in Hy.
  destruct Hy as [H _]. apply negb_true_iff, H.
Qed.

(** The scan of any of the five patterns runs over the first word. *)
Lemma over_first re by_ p r :
  starts_in re p -> (forall c, p c = true -> cls_s c = true) ->
  replace re by_ (x ++ r) = x ++ replace_from re by_ O (lastc None x) r.
Proof.
  intros Hre Hp. unfold replace.
  apply (replace_inert_prefix re by_ p Hre x None r).
  apply solid_outside; assumption.
Qed.

(** ... and over the second, which is all that is left. *)
Lemma over_second re by_ p prev :
  starts_in re p -> (forall c, p c = true -> cls_s c = true) ->
  (forall q, exec_at re q [] = None) ->
  replace_from re by_ O prev y = y.
Proof.
  intros Hre Hp Hn. apply (replace_word re by_ p prev y Hre).
  - apply solid_outside; assumption.
  - apply Hn.
Qed.

Lemma words_outside p m :
  (forall c, p c = true -> cls_s c = true) ->
  outside p m = true -> outside p (x ++ m ++ y) = true.
Proof.
  intros Hp Hm. rewrite !outside_app, Hm.
  rewrite (solid_outside p x Hp Hx), (solid_outside p y Hp Hy). reflexivity.
Qed.

Lemma whole_text re by_ p m :
  starts_in re p -> (forall c, p c = true -> cls_s c = true) ->
  (forall q, exec_at re q [] = None) ->
  outside p m = true ->
  replace re by_ (x ++ m ++ y) = x ++ m ++ y.
Proof.
  intros Hre Hp Hn Hm. unfold replace.
  apply (replace_word re by_ p None _ Hre (words_outside p m Hp Hm)), Hn.
Qed.

(** The per-line trim on one white-space unit between the words: a line
    terminator stays, and so does a blank. *)
Lemma edges_one c :
  cls_s c = true ->
  replace re_edges [] (x ++ [c] ++ y) = x ++ [c] ++ y.
Proof.
  intros Hc. destruct word_head as (c0 & t & Ey & H0).
  rewrite (over_first re_edges [] cls_s _ edges_starts (fun _ H => H)).
  f_equal. cbn [List.app]. rewrite (replace_from_keep re_edges [] _ c y).
  - f_equal. apply (over_second re_edges [] cls_s _ edges_starts (fun _ H => H)
                      exec_nil_edges).
  - rewrite exec_edges, (inside_after_word None x Hx Nx), Ey. cbn [andb].
    cbn [rep]. rewrite Hc, H0. cbn [pred]. unfold line_end. cbn [at_line_end].
    rewrite (solid_not_lt c0 H0). reflexivity.
Qed.

(** ... on an empty line between them: both line feeds go. *)
Lemma edges_two :
  replace re_edges [] (x ++ [LF; LF] ++ y) = x ++ y.
Proof.
  destruct word_head as (c0 & t & Ey & H0).
  rewrite (over_first re_edges [] cls_s _ edges_starts (fun _ H => H)).
  f_equal. cbn [List.app].
  assert (E1 : exec_at re_edges (lastc None x) (LF :: LF :: y) = Some 1).
  { rewrite exec_edges, (inside_after_word None x Hx Nx), Ey. cbn [andb].
    cbn [rep]. change (cls_s LF) with true. cbv iota. rewrite H0.
    cbn [pred]. unfold line_end. cbn [at_line_end].
    rewrite (solid_not_lt c0 H0). reflexivity. }
  rewrite (replace_from_match re_edges [] _ _ 0 E1); [|simpl; lia].
  cbn [List.app firstn skipn lastc fold_left].
  assert (E2 : exec_at re_edges (Some LF) (LF :: y) = Some 1).
  { rewrite exec_edges, Ey. change (at_line_start true (Some LF)) with true.
    cbn [prefix_len]. change (cls_s LF) with true. cbv iota.
    cbn [prefix_len]. rewrite H0. reflexivity. }
  rewrite (replace_from_match re_edges [] _ _ 0 E2); [|simpl; lia].
  cbn [List.app firstn skipn lastc fold_left].
  apply (over_second re_edges [] cls_s _ edges_starts (fun _ H => H)
           exec_nil_edges).
Qed.

(** One line feed between two words. *)
Lemma normalise_line_feed : normalise (x ++ [LF] ++ y) = x ++ [LF] ++ y.
Proof.
  unfold normalise.
  rewrite (cr_stages _ (words_outside (chr CR) [LF] cr_is_s eq_refl)).
  destruct word_head as (c0 & t & Ey & H0).
  assert (L0 : chr LF c0 = false).
  { destruct (chr LF c0) eqn:E; [|reflexivity].
    apply lf_is_s in E. congruence. }
  assert (E3 : replace re_blank_lines [LF; LF] (x ++ [LF] ++ y) = x ++ [LF] ++ y).
  { rewrite (over_first re_blank_lines [LF; LF] (chr LF) _ blank_lines_starts
               lf_is_s).
    f_equal. rewrite Ey.
    rewrite (run_short re_blank_lines (chr LF) 3 exec_blank_lines
               ltac:(lia) [LF; LF] c0 t
               L0 [LF] _ eq_refl); [|simpl; lia].
    rewrite <- Ey. f_equal.
    apply (over_second re_blank_lines [LF; LF] (chr LF) _ blank_lines_starts
             lf_is_s exec_nil_blank_lines). }
  rewrite E3.
  rewrite (whole_text re_blanks [SP] cls_blank [LF] blanks_starts blank_is_s
             exec_nil_blanks eq_refl).
  rewrite (edges_one LF eq_refl).
  apply trim_word_ends; assumption.
Qed.

Lemma word_head_classes c0 :
  cls_s c0 = false ->
  chr LF c0 = false /\ chr CR c0 = false /\ cls_blank c0 = false.
Proof.
  intros H0. repeat split.
  - destruct (chr LF c0) eqn:E; [|reflexivity]. apply lf_is_s in E. congruence.
  - destruct (chr CR c0) eqn:E; [|reflexivity]. apply cr_is_s in E. congruence.
  - destruct (cls_blank c0) eqn:E; [|reflexivity].
    apply blank_is_s in E. congruence.
Qed.

(** An empty line, or several, between two words. *)
Lemma normalise_blank_lines n : 2 <= n -> normalise (x ++ repeat LF n ++ y) = x ++ y.
Proof.
  intros Hn. unfold normalise.
  rewrite (cr_stages _ (words_outside (chr CR) _ cr_is_s (lf_outside_cr n))).
  destruct word_head as (c0 & t & Ey & H0).
  destruct (word_head_classes c0 H0) as (L0 & _ & _).
  assert (E3 : replace re_blank_lines [LF; LF] (x ++ repeat LF n ++ y) =
               x ++ [LF; LF] ++ y).
  { rewrite (over_first re_blank_lines [LF; LF] (chr LF) _ blank_lines_starts
               lf_is_s).
    f_equal. rewrite Ey. destruct (Nat.leb_spec 3 n) as [H3|H3].
    - rewrite (run_long re_blank_lines (chr LF) 3 exec_blank_lines
                 ltac:(lia) [LF; LF] c0 t (repeat LF n) _ L0 (repeat_lf n));
        [|rewrite repeat_length; exact H3].
      rewrite <- Ey. f_equal.
      apply (over_second re_blank_lines [LF; LF] (chr LF) _ blank_lines_starts
               lf_is_s exec_nil_blank_lines).
    - assert (n = 2) as -> by lia.
      rewrite (run_short re_blank_lines (chr LF) 3 exec_blank_lines
                 ltac:(lia) [LF; LF] c0 t L0 (repeat LF 2) _ eq_refl);
        [|simpl; lia].
      rewrite <- Ey. f_equal.
      apply (over_second re_blank_lines [LF; LF] (chr LF) _ blank_lines_starts
               lf_is_s exec_nil_blank_lines). }
  rewrite E3.
  rewrite (whole_text re_blanks [SP] cls_blank [LF; LF] blanks_starts blank_is_s
             exec_nil_blanks eq_refl).
  rewrite edges_two.
  exact (trim_word_ends x [] y Hx Hy Nx Ny).
Qed.

(** One blank between two words. *)
Lemma normalise_blank c : cls_blank c = true -> normalise (x ++ [c] ++ y) = x ++ [c] ++ y.
Proof.
  intros Hc. unfold normalise.
  assert (Hb : forallb cls_blank [c] = true) by (simpl; rewrite Hc; reflexivity).
  rewrite (cr_stages _ (words_outside (chr CR) _ cr_is_s (blank_outside_cr _ Hb))).
  rewrite (whole_text re_blank_lines [LF; LF] (chr LF) [c] blank_lines_starts
             lf_is_s exec_nil_blank_lines (blank_outside_lf _ Hb)).
  destruct word_head as (c0 & t & Ey & H0).
  destruct (word_head_classes c0 H0) as (_ & _ & B0).
  assert (E4 : replace re_blanks [SP] (x ++ [c] ++ y) = x ++ [c] ++ y).
  { rewrite (over_first re_blanks [SP] cls_blank _ blanks_starts blank_is_s).
    f_equal. rewrite Ey.
    rewrite (run_short re_blanks cls_blank 2 exec_blanks ltac:(lia) [SP] c0 t
               B0 [c] _ Hb); [|simpl; lia].
    rewrite <- Ey. f_equal.
    apply (over_second re_blanks [SP] cls_blank _ blanks_starts blank_is_s
             exec_nil_blanks). }
  rewrite E4, (edges_one c (blank_is_s c Hc)).
  apply trim_word_ends; assumption.
Qed.

(** Two blanks or more between two words. *)
Lemma normalise_blanks b :
  forallb cls_blank b = true -> 2 <= length b ->
  normalise (x ++ b ++ y) = x ++ [SP] ++ y.
Proof.
  intros Hb Hl. unfold normalise.
  rewrite (cr_stages _ (words_outside (chr CR) _ cr_is_s (blank_outside_cr _ Hb))).
  rewrite (whole_text re_blank_lines [LF; LF] (chr LF) b blank_lines_starts
             lf_is_s exec_nil_blank_lines (blank_outside_lf _ Hb)).
  destruct word_head as (c0 & t & Ey & H0).
  destruct (word_head_classes c0 H0) as (_ & _ & B0).
  assert (E4 : replace re_blanks [SP] (x ++ b ++ y) = x ++ [SP] ++ y).
  { rewrite (over_first re_blanks [SP] cls_blank _ blanks_starts blank_is_s).
    f_equal. rewrite Ey.
    rewrite (run_long re_blanks cls_blank 2 exec_blanks ltac:(lia) [SP] c0 t
               b _ B0 Hb Hl).
    rewrite <- Ey. f_equal.
    apply (over_second re_blanks [SP] cls_blank _ blanks_starts blank_is_s
             exec_nil_blanks). }
  rewrite E4, (edges_one SP eq_refl).
  apply trim_word_ends; assumption.
Qed.

(** A Windows line ending between two words. *)
Lemma normalise_crlf : normalise (x ++ [CR; LF] ++ y) = x ++ [LF] ++ y.
Proof.
  rewrite <- normalise_line_feed. unfold normalise.
  assert (E1 : replace re_crlf [LF] (x ++ [CR; LF] ++ y) = x ++ [LF] ++ y).
  { rewrite (over_first re_crlf [LF] (chr CR) _ crlf_starts cr_is_s).
    f_equal. cbn [List.app].
    rewrite (replace_from_match re_crlf [LF] _ (CR :: LF :: y) 1 eq_refl);
      [|simpl; lia].
    cbn [List.app firstn skipn]. f_equal.
    apply (over_second re_crlf [LF] (chr CR) _ crlf_starts cr_is_s
             exec_nil_crlf). }
  rewrite E1.
  rewrite (whole_text re_crlf [LF] (chr CR) [LF] crlf_starts cr_is_s
             exec_nil_crlf eq_refl).
  reflexivity.
Qed.

(** An old Mac line ending between two words. *)
Lemma normalise_cr : normalise (x ++ [CR] ++ y) = x ++ [LF] ++ y.
Proof.
  rewrite <- normalise_line_feed. unfold normalise.
  destruct word_head as (c0 & t & Ey & H0).
  destruct (word_head_classes c0 H0) as (L0 & _ & _).
  assert (E1 : replace re_crlf [LF] (x ++ [CR] ++ y) = x ++ [CR] ++ y).
  { rewrite (over_first re_crlf [LF] (chr CR) _ crlf_starts cr_is_s).
    f_equal. cbn [List.app].
    rewrite (replace_from_keep re_crlf [LF] _ CR y).
    - f_equal. apply (over_second re_crlf [LF] (chr CR) _ crlf_starts cr_is_s
                        exec_nil_crlf).
    - rewrite Ey. unfold exec_at. simpl. rewrite L0. reflexivity. }
  assert (E2 : replace re_cr [LF] (x ++ [CR] ++ y) = x ++ [LF] ++ y).
  { rewrite (over_first re_cr [LF] (chr CR) _ cr_starts cr_is_s).
    f_equal. cbn [List.app].
    rewrite (replace_from_match re_cr [LF] _ (CR :: y) 0 eq_refl);
      [|simpl; lia].
    cbn [List.app firstn skipn]. f_equal.
    apply (over_second re_cr [LF] (chr CR) _ cr_starts cr_is_s exec_nil_cr). }
  rewrite E1, E2.
  rewrite (cr_stages _ (words_outside (chr CR) [LF] cr_is_s eq_refl)).
  reflexivity.
Qed.

End Words.

Lemma cleanText_normalise s r :
  normalise s = r -> r <> [] -> cleanText (VString s) = r.
Proof.
  intros E Hr. destruct s as [|c s].
  - destruct Hr. rewrite <- E. reflexivity.
  - unfold cleanText. rewrite E. destruct r; [destruct (Hr eq_refl)|reflexivity].
Qed.

Lemma words_not_nil (x m y : jstring) : x <> [] -> x ++ m ++ y <> [].
Proof. destruct x; [intros H; destruct (H eq_refl)|discriminate]. Qed.

(** X3.  Line breaks between two words.  One line feed stays; a CR LF
    pair and a lone CR become one line feed; an empty line, or several,
    disappears altogether and the two words are joined. *)
Theorem line_breaks_between_words (x y : jstring) :
  forallb solid x = true -> forallb solid y = true -> x <> [] -> y <> [] ->
  cleanText (VString (x ++ [LF] ++ y)) = x ++ [LF] ++ y /\
  cleanText (VString (x ++ [CR; LF] ++ y)) = x ++ [LF] ++ y /\
  cleanText (VString (x ++ [CR] ++ y)) = x ++ [LF] ++ y /\
  (forall n, 2 <= n -> cleanText (VString (x ++ repeat LF n ++ y)) = x ++ y).
Proof.
  intros Hx Hy Nx Ny. repeat split.
  - apply cleanText_normalise; [apply normalise_line_feed; assumption|].
    apply words_not_nil, Nx.
  - apply cleanText_normalise; [apply normalise_crlf; assumption|].
    apply words_not_nil, Nx.
  - apply cleanText_normalise; [apply normalise_cr; assumption|].
    apply words_not_nil, Nx.
  - intros n Hn.
    apply cleanText_normalise; [apply normalise_blank_lines; assumption|].
    apply (words_not_nil x [] y), Nx.
Qed.

Lemma line_breaks_between_words_witness :
  cleanText (VString (lit "ab" ++ [LF] ++ lit "cd")) = lit "ab" ++ [LF] ++ lit "cd" /\
  cleanText (VString (lit "ab" ++ repeat LF 2 ++ lit "cd")) = lit "abcd".
Proof.
  destruct (line_breaks_between_words (lit "ab") (lit "cd")) as (H1 & _ & _ & H2);
    [reflexivity|reflexivity|discriminate|discriminate|].
  split; [exact H1|]. apply (H2 2). lia.
Defined.

(** X4.  Blanks between two words.  One space or tab stays as it is;
    two or more, in any mix, become one space. *)
Theorem blanks_between_words (x y : jstring) :
  forallb solid x = true -> forallb solid y = true -> x <> [] -> y <> [] ->
  (forall c, cls_blank c = true ->
     cleanText (VString (x ++ [c] ++ y)) = x ++ [c] ++ y) /\
  (forall b, forallb cls_blank b = true -> 2 <= length b ->
     cleanText (VString (x ++ b ++ y)) = x ++ [SP] ++ y).
Proof.
  intros Hx Hy Nx Ny. split.
  - intros c Hc.
    apply cleanText_normalise; [apply normalise_blank; assumption|].
    apply words_not_nil, Nx.
  - intros b Hb Hl.
    apply cleanText_normalise; [apply normalise_blanks; assumption|].
    apply words_not_nil, Nx.
Qed.

Lemma blanks_between_words_witness :
  cleanText (VString (lit "ab" ++ [TAB] ++ lit "cd")) = lit "ab" ++ [TAB] ++ lit "cd" /\
  cleanText (VString (lit "ab" ++ [TAB; SP; TAB] ++ lit "cd")) =
  lit "ab" ++ [SP] ++ lit "cd".
Proof.
  destruct (blanks_between_words (lit "ab") (lit "cd")) as (H1 & H2);
    [reflexivity|reflexivity|discriminate|discriminate|].
  split; [apply H1; reflexivity|]. apply H2; [reflexivity|simpl; lia].
Defined.

(** ** The paragraphs of the document *)

Lemma split_whole sep : forall s piece,
  includes s sep = false -> split_from sep O piece s = [piece ++ s].
Proof.
  induction s as [|c s IH]; intros piece H.
  - simpl. rewrite app_nil_r. reflexivity.
  - cbn [includes] in H. apply orb_false_iff in H. destruct H as [H1 H2].
    cbn [split_from]. rewrite H1, (IH _ H2), <- app_assoc. reflexivity.
Qed.

Lemma no_break_pair s :
  has_run isLineTerminator 2 s = false -> includes s [LF; LF] = false.
Proof.
  induction s as [|c s IH]; intros H; [reflexivity|].
  cbn [has_run] in H. apply orb_false_iff in H. destruct H as [H1 H2].
  cbn [includes]. rewrite (IH H2), orb_false_r.
  destruct (starts_with [LF; LF] (c :: s)) eqn:E; [|reflexivity].
  apply starts_with_split in E. rewrite E in H1. discriminate.
Qed.

Lemma cleanText_tidy text : tidy None (cleanText text) = true.
Proof.
  destruct text as [[|c s]|]; try (vm_compute; reflexivity).
  unfold cleanText.
  destruct (normalise_clean (c :: s)) as (T & _ & _).
  destruct (normalise (c :: s)) as [|d r]; [vm_compute; reflexivity|exact T].
Qed.

Lemma cleanText_not_nil text : cleanText text <> [].
Proof.
  destruct text as [[|c s]|]; try discriminate.
  unfold cleanText. destruct (normalise (c :: s)); discriminate.
Qed.

Lemma cleaned_text_paragraphs (text : value) :
  text_paragraphs (cleanText text) =
  [Para None (AddText (cleanText text) body_options)].
Proof.
  unfold text_paragraphs, split.
  rewrite (split_whole _ _ _ (no_break_pair _ (cleanText_single_breaks text))).
  cbn [List.app map]. unfold body_paragraph.
  rewrite (tidy_trim _ (cleanText_tidy text)).
  pose proof (cleanText_not_nil text) as H.
  destruct (cleanText text); [destruct (H eq_refl)|reflexivity].
Qed.

(** X5.  The document made for an accepted PDF whose text could be read:
    the heading, the source line with the name the file was sent under, a
    line break, and one single paragraph holding the cleaned text.  The
    cleaned text has no two line feeds in a row to split at. *)
Theorem document_of_extracted_text (p : part) (env : conv_env) (w : state)
    (text : value) :
  mimetype p = pdf_type -> (size p <= fileSize)%N -> parse env = inl text ->
  exists d,
    fst (upload_and_convert [p] env w) = Normal (Some d) /\
    document d =
    [ Para (Some (lit "center"))
        (AddText (lit "PDF to Word Conversion")
           (TextOptions true false 16 (Some (lit "2F5496"))));
      Para (Some (lit "center"))
        (AddText (lit "Source: " ++ originalname p)
           (TextOptions false true 10 (Some (lit "808080"))));
      Para None AddLineBreak;
      Para None (AddText (cleanText text) body_options) ].
Proof.
  intros Hm Hs Hp. rewrite (upload_and_convert_accepted p env w Hm Hs).
  destruct (callback_accepts (File p (Path uploadsDir (stored_as env))) env
              (set_disk (Path uploadsDir (stored_as env) :: disk w) w))
    as ((t & E & Et) & _).
  rewrite Hp in Et. subst t. eexists. split; [exact E|].
  unfold document. cbn [extractedText source_name file_part].
  rewrite cleaned_text_paragraphs. reflexivity.
Qed.

Lemma document_of_extracted_text_witness :
  exists d,
    fst (upload_and_convert [report_pdf] readable idle) = Normal (Some d) /\
    document d =
    [ Para (Some (lit "center"))
        (AddText (lit "PDF to Word Conversion")
           (TextOptions true false 16 (Some (lit "2F5496"))));
      Para (Some (lit "center"))
        (AddText (lit "Source: " ++ lit "report.pdf")
           (TextOptions false true 10 (Some (lit "808080"))));
      Para None AddLineBreak;
      Para None (AddText (cleanText (VString (lit "Hello"))) body_options) ].
Proof.
  apply (document_of_extracted_text report_pdf readable idle
           (VString (lit "Hello"))); [reflexivity|vm_compute; discriminate|reflexivity].
Defined.

Lemma visible_cons_space c s : cls_s c = true -> visible (c :: s) = visible s.
Proof. intros H. unfold visible. simpl. unfold solid. rewrite H. reflexivity. Qed.

Lemma split_visible a sep' : 
  forallb cls_s (a :: sep') = true ->
  forall s skip piece,
    skip <= length s -> forallb cls_s (firstn skip s) = true ->
    visible (concat (split_from (a :: sep') skip piece s)) =
    visible piece ++ visible s.
Proof.
  intros Hsep. induction s as [|c s IH]; intros skip piece Hl Hf.
  - simpl. rewrite !app_nil_r. reflexivity.
  - destruct skip as [|k].
    + cbn [split_from].
      destruct (starts_with (a :: sep') (c :: s)) eqn:E.
      * pose proof (starts_with_split _ _ E) as Es.
        cbn [length skipn List.app] in Es. injection Es as Ec Es.
        cbn [pred length concat]. rewrite visible_app. f_equal.
        simpl in Hsep. apply andb_true_iff in Hsep. destruct Hsep as [Ha Hs'].
        rewrite IH.
        -- subst c. rewrite (visible_cons_space a s Ha). reflexivity.
        -- rewrite Es, length_app. lia.
        -- rewrite Es, firstn_app, Nat.sub_diag, firstn_all. simpl.
           rewrite app_nil_r. exact Hs'.
      * rewrite (IH 0 (piece ++ [c]) (Nat.le_0_l _) eq_refl).
        rewrite visible_app, <- app_assoc. f_equal.
        symmetry. apply (visible_app [c] s).
    + cbn [split_from]. cbn [firstn forallb] in Hf.
      apply andb_true_iff in Hf. destruct Hf as [Hc Hf].
      rewrite (IH k piece); [|simpl in Hl; lia|exact Hf].
      rewrite (visible_cons_space c s Hc). reflexivity.
Qed.

Lemma shown_body_paragraph q : visible (shown (body_paragraph q)) = visible q.
Proof.
  rewrite <- (visible_trim q). unfold body_paragraph.
  destruct (trim q); reflexivity.
Qed.

(** X6.  No visible unit of the extracted text is lost on the way into
    the paragraphs, whatever the text: splitting at two line feeds and
    trimming each piece removes white space only. *)
Theorem paragraphs_keep_text (extractedText : jstring) :
  visible (concat (map shown (text_paragraphs extractedText))) =
  visible extractedText.
Proof.
  unfold text_paragraphs, split.
  pose proof (split_visible LF [LF] eq_refl extractedText 0 []
                (Nat.le_0_l _) eq_refl) as H.
  change (visible [] ++ visible extractedText) with (visible extractedText) in H.
  rewrite <- H. clear H.
  induction (split_from [LF; LF] 0 [] extractedText) as [|q l IH];
    [reflexivity|].
  cbn [map concat]. rewrite !visible_app, IH, shown_body_paragraph.
  reflexivity.
Qed.

Lemma split_passes : forall u piece r,
  outside (chr LF) u = true ->
  split_from [LF; LF] O piece (u ++ r) = split_from [LF; LF] O (piece ++ u) r.
Proof.
  induction u as [|c u IH]; intros piece r H.
  - rewrite app_nil_r. reflexivity.
  - simpl in H. apply andb_true_iff in H. destruct H as [Hc H].
    apply negb_true_iff in Hc. unfold chr in Hc.
    rewrite <- app_comm_cons. cbn [split_from starts_with].
    rewrite N.eqb_sym, Hc. cbn [andb].
    rewrite (IH _ _ H), <- app_assoc. reflexivity.
Qed.

Lemma trim_not_nil s : visible s <> [] -> trim s <> [].
Proof.
  intros H E. apply H. rewrite <- (visible_trim s), E. reflexivity.
Qed.

Lemma split_at_break piece r :
  split_from [LF; LF] O piece (LF :: LF :: r) =
  piece :: split_from [LF; LF] O [] r.
Proof. reflexivity. Qed.

Lemma advice_whole :
  includes (lit "This may be an image-based PDF or the file may be corrupted.")
    [LF; LF] = false.
Proof. vm_compute. reflexivity. Qed.

Lemma advice_paragraph :
  body_paragraph
    (lit "This may be an image-based PDF or the file may be corrupted.") =
  Para None
    (AddText (lit "This may be an image-based PDF or the file may be corrupted.")
       body_options).
Proof. vm_compute. reflexivity. Qed.

Lemma report_paragraph m :
  body_paragraph (lit "Error extracting text from PDF: " ++ m) =
  Para None
    (AddText (trim (lit "Error extracting text from PDF: " ++ m)) body_options).
Proof.
  unfold body_paragraph.
  pose proof (trim_not_nil (lit "Error extracting text from PDF: " ++ m)) as Hn.
  destruct (trim (lit "Error extracting text from PDF: " ++ m)).
  - exfalso. apply Hn; [|reflexivity]. rewrite visible_app. discriminate.
  - reflexivity.
Qed.

Lemma outside_mem a m : mem a m = false -> outside (chr a) m = true.
Proof.
  unfold outside, mem. induction m as [|c m IH]; [reflexivity|].
  simpl. intros H. apply orb_false_iff in H. destruct H as [Hc H].
  rewrite Hc, (IH H). reflexivity.
Qed.

(** X7.  The document made when the text of an accepted PDF cannot be
    read, in every mode of the server: for a failure whose message has no
    line feed, two paragraphs, the first one quoting the message. *)
Theorem document_of_failed_extraction (p : part) (env : conv_env) (w : state)
    (e : error) :
  mimetype p = pdf_type -> (size p <= fileSize)%N -> parse env = inr e ->
  mem LF (message e) = false ->
  exists d,
    fst (upload_and_convert [p] env w) = Normal (Some d) /\
    text_paragraphs (extractedText d) =
    [ Para None
        (AddText (trim (lit "Error extracting text from PDF: " ++ message e))
           body_options);
      Para None
        (AddText
           (lit "This may be an image-based PDF or the file may be corrupted.")
           body_options) ].
Proof.
  intros Hm Hs Hp Hl. rewrite (upload_and_convert_accepted p env w Hm Hs).
  destruct (callback_accepts (File p (Path uploadsDir (stored_as env))) env
              (set_disk (Path uploadsDir (stored_as env) :: disk w) w))
    as ((t & E & Et) & _).
  rewrite Hp in Et. subst t. eexists. split; [exact E|].
  change (extractedText (Writing _ _ ?x)) with x.
  unfold text_paragraphs, split, extraction_failed.
  assert (Ho : outside (chr LF)
                 (lit "Error extracting text from PDF: " ++ message e) = true).
  { rewrite outside_app. apply andb_true_iff. split.
    - vm_compute. reflexivity.
    - apply outside_mem, Hl. }
  rewrite app_assoc, (split_passes _ [] _ Ho).
  rewrite <- !app_comm_cons, split_at_break, !app_nil_l.
  rewrite (split_whole _ _ [] advice_whole), !app_nil_l.
  rewrite !map_cons, report_paragraph, advice_paragraph. reflexivity.
Qed.

Lemma document_of_failed_extraction_witness :
  exists d,
    fst (upload_and_convert [report_pdf] unreadable development_mode)
      = Normal (Some d) /\
    text_paragraphs (extractedText d) =
    [ Para None
        (AddText (lit "Error extracting text from PDF: Invalid PDF structure")
           body_options);
      Para None
        (AddText
           (lit "This may be an image-based PDF or the file may be corrupted.")
           body_options) ].
Proof.
  apply (document_of_failed_extraction report_pdf unreadable development_mode
           (Error None (lit "Invalid PDF structure")));
    [reflexivity|vm_compute; discriminate|reflexivity|reflexivity].
Defined.

(** ** The earlier revision of [cleanText] *)

Section ShortRuns.

Variables (p : code -> bool) (k : nat).

Lemma short_runs_le : forall z seen seen',
  seen' <= seen -> short_runs p k seen z = true -> short_runs p k seen' z = true.
Proof.
  induction z as [|c z IH]; intros seen seen' L H; [reflexivity|].
  cbn [short_runs] in *. destruct (p c); [|exact H].
  apply andb_true_iff in H. destruct H as [H1 H2].
  apply Nat.ltb_lt in H1. apply andb_true_iff. split.
  - apply Nat.ltb_lt. lia.
  - apply (IH (S seen)); [lia|exact H2].
Qed.

Lemma short_runs_tail c z seen :
  short_runs p k seen (c :: z) = true -> short_runs p k 0 z = true.
Proof.
  cbn [short_runs]. destruct (p c); [|auto]. intros H.
  apply andb_true_iff in H. destruct H as [_ H].
  apply (short_runs_le z (S seen)); [lia|exact H].
Qed.

Lemma short_runs_skipn : forall j z seen,
  short_runs p k seen z = true -> short_runs p k 0 (skipn j z) = true.
Proof.
  induction j as [|j IH]; intros z seen H.
  - apply (short_runs_le z seen); [lia|exact H].
  - destruct z as [|c z]; [reflexivity|].
    apply (IH z 0), (short_runs_tail c z seen H).
Qed.

Lemma short_runs_app_l : forall a b seen,
  short_runs p k seen (a ++ b) = true -> short_runs p k seen a = true.
Proof.
  induction a as [|c a IH]; intros b seen H; [reflexivity|].
  rewrite <- app_comm_cons in H. cbn [short_runs] in *.
  destruct (p c); [|apply (IH b), H].
  apply andb_true_iff in H. destruct H as [H1 H2].
  rewrite H1. apply (IH b), H2.
Qed.

Lemma short_runs_prefix : forall z seen,
  short_runs p k seen z = true ->
  prefix_len p z = 0 \/ seen + prefix_len p z < k.
Proof.
  induction z as [|c z IH]; intros seen H; [left; reflexivity|].
  cbn [short_runs prefix_len] in *. destruct (p c); [|left; reflexivity].
  apply andb_true_iff in H. destruct H as [H1 H2].
  apply Nat.ltb_lt in H1. right.
  destruct (IH _ H2) as [E|E]; lia.
Qed.

Lemma short_runs_no_run : 1 <= k -> forall z seen,
  short_runs p k seen z = true -> has_run p k z = false.
Proof.
  intros Hk. induction z as [|c z IH]; intros seen H; [reflexivity|].
  cbn [has_run]. rewrite (IH 0 (short_runs_tail c z seen H)), orb_false_r.
  apply Nat.leb_gt. destruct (short_runs_prefix _ _ H); lia.
Qed.

End ShortRuns.

Lemma prefix_len_rest p s : prefix_len p (skipn (prefix_len p s) s) = 0.
Proof.
  pose proof (skipn_prefix_len p s) as H.
  destruct (skipn (prefix_len p s) s) as [|c t]; [reflexivity|].
  simpl. rewrite H. reflexivity.
Qed.

(** Replacing the runs of three line feeds or more leaves none. *)
Lemma blank_lines_short : forall n s, length s <= n -> forall seen prev,
  seen = 0 \/ seen + prefix_len (chr LF) s < 3 ->
  short_runs (chr LF) 3 seen (replace_from re_blank_lines [LF; LF] O prev s)
  = true.
Proof.
  induction n as [|n IH]; intros s Hn seen prev Hs;
    (destruct s as [|c s];
     [rewrite replace_from_nil by apply exec_nil_blank_lines; reflexivity|]);
    simpl in Hn; [lia|].
  destruct (exec_at re_blank_lines prev (c :: s)) as [j|] eqn:X.
  - rewrite exec_blank_lines in X.
    destruct (Nat.leb_spec 3 (prefix_len (chr LF) (c :: s))) as [L|L];
      [|discriminate].
    injection X as <-.
    assert (X : exec_at re_blank_lines prev (c :: s)
                = Some (prefix_len (chr LF) (c :: s))).
    { rewrite exec_blank_lines. apply Nat.leb_le in L. rewrite L. reflexivity. }
    pose proof (prefix_len_le (chr LF) (c :: s)) as B.
    pose proof (prefix_len_rest (chr LF) (c :: s)) as K.
    destruct (prefix_len (chr LF) (c :: s)) as [|j] eqn:P; [lia|].
    rewrite (replace_from_match _ _ _ _ _ X B).
    destruct Hs as [->|Hs]; [|lia].
    cbn [List.app short_runs]. change (chr LF LF) with true. cbv iota.
    change (Nat.ltb 1 3) with true. change (Nat.ltb 2 3) with true.
    cbn [andb]. apply IH.
    + rewrite length_skipn. simpl. lia.
    + right. rewrite K. lia.
  - rewrite (replace_from_keep _ _ _ _ _ X).
    rewrite exec_blank_lines in X.
    destruct (Nat.leb_spec 3 (prefix_len (chr LF) (c :: s))) as [L|L];
      [discriminate|].
    cbn [short_runs]. cbn [prefix_len] in L, Hs.
    destruct (chr LF c).
    + apply andb_true_iff. split; [apply Nat.ltb_lt; lia|].
      apply IH; [lia|]. right. lia.
    + apply IH; [lia|]. left. reflexivity.
Qed.

(** Replacing the runs of blanks does not lengthen a run of line feeds. *)
Lemma blanks_keep_short : forall n s, length s <= n -> forall seen prev,
  short_runs (chr LF) 3 seen s = true ->
  short_runs (chr LF) 3 seen (replace_from re_blanks [SP] O prev s) = true.
Proof.
  induction n as [|n IH]; intros s Hn seen prev Hs;
    (destruct s as [|c s];
     [rewrite replace_from_nil by apply exec_nil_blanks; reflexivity|]);
    simpl in Hn; [lia|].
  destruct (exec_at re_blanks prev (c :: s)) as [j|] eqn:X.
  - rewrite exec_blanks in X.
    destruct (Nat.leb_spec 2 (prefix_len cls_blank (c :: s))) as [L|L];
      [|discriminate].
    injection X as <-.
    assert (X : exec_at re_blanks prev (c :: s)
                = Some (prefix_len cls_blank (c :: s))).
    { rewrite exec_blanks. apply Nat.leb_le in L. rewrite L. reflexivity. }
    pose proof (prefix_len_le cls_blank (c :: s)) as B.
    destruct (prefix_len cls_blank (c :: s)) as [|j] eqn:P; [lia|].
    rewrite (replace_from_match _ _ _ _ _ X B).
    cbn [List.app short_runs]. change (chr LF SP) with false. cbv iota.
    apply IH.
    + rewrite length_skipn. simpl. lia.
    + apply (short_runs_skipn _ _ (S j) (c :: s) seen Hs).
  - rewrite (replace_from_keep _ _ _ _ _ X).
    cbn [short_runs] in *. destruct (chr LF c).
    + apply andb_true_iff in Hs. destruct Hs as [H1 H2]. rewrite H1.
      apply IH; [lia|exact H2].
    + apply IH; [lia|exact Hs].
Qed.

Lemma short_runs_quiet : forall z seen prev,
  short_runs (chr LF) 3 seen z = true -> quiet re_blank_lines prev z.
Proof.
  induction z as [|c z IH]; intros seen prev H.
  - split; [apply exec_nil_blank_lines|exact I].
  - split.
    + rewrite exec_blank_lines.
      destruct (short_runs_prefix _ _ _ _ H) as [E|E];
        destruct (Nat.leb_spec 3 (prefix_len (chr LF) (c :: z)));
        try reflexivity; lia.
    + apply (IH 0), (short_runs_tail _ _ c z seen H).
Qed.

(** ** What [trim] returns *)

Lemma trimStart_split s :
  exists u, s = u ++ trimStart s /\ forallb cls_s u = true.
Proof.
  induction s as [|c s (u & E & F)]; [exists []; split; reflexivity|].
  cbn [trimStart]. destruct (cls_s c) eqn:Hc.
  - exists (c :: u). split; [rewrite <- app_comm_cons, <- E; reflexivity|].
    simpl. rewrite Hc. exact F.
  - exists []. split; reflexivity.
Qed.

Lemma trimStart_head s :
  match trimStart s with
  | [] => True
  | c :: _ => cls_s c = false
  end.
Proof.
  induction s as [|c s IH]; [exact I|].
  cbn [trimStart]. destruct (cls_s c) eqn:Hc; [exact IH|exact Hc].
Qed.

Lemma trimEnd_split s : exists v, s = trimEnd s ++ v.
Proof.
  unfold trimEnd. destruct (trimStart_split (rev s)) as (u & E & _).
  exists (rev u). rewrite <- rev_app_distr, <- E, rev_involutive. reflexivity.
Qed.

Lemma trim_middle s : exists u v, s = u ++ trim s ++ v.
Proof.
  destruct (trimStart_split s) as (u & E & _).
  destruct (trimEnd_split (trimStart s)) as (v & E').
  exists u, v. unfold trim. rewrite <- E'. exact E.
Qed.

Lemma trim_ends_clean s : ends_clean (trim s) = true.
Proof.
  unfold ends_clean. apply andb_true_iff. split.
  - destruct (trimEnd_split (trimStart s)) as (v & E).
    fold (trim s) in E. pose proof (trimStart_head s) as H.
    destruct (trim s) as [|c t]; [reflexivity|].
    rewrite E in H. simpl in H. unfold solid. rewrite H. reflexivity.
  - unfold trim, trimEnd. rewrite rev_involutive.
    pose proof (trimStart_head (rev (trimStart s))) as H.
    destruct (trimStart (rev (trimStart s))); [reflexivity|].
    unfold solid. rewrite H. reflexivity.
Qed.

Lemma ends_clean_trim z : ends_clean z = true -> trim z = z.
Proof.
  unfold ends_clean. intros H. apply andb_true_iff in H. destruct H as [H1 H2].
  assert (E : trimStart z = z).
  { destruct z as [|c z]; [reflexivity|]. cbn [trimStart].
    unfold solid in H1. apply negb_true_iff in H1. rewrite H1. reflexivity. }
  unfold trim, trimEnd. rewrite E.
  assert (E' : trimStart (rev z) = rev z).
  { destruct (rev z) as [|c r]; [reflexivity|]. cbn [trimStart].
    unfold solid in H2. apply negb_true_iff in H2. rewrite H2. reflexivity. }
  rewrite E'. apply rev_involutive.
Qed.

Lemma spaced_app_l : forall x y a, spaced a (x ++ y) = true -> spaced a x = true.
Proof.
  induction x as [|c x IH]; intros y a H; [reflexivity|].
  rewrite <- app_comm_cons in H. cbn [spaced] in *.
  apply andb_true_iff in H. destruct H as [H1 H2].
  rewrite H1. apply (IH y), H2.
Qed.

(** The four replacements of the earlier revision, before [trim]. *)
Lemma earlier_stages s :
  let v := replace re_blanks [SP]
             (replace re_blank_lines [LF; LF]
               (replace re_cr [LF] (replace re_crlf [LF] s))) in
  no_cr v /\ short_runs (chr LF) 3 0 v = true /\ spaced None v = true /\
  visible v = visible s.
Proof.
  cbv zeta. repeat split.
  - unfold replace, no_cr.
    apply replace_from_Forall; [repeat constructor|].
    apply replace_from_Forall; [repeat constructor|].
    apply replace_cr_no_cr.
  - unfold replace at 1. apply (blanks_keep_short _ _ (le_n _)).
    unfold replace at 1. apply (blank_lines_short _ _ (le_n _)).
    left. reflexivity.
  - unfold replace at 1. apply (blanks_spaced _ _ (le_n _)). discriminate.
  - unfold replace.
    rewrite (replace_visible re_blanks [SP] blanks_matches_space eq_refl _ _
               (le_n _)).
    rewrite (replace_visible re_blank_lines [LF; LF] blank_lines_matches_space
               eq_refl _ _ (le_n _)).
    rewrite (replace_visible re_cr [LF] cr_matches_space eq_refl _ _ (le_n _)).
    apply (replace_visible re_crlf [LF] crlf_matches_space eq_refl _ _ (le_n _)).
Qed.

Lemma earlier_clean s :
  let y := Earlier.cleanText s in
  no_cr y /\ short_runs (chr LF) 3 0 y = true /\ spaced None y = true /\
  ends_clean y = true.
Proof.
  cbv zeta. destruct s as [|c s].
  - split; [|vm_compute; repeat split; reflexivity].
    unfold no_cr. apply Forall_forall. intros x Hx.
    destruct (chr CR x) eqn:E; [|reflexivity].
    apply chr_true in E. subst x. vm_compute in Hx.
    repeat (destruct Hx as [Hx|Hx]; [discriminate|]). destruct Hx.
  - unfold Earlier.cleanText.
    destruct (earlier_stages (c :: s)) as (C & L & S & _).
    cbv zeta in *.
    set (v := replace re_blanks [SP] _) in *.
    destruct (trim_middle v) as (a & b & E).
    split; [|split; [|split]].
    + unfold no_cr in *. rewrite E in C.
      apply Forall_app in C. destruct C as [_ C].
      apply Forall_app in C. apply C.
    + rewrite E in L.
      pose proof (short_runs_skipn _ _ (length a) _ _ L) as L'.
      rewrite skipn_exact in L'. apply (short_runs_app_l _ _ _ _ _ L').
    + rewrite E in S.
      pose proof (spaced_skipn (length a) _ _ S) as S'.
      rewrite skipn_exact in S'. apply (spaced_app_l _ _ _ S').
    + apply trim_ends_clean.
Qed.

(** X8.  The earlier revision of [cleanText]: its output has no carriage
    return, no run of three line feeds or more, no two blanks side by
    side and no white space at either end, and it keeps the visible units
    of a text that is not empty. *)
Theorem earlier_cleanText_output (s : jstring) :
  mem CR (Earlier.cleanText s) = false /\
  has_run (chr LF) 3 (Earlier.cleanText s) = false /\
  has_run cls_blank 2 (Earlier.cleanText s) = false /\
  ends_clean (Earlier.cleanText s) = true /\
  (s <> [] -> visible (Earlier.cleanText s) = visible s).
Proof.
  destruct (earlier_clean s) as (C & L & S & E). cbv zeta in *.
  split; [apply no_cr_mem, C|].
  split; [apply (short_runs_no_run (chr LF) 3 ltac:(lia) _ 0 L)|].
  split; [apply (spaced_no_run _ None S)|].
  split; [exact E|].
  intros Hs. destruct s as [|c s]; [destruct (Hs eq_refl)|].
  unfold Earlier.cleanText. rewrite visible_trim.
  apply (earlier_stages (c :: s)).
Qed.

Lemma earlier_cleanText_output_witness :
  visible (Earlier.cleanText (lit " a  b ")) = lit "ab".
Proof.
  destruct (earlier_cleanText_output (lit " a  b ")) as (_ & _ & _ & _ & H).
  apply H. discriminate.
Defined.

Lemma earlier_fixed y :
  y <> [] -> no_cr y -> short_runs (chr LF) 3 0 y = true ->
  spaced None y = true -> ends_clean y = true ->
  Earlier.cleanText y = y.
Proof.
  intros Hy C L S E. destruct y as [|c y]; [destruct (Hy eq_refl)|].
  unfold Earlier.cleanText, replace.
  destruct (no_cr_quiet (c :: y) None C) as [Q1 Q2].
  rewrite (replace_quiet _ _ _ _ Q1), (replace_quiet _ _ _ _ Q2).
  rewrite (replace_quiet _ _ _ _ (short_runs_quiet _ 0 None L)).
  rewrite (replace_quiet _ _ _ _ (spaced_quiet_blanks _ None None S)).
  apply ends_clean_trim, E.
Qed.

(** X9.  The earlier revision is idempotent on the texts that have a
    visible unit, and only on them: a text of white space alone comes out
    empty, and the empty string comes out as the no-text message. *)
Theorem earlier_cleanText_twice (s : jstring) :
  (visible s <> [] ->
   Earlier.cleanText (Earlier.cleanText s) = Earlier.cleanText s) /\
  (s <> [] -> visible s = [] ->
   Earlier.cleanText s = [] /\
   Earlier.cleanText (Earlier.cleanText s) = lit "No text content found in PDF").
Proof.
  destruct (earlier_clean s) as (C & L & S & E). cbv zeta in *.
  assert (V : s <> [] -> visible (Earlier.cleanText s) = visible s).
  { intros Hs. destruct s as [|c s]; [destruct (Hs eq_refl)|].
    unfold Earlier.cleanText. rewrite visible_trim.
    apply (earlier_stages (c :: s)). }
  split.
  - intros Hv. apply earlier_fixed; try assumption.
    intros N. apply Hv. rewrite <- V, N; [reflexivity|].
    intros ->. apply Hv. reflexivity.
  - intros Hs Hv.
    assert (N : Earlier.cleanText s = []).
    { specialize (V Hs). rewrite Hv in V.
      destruct (Earlier.cleanText s) as [|d r]; [reflexivity|].
      unfold ends_clean in E. apply andb_true_iff in E. destruct E as [E _].
      unfold visible in V. simpl in V. rewrite E in V. discriminate. }
    rewrite N. split; reflexivity.
Qed.

Lemma earlier_cleanText_twice_witness :
  Earlier.cleanText (Earlier.cleanText (lit " a  b ")) =
  Earlier.cleanText (lit " a  b ") /\
  Earlier.cleanText (Earlier.cleanText [SP; LF]) =
  lit "No text content found in PDF".
Proof.
  split.
  - apply (earlier_cleanText_twice (lit " a  b ")). discriminate.
  - apply (earlier_cleanText_twice [SP; LF]); [discriminate|reflexivity].
Defined.

(** ** The page and the server *)

Lemma passes_accepted f :
  Client.passes f = true <-> mimetype f = pdf_type /\ (size f <= fileSize)%N.
Proof.
  unfold Client.passes, pdf_type, fileSize. rewrite andb_true_iff, negb_true_iff.
  rewrite str_eqb_eq, N.ltb_ge. reflexivity.
Qed.

Lemma handleFile_cases f g :
  (Client.passes f = true /\
   Client.errorShown (Client.handleFile f g) = false /\
   Client.selectedFile (Client.handleFile f g) = Some f /\
   Client.fetched (Client.handleFile f g) = Client.fetched g /\
   Client.downloadUrl (Client.handleFile f g) = Client.downloadUrl g /\
   Client.location (Client.handleFile f g) = Client.location g) \/
  (Client.passes f = false /\
   exists m, Client.handleFile f g = Client.showError m g).
Proof.
  unfold Client.passes, Client.handleFile.
  destruct (str_eqb (mimetype f) (lit "application/pdf")); cbn [negb andb].
  - destruct (N.ltb (10 * 1024 * 1024) (size f)); cbn [negb].
    + right. split; [reflexivity|]. eexists. reflexivity.
    + left. repeat split; reflexivity.
  - right. split; [reflexivity|]. eexists. reflexivity.
Qed.

Lemma upload_single_of_one strict stored f :
  upload_single_of strict stored (Multipart [f] None) =
  match fileFilter f with
  | Some e => (Some e, None)
  | None =>
      if over_limit strict (size f)
      then (Some (MulterError "LIMIT_FILE_SIZE" "File too large"), None)
      else (None, Some (File f (Path uploadsDir stored)))
  end.
Proof.
  unfold upload_single_of. cbn [file_parts fault receive_of raised].
  simpl Nat.leb. cbv iota.
  destruct (fileFilter f); [reflexivity|].
  destruct (over_limit strict (size f)); reflexivity.
Qed.

Lemma fileFilter_none f : fileFilter f = None <-> mimetype f = pdf_type.
Proof.
  unfold fileFilter, pdf_type.
  destruct (str_eqb (mimetype f) (lit "application/pdf")) eqn:E.
  - apply str_eqb_eq in E. split; auto.
  - split; [discriminate|]. intros H. apply str_eqb_eq in H. congruence.
Qed.

(** X10.  The check of the page is the filter of the server and its size
    limit read as inclusive.  So whatever the upload library does at the
    limit, a file the server lets in is one the page takes, and a file
    the page takes is let in by the server unless it has exactly
    10485760 bytes and the library counts that as too much: then the
    page takes it and the server refuses it as too large. *)
Theorem page_check_matches_server (f : part) (g : Client.page)
    (strict : bool) (stored : jstring) :
  let taken := Client.errorShown (Client.handleFile f g) = false in
  let let_in :=
    upload_single_of strict stored (Multipart [f] None) =
    (None, Some (File f (Path uploadsDir stored))) in
  (taken <-> fileFilter f = None /\ (size f <= fileSize)%N) /\
  (taken -> Client.selectedFile (Client.handleFile f g) = Some f) /\
  (let_in -> taken) /\
  (taken -> size f <> fileSize \/ strict = false -> let_in) /\
  (taken -> size f = fileSize -> strict = true ->
   upload_single_of strict stored (Multipart [f] None) =
   (Some (MulterError "LIMIT_FILE_SIZE" "File too large"), None)).
Proof.
  cbv zeta. rewrite upload_single_of_one, fileFilter_none.
  assert (T : Client.errorShown (Client.handleFile f g) = false <->
              mimetype f = pdf_type /\ (size f <= fileSize)%N).
  { rewrite <- passes_accepted.
    destruct (handleFile_cases f g) as [(P & E & _)|(P & m & E)].
    - rewrite P, E. split; reflexivity.
    - rewrite P, E. cbn. split; discriminate. }
  split; [exact T|]. split; [|split; [|split]].
  - intros H. destruct (handleFile_cases f g) as [(_ & _ & S & _)|(P & _)].
    + exact S.
    + apply T, passes_accepted in H. congruence.
  - intros H. apply T. destruct (fileFilter f) eqn:Ef; [discriminate|].
    apply fileFilter_none in Ef. split; [exact Ef|].
    destruct (over_limit strict (size f)) eqn:Ho; [discriminate|].
    apply over_limit_false in Ho. destruct Ho as [Ho|[Ho _]]; lia.
  - intros H Hs. apply T in H. destruct H as [Hm Hl].
    apply fileFilter_none in Hm. rewrite Hm.
    assert (Ho : over_limit strict (size f) = false).
    { apply over_limit_false. destruct Hs as [Hs|Hs]; [left; lia|].
      destruct (N.eq_dec (size f) fileSize); [right; auto|left; lia]. }
    rewrite Ho. reflexivity.
  - intros H Hs ->. apply T in H. destruct H as [Hm _].
    apply fileFilter_none in Hm. rewrite Hm.
    unfold over_limit. rewrite Hs, N.leb_refl. reflexivity.
Qed.

Lemma page_check_matches_server_witness :
  Client.selectedFile
    (Client.handleFile ten_megabytes_pdf
       (Client.Page None None [] true false true false false false [] [] 0 0 []))
  = Some ten_megabytes_pdf /\
  upload_single_of true [] (Multipart [ten_megabytes_pdf] None) =
  (Some (MulterError "LIMIT_FILE_SIZE" "File too large"), None).
Proof.
  destruct (page_check_matches_server ten_megabytes_pdf
              (Client.Page None None [] true false true false false false []
                 [] 0 0 [])
              true []) as (_ & S & _ & _ & R).
  split; [apply S; reflexivity|].
  apply R; reflexivity.
Defined.

(** What the script keeps true of the files it holds. *)
Lemma on_keeps_files e g :
  (forall f, Client.selectedFile g = Some f -> Client.passes f = true) ->
  (forall f, In f (Client.fetched g) -> Client.passes f = true) ->
  (forall f, Client.selectedFile (Client.on e g) = Some f ->
             Client.passes f = true) /\
  (forall f, In f (Client.fetched (Client.on e g)) -> Client.passes f = true).
Proof.
  intros Hs Hf. destruct e as [files|files| | | |d| |]; cbn [Client.on].
  - destruct files as [|file files]; [split; assumption|].
    destruct (handleFile_cases file g) as [(P & _ & S & F & _)|(P & m & ->)].
    + rewrite S, F. split; [|assumption].
      intros f E. injection E as <-. exact P.
    + split; assumption.
  - destruct files as [|file files]; [split; assumption|].
    destruct (str_eqb (mimetype file) (lit "application/pdf"));
      [|split; assumption].
    destruct (handleFile_cases file g) as [(P & _ & S & F & _)|(P & m & ->)].
    + rewrite S, F. split; [|assumption].
      intros f E. injection E as <-. exact P.
    + split; assumption.
  - split; [discriminate|assumption].
  - case_eq (Client.selectedFile g); [intros file E|intros E; split; assumption].
    split; [cbn; rewrite E; intros f Ef; injection Ef as <-; apply Hs, E|].
    cbn. intros f Hin. apply in_app_or in Hin.
    destruct Hin as [Hin|[<-|[]]]; [apply Hf, Hin|apply Hs, E].
  - destruct (Client.downloadUrl g) as [[|c u]|]; split; assumption.
  - destruct (Client.awaited g); [split; assumption|].
    unfold Client.fulfilled. destruct (Client.success d); split; assumption.
  - destruct (Client.awaited g); split; assumption.
  - destruct (Client.pending_timers g); split; assumption.
Qed.

Lemma after_keeps_files : forall es g,
  (forall f, Client.selectedFile g = Some f -> Client.passes f = true) ->
  (forall f, In f (Client.fetched g) -> Client.passes f = true) ->
  forall f, In f (Client.fetched (Client.after es g)) -> Client.passes f = true.
Proof.
  induction es as [|e es IH]; intros g Hs Hf; [exact Hf|].
  destruct (on_keeps_files e g Hs Hf) as [Hs' Hf'].
  apply (IH (Client.on e g) Hs' Hf').
Qed.

Lemma post_convert_of_running strict body env w :
  isShuttingDown w = false ->
  post_convert_of strict body env w =
  upload_and_convert_of strict body env (set_streamed None (set_sent None w)).
Proof.
  intros Sh. unfold post_convert_of, bind, new_request, modify, get. simpl.
  rewrite Sh. reflexivity.
Qed.

(** A part the middleware lets in is handled as by the plain definitions,
    whichever way the limit is read. *)
Lemma upload_and_convert_of_accepted strict p env w :
  mimetype p = pdf_type -> over_limit strict (size p) = false ->
  upload_and_convert_of strict (Multipart [p] None) env w =
  upload_and_convert [p] env w.
Proof.
  intros Hm Ho.
  assert (Hs : (size p <= fileSize)%N)
    by (apply over_limit_false in Ho; destruct Ho as [Ho|[Ho _]]; lia).
  rewrite (upload_and_convert_accepted p env w Hm Hs).
  unfold upload_and_convert_of. rewrite upload_single_of_one.
  apply fileFilter_none in Hm. rewrite Hm, Ho. reflexivity.
Qed.

(** An error of the upload reaches the catch block as it is. *)
Lemma callback_error_sent e f env w :
  sent (snd (convert_callback (Some e) f env w)) =
  Some (Response 400
          (JsonError (errorMessage e)
             (if development w then Some (message e) else None))).
Proof. reflexivity. Qed.

Lemma size_message :
  errorMessage (MulterError "LIMIT_FILE_SIZE" "File too large") =
  lit "File too large. Maximum size is 10MB".
Proof. vm_compute. reflexivity. Qed.

Lemma conversion_of_succeeds strict p env w :
  isShuttingDown w = false ->
  mimetype p = pdf_type -> over_limit strict (size p) = false ->
  sent (conversion_of strict (Multipart [p] None) env StreamClose w) =
  Some (Response 200
          (JsonSuccess (lit "PDF converted successfully")
             (lit "/download/" ++ lit "converted-" ++ decimal (now env)
                ++ lit ".docx")
             (originalname p))).
Proof.
  intros Sh Hm Ho.
  assert (Hs : (size p <= fileSize)%N)
    by (apply over_limit_false in Ho; destruct Ho as [Ho|[Ho _]]; lia).
  rewrite <- (conversion_succeeds w p env Sh Hm Hs).
  unfold conversion_of, conversion.
  rewrite (post_convert_of_running strict _ env w Sh),
    (post_convert_running [p] env w Sh),
    (upload_and_convert_of_accepted strict p env _ Hm Ho).
  reflexivity.
Qed.

Lemma conversion_of_too_large p env ev w :
  isShuttingDown w = false ->
  mimetype p = pdf_type -> size p = fileSize ->
  sent (conversion_of true (Multipart [p] None) env ev w) =
  Some (Response 400
          (JsonError (lit "File too large. Maximum size is 10MB")
             (if development w then Some (lit "File too large") else None))).
Proof.
  intros Sh Hm Hs. unfold conversion_of.
  rewrite (post_convert_of_running true _ env w Sh).
  set (w0 := set_streamed None (set_sent None w)).
  assert (Eq : upload_and_convert_of true (Multipart [p] None) env w0 =
               convert_callback
                 (Some (MulterError "LIMIT_FILE_SIZE" "File too large")) None
                 env w0).
  { unfold upload_and_convert_of. rewrite upload_single_of_one.
    apply fileFilter_none in Hm. rewrite Hm.
    unfold over_limit. rewrite Hs, N.leb_refl. reflexivity. }
  rewrite Eq.
  destruct (callback_refusal
              (Some (MulterError "LIMIT_FILE_SIZE" "File too large")) env w0)
    as (F & _).
  pose proof (callback_error_sent
                (MulterError "LIMIT_FILE_SIZE" "File too large") None env w0)
    as S.
  cbv zeta in F. destruct (convert_callback _ None env w0) as [o v].
  cbn [fst snd] in *. subst o. cbn [finish]. rewrite S, size_message.
  reflexivity.
Qed.

(** X11.  Whatever the user does, every file the page posts to /convert
    has passed the checks of the page: it is an application/pdf file of
    at most 10485760 bytes.  A server that is not shutting down converts
    it, unless it has exactly 10485760 bytes and the upload library
    counts that as too much: then the answer is 400, 'File too large.
    Maximum size is 10MB'. *)
Theorem page_posts_only_accepted_files (es : list Client.event)
    (g : Client.page) (f : part) :
  Client.loaded g ->
  In f (Client.fetched (Client.after es g)) ->
  mimetype f = pdf_type /\ (size f <= fileSize)%N /\
  forall strict env w,
    isShuttingDown w = false ->
    ((size f < fileSize)%N \/ strict = false ->
     sent (conversion_of strict (Multipart [f] None) env StreamClose w) =
     Some (Response 200
             (JsonSuccess (lit "PDF converted successfully")
                (lit "/download/" ++ lit "converted-" ++ decimal (now env)
                   ++ lit ".docx")
                (originalname f)))) /\
    (size f = fileSize -> strict = true ->
     forall ev,
       sent (conversion_of strict (Multipart [f] None) env ev w) =
       Some (Response 400
               (JsonError (lit "File too large. Maximum size is 10MB")
                  (if development w then Some (lit "File too large")
                   else None)))).
Proof.
  intros (S & _ & F & _) Hin.
  assert (P : Client.passes f = true).
  { apply (after_keeps_files es g); [| |exact Hin].
    - intros x E. rewrite S in E. discriminate.
    - intros x E. rewrite F in E. destruct E. }
  apply passes_accepted in P. destruct P as [Hm Hs].
  split; [exact Hm|]. split; [exact Hs|].
  intros strict env w Hw. split.
  - intros Hc. apply conversion_of_succeeds; [exact Hw|exact Hm|].
    apply over_limit_false. destruct Hc as [Hc|Hc]; [left; exact Hc|].
    destruct (N.eq_dec (size f) fileSize); [right; auto|left; lia].
  - intros He -> ev. apply conversion_of_too_large; assumption.
Qed.

Lemma page_posts_only_accepted_files_witness :
  sent (conversion_of true (Multipart [report_pdf] None) readable StreamClose
          idle) =
  Some (Response 200
          (JsonSuccess (lit "PDF converted successfully")
             (lit "/download/" ++ lit "converted-" ++ decimal (now readable)
                ++ lit ".docx")
             (lit "report.pdf"))).
Proof.
  destruct (page_posts_only_accepted_files
              [Client.Drop [picture_png]; Client.ConvertClick;
               Client.Change [report_pdf]; Client.ConvertClick]
              (Client.Page None None [] true false true false false false []
                 [] 0 0 [])
              report_pdf) as (_ & _ & H).
  - repeat split.
  - vm_compute. left. reflexivity.
  - destruct (H true readable idle eq_refl) as [H1 _].
    apply H1. left. reflexivity.
Defined.

Lemma errorMessage_cases e :
  errorMessage e = lit "File too large. Maximum size is 10MB" \/
  errorMessage e = lit "Please select a valid PDF file" \/
  errorMessage e = lit "No file was uploaded" \/
  errorMessage e = lit "Failed to convert PDF".
Proof.
  unfold errorMessage.
  destruct (code_is e (lit "LIMIT_FILE_SIZE")); [auto|].
  destruct (includes (message e) (lit "Only PDF files")); [auto|].
  destruct (includes (message e) (lit "No file uploaded")); auto.
Qed.

(** Every answer of the conversion route. *)
Lemma conversion_sent parts env ev w :
  sent (conversion parts env ev w) = None \/
  sent (conversion parts env ev w) =
    Some (Response 503 (JsonError (lit "Server is shutting down") None)) \/
  (exists e dt,
     sent (conversion parts env ev w) =
     Some (Response 400 (JsonError (errorMessage e) dt))) \/
  (exists nm,
     sent (conversion parts env ev w) =
     Some (Response 200
             (JsonSuccess (lit "PDF converted successfully")
                (lit "/download/" ++ lit "converted-" ++ decimal (now env)
                   ++ lit ".docx") nm))).
Proof.
  unfold conversion. destruct (isShuttingDown w) eqn:Hw.
  - destruct (post_convert_closing parts env w Hw) as (F & _ & S).
    destruct (post_convert parts env w) as [o w']. cbn [fst snd] in *.
    subst o. right. left. exact S.
  - rewrite (post_convert_running parts env w Hw).
    set (w0 := set_streamed None (set_sent None w)).
    destruct (accepted_or_refused (stored_as env) parts)
      as [(p & -> & Hm & Hs)|(R & _)].
    + rewrite (upload_and_convert_accepted p env w0 Hm Hs).
      destruct (callback_accepts (File p (Path uploadsDir (stored_as env))) env
                  (set_disk (Path uploadsDir (stored_as env) :: disk w0) w0))
        as ((t & E & _) & S & _).
      destruct (convert_callback _ _ _ _) as [o w']. cbn [fst snd] in *.
      subst o. cbn [finish]. destruct ev as [|err].
      * right. right. right. eexists. reflexivity.
      * left. etransitivity;
          [exact (proj1 (write_failure_unanswered _ err w'))|].
        rewrite S. reflexivity.
    + destruct (upload_and_convert_refused parts env w0 R) as (F & _).
      pose proof (upload_and_convert_sent parts env w0) as S.
      destruct (upload_and_convert parts env w0) as [o w']. cbn [fst snd] in *.
      subst o. cbn [finish]. destruct S as [S|(e & S)].
      * left. rewrite S. reflexivity.
      * right. right. left. eauto.
Qed.

Lemma generated_link n :
  download_link (lit "/download/" ++ lit "converted-" ++ decimal n ++ lit ".docx").
Proof.
  exists (lit "converted-" ++ decimal n ++ lit ".docx").
  split; [reflexivity|apply generated_name_accepted].
Qed.

(** What the page reads in an answer of the conversion route. *)
Lemma from_server_cases d :
  Client.from_server d ->
  (Client.success d = true /\
   exists u, Client.data_downloadUrl d = Some u /\ download_link u) \/
  (Client.success d = false /\
   exists c e, Client.error d = Some (c :: e) /\
               c :: e <> lit "Error converting file").
Proof.
  intros (parts & env & ev & w & s & b & S & J).
  destruct (conversion_sent parts env ev w) as [H|[H|[(e & dt & H)|(nm & H)]]];
    rewrite H in S; [discriminate| | |]; injection S as <- <-;
    injection J as <-; cbn [Client.success Client.error Client.data_downloadUrl].
  - right. split; [reflexivity|]. eexists _, _.
    split; [reflexivity|discriminate].
  - right. split; [reflexivity|].
    destruct (errorMessage_cases e) as [E|[E|[E|E]]]; rewrite E;
      eexists _, _; (split; [reflexivity|discriminate]).
  - left. split; [reflexivity|]. eexists. split; [reflexivity|].
    apply generated_link.
Qed.

(** X12.  When the conversion route answers with an error, the page
    shows the error text of the server: every such answer carries one, so
    the text the script holds in reserve, 'Error converting file', is
    never the one displayed. *)
Theorem page_shows_server_error (d : Client.data) (g : Client.page) (n : nat) :
  Client.from_server d -> Client.awaited g = S n -> Client.success d = false ->
  let g' := Client.on (Client.Fulfilled d) g in
  Client.errorShown g' = true /\
  Client.error d = Some (Client.errorText g') /\
  Client.errorText g' <> lit "Error converting file" /\
  Client.downloadUrl g' = Client.downloadUrl g.
Proof.
  intros F A S. cbv zeta. cbn [Client.on]. rewrite A.
  unfold Client.fulfilled. rewrite S.
  destruct (from_server_cases d F) as [(S' & _)|(_ & c & e & E & N)];
    [congruence|].
  rewrite E. cbn. repeat split. exact N.
Qed.

Lemma page_shows_server_error_witness :
  Client.errorText
    (Client.on
       (Client.Fulfilled
          (Client.Data false None (Some (lit "Server is shutting down"))))
       (Client.Page None None [] true false true true false false []
          [report_pdf] 1 0 []))
  <> lit "Error converting file".
Proof.
  refine (proj1 (proj2 (proj2
            (page_shows_server_error
               (Client.Data false None (Some (lit "Server is shutting down")))
               (Client.Page None None [] true false true true false false []
                  [report_pdf] 1 0 [])
               0 _ eq_refl eq_refl)))).
  exists [report_pdf], readable, StreamClose, closing, 503%N,
    (JsonError (lit "Server is shutting down") None).
  split; reflexivity.
Defined.

Lemma on_keeps_links e g :
  (forall d, e = Client.Fulfilled d -> Client.from_server d) ->
  (forall u, Client.downloadUrl g = Some u -> download_link u) ->
  (forall u, In u (Client.location g) -> download_link u) ->
  (forall u, Client.downloadUrl (Client.on e g) = Some u -> download_link u) /\
  (forall u, In u (Client.location (Client.on e g)) -> download_link u).
Proof.
  intros He Hd Hl. destruct e as [files|files| | | |d| |]; cbn [Client.on].
  - destruct files as [|file files]; [split; assumption|].
    destruct (handleFile_cases file g) as [(_ & _ & _ & _ & D & L)|(_ & m & ->)].
    + rewrite D, L. split; assumption.
    + split; assumption.
  - destruct files as [|file files]; [split; assumption|].
    destruct (str_eqb (mimetype file) (lit "application/pdf"));
      [|split; assumption].
    destruct (handleFile_cases file g) as [(_ & _ & _ & _ & D & L)|(_ & m & ->)].
    + rewrite D, L. split; assumption.
    + split; assumption.
  - split; assumption.
  - destruct (Client.selectedFile g); split; assumption.
  - case_eq (Client.downloadUrl g); [intros [|c u] E|intros E];
      try (split; assumption).
    split; [exact Hd|]. cbn. intros x Hin. apply in_app_or in Hin.
    destruct Hin as [Hin|[<-|[]]]; [apply Hl, Hin|apply Hd, E].
  - destruct (Client.awaited g); [split; assumption|].
    unfold Client.fulfilled.
    destruct (from_server_cases d (He d eq_refl))
      as [(S & u & U & L)|(S & _)]; rewrite S.
    + split; [|exact Hl]. cbn. rewrite U. intros x E.
      injection E as <-. exact L.
    + split; assumption.
  - destruct (Client.awaited g); split; assumption.
  - destruct (Client.pending_timers g); split; assumption.
Qed.

(** X13.  Whatever the user does, the addresses the Download button
    sends the browser to are the links the conversion route has answered
    with: /download/ followed by a name that passes the file-name check
    of the download route. *)
Theorem page_visits_only_download_links (es : list Client.event)
    (g : Client.page) :
  Client.loaded g ->
  (forall d, In (Client.Fulfilled d) es -> Client.from_server d) ->
  forall u, In u (Client.location (Client.after es g)) -> download_link u.
Proof.
  intros (_ & D & _ & _ & _ & L) He.
  assert (Hd : forall u, Client.downloadUrl g = Some u -> download_link u)
    by (intros u E; rewrite D in E; discriminate).
  assert (Hl : forall u, In u (Client.location g) -> download_link u)
    by (intros u E; rewrite L in E; destruct E).
  clear D L. revert g Hd Hl.
  induction es as [|e es IH]; intros g Hd Hl; [exact Hl|].
  destruct (on_keeps_links e g) as [Hd' Hl']; try assumption.
  - intros d ->. apply He. left. reflexivity.
  - apply (IH (fun d H => He d (or_intror H)) (Client.on e g) Hd' Hl').
Qed.

Lemma page_visits_only_download_links_witness :
  download_link (lit "/download/converted-1700000000000.docx").
Proof.
  apply (page_visits_only_download_links
           [Client.Change [report_pdf]; Client.ConvertClick;
            Client.Fulfilled
              (Client.Data true
                 (Some (lit "/download/converted-1700000000000.docx")) None);
            Client.SecondPassed; Client.DownloadClick]
           (Client.Page None None [] true false true false false false []
              [] 0 0 [])).
  - repeat split.
  - intros d [H|[H|[H|[H|[H|[]]]]]]; try discriminate H.
    injection H as <-.
    exists [report_pdf], readable, StreamClose, idle, 200%N,
      (JsonSuccess (lit "PDF converted successfully")
         (lit "/download/converted-1700000000000.docx") (lit "report.pdf")).
    split; vm_compute; reflexivity.
  - vm_compute. left. reflexivity.
Defined.

(** ** The server over time *)

Lemma receive_path stored : forall parts seen acc u f,
  receive stored seen acc parts = (u, Some f) ->
  acc = Some f \/ file_path f = Path uploadsDir stored.
Proof.
  induction parts as [|p parts IH]; intros seen acc u f H; cbn [receive] in H.
  - injection H as _ ->. left. reflexivity.
  - destruct (Nat.leb files seen); [discriminate|].
    destruct (fileFilter p); [discriminate|].
    destruct (N.ltb fileSize (size p)); [discriminate|].
    destruct (IH _ _ _ _ H) as [E|E]; [|right; exact E].
    injection E as <-. right. reflexivity.
Qed.

Lemma upload_single_path stored parts u f :
  upload_single stored parts = (u, Some f) ->
  file_path f = Path uploadsDir stored.
Proof.
  intros H. destruct (receive_path _ _ _ _ _ _ H) as [E|E];
    [discriminate|exact E].
Qed.

(** What the callback of the upload leaves as it was. *)
Lemma convert_callback_frame u f env w :
  let w' := snd (convert_callback u f env w) in
  isShuttingDown w' = isShuttingDown w /\ disk w' = disk w /\
  (timers w' = timers w \/
   exists fl, f = Some fl /\ timers w' = timers w ++ [Cleanup 1000 (file_path fl)]) /\
  (exists r, fst (convert_callback u f env w) = Normal r).
Proof.
  cbv zeta. run.
  destruct u as [e|]; simpl.
  - repeat split; eauto.
  - destruct f as [fl|]; simpl.
    + destruct (parse env) as [v|e]; simpl; repeat split; eauto.
    + repeat split; eauto.
Qed.

Lemma post_convert_frame parts env w :
  let r := post_convert parts env w in
  isShuttingDown (snd r) = isShuttingDown w /\
  (disk (snd r) = disk w \/
   disk (snd r) = Path uploadsDir (stored_as env) :: disk w) /\
  (timers (snd r) = timers w \/
   timers (snd r) =
   timers w ++ [Cleanup 1000 (Path uploadsDir (stored_as env))]) /\
  (exists q, fst r = Normal q).
Proof.
  cbv zeta. destruct (isShuttingDown w) eqn:Hw.
  - unfold post_convert, new_request, shutting_down_response, bind, get,
      modify, send, ret. cbn. rewrite Hw. cbn. repeat split; eauto.
  - rewrite (post_convert_running parts env w Hw).
    set (w0 := set_streamed None (set_sent None w)).
    destruct (upload_single (stored_as env) parts) as [u f] eqn:U.
    destruct f as [fl|].
    + pose proof (upload_single_path _ _ _ _ U) as Pf.
      assert (E : upload_and_convert parts env w0 =
                  convert_callback u (Some fl) env
                    (set_disk (file_path fl :: disk w0) w0))
        by (unfold upload_and_convert; rewrite U; reflexivity).
      rewrite E.
      destruct (convert_callback_frame u (Some fl) env
                  (set_disk (file_path fl :: disk w0) w0))
        as (F & D & T & R).
      cbv zeta in *. rewrite Pf in *. rewrite F, D.
      split; [exact Hw|]. split; [right; reflexivity|]. split; [|exact R].
      destruct T as [T|(fl' & E' & T)]; [left; exact T|].
      right. injection E' as <-. rewrite T, Pf. reflexivity.
    + assert (E : upload_and_convert parts env w0 =
                  convert_callback u None env w0)
        by (unfold upload_and_convert; rewrite U; reflexivity).
      rewrite E.
      destruct (convert_callback_frame u None env w0) as (F & D & T & R).
      cbv zeta in *. rewrite F, D.
      split; [exact Hw|]. split; [left; reflexivity|]. split; [|exact R].
      destruct T as [T|(fl' & E' & T)]; [left; exact T|discriminate].
Qed.

Lemma get_download_frame filename clock w :
  let r := get_download filename clock w in
  isShuttingDown (snd r) = isShuttingDown w /\ disk (snd r) = disk w /\
  timers (snd r) = timers w /\
  (exists q, fst r = Normal q /\
     forall d, q = Some d ->
       d = (Path outputDir filename, lit "document-" ++ decimal clock ++ lit ".docx")
       /\ test re_filename filename = true
       /\ existsSync w (Path outputDir filename) = true
       /\ isShuttingDown w = false).
Proof.
  cbv zeta.
  unfold get_download, bind, new_request, modify, get, shutting_down_response,
    send, ret. simpl.
  destruct (isShuttingDown w) eqn:Hw.
  { simpl. rewrite Hw. repeat split. eexists. split; [reflexivity|discriminate]. }
  destruct (test re_filename filename) eqn:Ht; simpl.
  - change (existsSync (set_streamed None (set_sent None w)) (Path outputDir filename))
      with (existsSync w (Path outputDir filename)).
    destruct (existsSync w (Path outputDir filename)) eqn:He; simpl;
      rewrite Hw; repeat split; (eexists; split; [reflexivity|]);
      [|discriminate].
    intros d E. injection E as <-. repeat split.
  - rewrite Hw. repeat split. eexists. split; [reflexivity|discriminate].
Qed.

Lemma app_unfold req sur w :
  app req sur w =
  (if static_serves (set_streamed None (set_sent None w)) req
   then send 200 IndexPage ;; ret Finished
   else
     match req_method req, req_target req with
     | GET, Health => get_health (info_now sur) ;; ret Finished
     | GET, Root => get_root ;; ret Finished
     | POST, Convert =>
         r <- post_convert (req_parts req) (conv sur) ;;
         ret (match r with Some d => AwaitWrite d | None => Finished end)
     | GET, Download filename =>
         r <- get_download filename (now (conv sur)) ;;
         ret (match r with Some d => AwaitDownload d | None => Finished end)
     | _, _ => not_found ;; ret Finished
     end) (set_streamed None (set_sent None w)).
Proof. reflexivity. Qed.

(** A request changes neither the flag nor what is on disk, but for the
    upload it stores; it arms at most the timer of that upload; and the
    download it starts is of a file of the output directory whose name
    passed the check. *)
Lemma app_frame req sur w :
  let r := app req sur w in
  isShuttingDown (snd r) = isShuttingDown w /\
  (disk (snd r) = disk w \/
   disk (snd r) = Path uploadsDir (stored_as (conv sur)) :: disk w) /\
  (timers (snd r) = timers w \/
   timers (snd r) =
   timers w ++ [Cleanup 1000 (Path uploadsDir (stored_as (conv sur)))]) /\
  (exists q, fst r = Normal q /\
     forall d, q = AwaitDownload d -> download_ok d = true).
Proof.
  cbv zeta. rewrite app_unfold.
  set (w0 := set_streamed None (set_sent None w)).
  assert (F0 : isShuttingDown w0 = isShuttingDown w) by reflexivity.
  assert (D0 : disk w0 = disk w) by reflexivity.
  assert (T0 : timers w0 = timers w) by reflexivity.
  destruct (static_serves w0 req).
  { cbn. repeat split; auto. eexists. split; [reflexivity|discriminate]. }
  assert (Plain : forall m : M unit,
            (forall v, isShuttingDown (snd (m v)) = isShuttingDown v /\
                       disk (snd (m v)) = disk v /\
                       timers (snd (m v)) = timers v /\
                       fst (m v) = Normal tt) ->
            let r := (m ;; ret Finished) w0 in
            isShuttingDown (snd r) = isShuttingDown w /\
            (disk (snd r) = disk w \/
             disk (snd r) = Path uploadsDir (stored_as (conv sur)) :: disk w) /\
            (timers (snd r) = timers w \/
             timers (snd r) =
             timers w ++ [Cleanup 1000 (Path uploadsDir (stored_as (conv sur)))]) /\
            (exists q, fst r = Normal q /\
               forall d, q = AwaitDownload d -> download_ok d = true)).
  { intros m Hm. cbv zeta. unfold bind, ret.
    destruct (Hm w0) as (A & B & C & D).
    destruct (m w0) as [o v]. cbn [fst snd] in *. subst o. cbn [fst snd].
    rewrite A, B, C. repeat split; auto.
    eexists. split; [reflexivity|discriminate]. }
  assert (NF : forall v, isShuttingDown (snd (not_found v)) = isShuttingDown v /\
                 disk (snd (not_found v)) = disk v /\
                 timers (snd (not_found v)) = timers v /\
                 fst (not_found v) = Normal tt)
    by (intros v; repeat split).
  destruct (req_method req), (req_target req) as [| | |filename|];
    try (apply (Plain not_found NF)).
  - apply Plain. intros v. unfold get_root, bind, get, shutting_down_response,
      error_middleware, send, log_error, modify, ret. cbn.
    destruct (isShuttingDown v) eqn:E; [cbn; rewrite E; repeat split|].
    destruct (public_index v); cbn; rewrite E; repeat split.
  - unfold bind, ret.
    destruct (get_download_frame filename (now (conv sur)) w0)
      as (A & B & C & q & Q & K).
    destruct (get_download filename (now (conv sur)) w0) as [o v].
    cbn [fst snd] in *. subst o. cbn [fst snd]. rewrite A, B, C.
    repeat split; auto.
    eexists. split; [reflexivity|]. intros d E.
    destruct q as [d'|]; [|discriminate]. injection E as <-.
    destruct (K d' eq_refl) as (-> & Ht & _). unfold download_ok. cbn.
    exact Ht.
  - unfold bind, ret.
    destruct (post_convert_frame (req_parts req) (conv sur) w0)
      as (A & B & C & q & Q).
    destruct (post_convert (req_parts req) (conv sur) w0) as [o v].
    cbn [fst snd] in *. subst o. cbn [fst snd]. rewrite A.
    repeat split; auto.
    eexists. split; [reflexivity|]. intros d E.
    destruct q; discriminate.
Qed.

Lemma output_event_frame ev d w :
  let w' := as_listener (output_event ev d) w in
  disk w' = disk w /\
  match ev with
  | StreamClose => isShuttingDown w' = isShuttingDown w /\ timers w' = timers w
  | StreamError _ =>
      isShuttingDown w' = true /\ timers w' = timers w ++ [ForceExit 10000]
  end.
Proof. destruct ev; repeat split. Qed.

Lemma download_callback_frame d err headersSent w :
  let w' := as_listener (download_callback d err headersSent) w in
  isShuttingDown w' = isShuttingDown w /\ disk w' = disk w /\
  timers w' = timers w ++ match err with
                          | Some _ => []
                          | None => [Cleanup 120000 (fst d)]
                          end.
Proof.
  destruct err as [e|]; [|repeat split].
  destruct headersSent; cbn; rewrite app_nil_r; repeat split.
Qed.

Lemma fire_frame io t w :
  let w' := as_listener (fire io t) w in
  isShuttingDown w' = isShuttingDown w /\ timers w' = timers w /\
  (disk w' = disk w \/
   exists ms p, t = Cleanup ms p /\
     disk w' = filter (fun q => negb (path_eqb p q)) (disk w)).
Proof.
  cbv zeta. unfold as_listener. pose proof (fire_returns io t w) as R.
  destruct (fire io t w) as [o w'] eqn:E. cbn [fst] in R. subst o.
  assert (E' : w' = snd (fire io t w)) by (rewrite E; reflexivity).
  destruct t as [ms p|ms]; [|cbn in E'; subst w'; repeat split; left; reflexivity].
  cbn [fire] in E'. rewrite safeFileCleanup_effect in E'. subst w'.
  destruct (existsSync w p); [|repeat split; left; reflexivity].
  destruct (io p); [repeat split; left; reflexivity|].
  repeat split. right. eexists _, _. split; reflexivity.
Qed.

Lemma gracefulShutdown_frame name w :
  let w' := as_listener (gracefulShutdown name) w in
  isShuttingDown w' = true /\ disk w' = disk w /\
  timers w' = timers w ++ [ForceExit 10000].
Proof. repeat split. Qed.

Lemma forallb_remove_nth {A} (p : A -> bool) n l :
  forallb p l = true -> forallb p (remove_nth n l) = true.
Proof.
  intros H. unfold remove_nth. rewrite forallb_app.
  rewrite <- (firstn_skipn n l) in H. rewrite forallb_app in H.
  apply andb_true_iff in H. destruct H as [H1 H2]. rewrite H1.
  destruct (skipn n l) as [|x r] eqn:E.
  - replace (skipn (S n) l) with (@nil A); [reflexivity|].
    symmetry. apply skipn_all2. apply (f_equal (@length A)) in E.
    rewrite length_skipn in E. simpl in E. lia.
  - replace (skipn (S n) l) with r.
    + simpl in H2. apply andb_true_iff in H2. apply H2.
    + change (S n) with (1 + n). rewrite <- skipn_skipn, E. reflexivity.
Qed.

Lemma forallb_nth_error {A} (p : A -> bool) l n x :
  forallb p l = true -> nth_error l n = Some x -> p x = true.
Proof.
  intros H E. apply nth_error_In in E. rewrite forallb_forall in H. auto.
Qed.

Lemma forallb_snoc {A} (p : A -> bool) l x :
  forallb p (l ++ [x]) = forallb p l && p x.
Proof. rewrite forallb_app. simpl. rewrite andb_true_r. reflexivity. Qed.

(** The flag, once raised, stays raised. *)
Lemma step_flag h s :
  isShuttingDown (st s) = true -> isShuttingDown (st (step h s)) = true.
Proof.
  intros H. unfold step. destruct (exited s); [exact H|].
  destruct h as [req sur|n ev|n err hs|n io|name|].
  - destruct (app_frame req sur (st s)) as (F & _ & _ & q & Q & _).
    destruct (app req sur (st s)) as [o w]. cbn [fst snd] in *. subst o.
    destruct q; cbn [st]; congruence.
  - destruct (nth_error (writes s) n) as [d|]; [|exact H]. cbn [st].
    destruct (output_event_frame ev d (created ev d (st s))) as (_ & F).
    destruct ev; destruct F as [F _]; [|exact F].
    cbv zeta in F. rewrite F. exact H.
  - destruct (nth_error (downloads s) n) as [d|]; [|exact H]. cbn [st].
    destruct (download_callback_frame d err hs (st s)) as (F & _).
    cbv zeta in F. rewrite F. exact H.
  - destruct (nth_error (timers (st s)) n) as [t|]; [|exact H].
    cbv zeta. destruct t as [ms p|ms]; cbn [st].
    + destruct (fire_frame io (Cleanup ms p)
                  (set_timers (remove_nth n (timers (st s))) (st s)))
        as (F & _).
      cbv zeta in F. rewrite F. exact H.
    + exact H.
  - reflexivity.
  - rewrite H. exact H.
Qed.

Lemma run_flag : forall hs s,
  isShuttingDown (st s) = true ->
  isShuttingDown (st (run_server hs s)) = true.
Proof.
  induction hs as [|h hs IH]; intros s H; [exact H|].
  apply (IH (step h s)), step_flag, H.
Qed.

(** The timers and the downloads stay those the code starts. *)
Lemma step_sound h s : sound s = true -> sound (step h s) = true.
Proof.
  unfold sound. intros H. apply andb_true_iff in H. destruct H as [T D].
  unfold step. destruct (exited s); [rewrite T, D; reflexivity|].
  destruct h as [req sur|n ev|n err hs|n io|name|].
  - destruct (app_frame req sur (st s)) as (_ & _ & Tm & q & Q & K).
    destruct (app req sur (st s)) as [o w]. cbn [fst snd] in *. subst o.
    assert (T' : forallb timer_ok (timers w) = true).
    { destruct Tm as [->| ->]; [exact T|].
      rewrite forallb_snoc, T. reflexivity. }
    destruct q as [|d|d]; cbn [st downloads]; rewrite T'; cbn [andb];
      [exact D|exact D|].
    rewrite forallb_snoc, D, (K d eq_refl). reflexivity.
  - destruct (nth_error (writes s) n) as [d|]; [|rewrite T, D; reflexivity].
    cbn [st downloads]. rewrite D, andb_true_r.
    destruct (output_event_frame ev d (created ev d (st s))) as (_ & F).
    destruct ev; destruct F as [_ F]; cbv zeta in F; cbn [created] in F |- *;
      rewrite F.
    + exact T.
    + rewrite forallb_snoc, T. reflexivity.
  - destruct (nth_error (downloads s) n) as [d|] eqn:E;
      [|rewrite T, D; reflexivity].
    cbn [st downloads]. rewrite (forallb_remove_nth _ n _ D), andb_true_r.
    destruct (download_callback_frame d err hs (st s)) as (_ & _ & F).
    cbv zeta in F. rewrite F. destruct err; [rewrite app_nil_r; exact T|].
    rewrite forallb_snoc, T. cbn [andb].
    pose proof (forallb_nth_error _ _ _ _ D E) as Hd.
    unfold download_ok in Hd. apply andb_true_iff in Hd. destruct Hd as [H1 H2].
    cbn [timer_ok]. rewrite H1, H2. reflexivity.
  - destruct (nth_error (timers (st s)) n) as [t|];
      [|rewrite T, D; reflexivity].
    cbv zeta. destruct t as [ms p|ms]; cbn [st downloads];
      rewrite D, andb_true_r.
    + destruct (fire_frame io (Cleanup ms p)
                  (set_timers (remove_nth n (timers (st s))) (st s)))
        as (_ & F & _).
      cbv zeta in F. rewrite F. apply forallb_remove_nth, T.
    + apply forallb_remove_nth, T.
  - cbn [st downloads]. rewrite D, andb_true_r.
    destruct (gracefulShutdown_frame name (st s)) as (_ & _ & F).
    cbv zeta in F. rewrite F, forallb_snoc, T. reflexivity.
  - destruct (isShuttingDown (st s)); cbn [st downloads]; rewrite D, andb_true_r;
      exact T.
Qed.

Lemma run_sound : forall hs s, sound s = true -> sound (run_server hs s) = true.
Proof.
  induction hs as [|h hs IH]; intros s H; [exact H|].
  apply (IH (step h s)), step_sound, H.
Qed.

Lemma path_eqb_eq p q : path_eqb p q = true -> p = q.
Proof.
  destruct p as [d1 b1], q as [d2 b2]. unfold path_eqb. cbn.
  intros H. apply andb_true_iff in H. destruct H as [Hd Hb].
  apply str_eqb_eq in Hb. subst b2.
  destruct d1, d2; try discriminate; reflexivity.
Qed.

(** A file leaves the disk only when the timer set on it fires. *)
Lemma step_disk h s p :
  In p (disk (st s)) -> ~ In p (disk (st (step h s))) ->
  exists n io ms,
    h = TimerFires n io /\ nth_error (timers (st s)) n = Some (Cleanup ms p).
Proof.
  intros Hin Hout. unfold step in Hout.
  destruct (exited s); [destruct (Hout Hin)|].
  destruct h as [req sur|n ev|n err hs|n io|name|].
  - exfalso. apply Hout.
    destruct (app_frame req sur (st s)) as (_ & Dk & _ & q & Q & _).
    destruct (app req sur (st s)) as [o w]. cbn [fst snd] in *. subst o.
    assert (In p (disk w))
      by (destruct Dk as [->| ->]; [exact Hin|right; exact Hin]).
    destruct q; exact H.
  - exfalso. apply Hout.
    destruct (nth_error (writes s) n) as [d|]; [|exact Hin]. cbn [st].
    destruct (output_event_frame ev d (created ev d (st s))) as (Dk & _).
    cbv zeta in Dk. rewrite Dk. destruct ev; [right; exact Hin|exact Hin].
  - exfalso. apply Hout.
    destruct (nth_error (downloads s) n) as [d|]; [|exact Hin]. cbn [st].
    destruct (download_callback_frame d err hs (st s)) as (_ & Dk & _).
    cbv zeta in Dk. rewrite Dk. exact Hin.
  - destruct (nth_error (timers (st s)) n) as [t|] eqn:E;
      [|destruct (Hout Hin)].
    cbv zeta in Hout. destruct t as [ms q|ms]; cbn [st] in Hout;
      [|destruct (Hout Hin)].
    destruct (fire_frame io (Cleanup ms q)
                (set_timers (remove_nth n (timers (st s))) (st s)))
      as (_ & _ & [Dk|(ms' & q' & Et & Dk)]); cbv zeta in Dk;
      rewrite Dk in Hout; [destruct (Hout Hin)|].
    injection Et as <- <-. exists n, io, ms. split; [reflexivity|].
    destruct (path_eqb q p) eqn:Q.
    + apply path_eqb_eq in Q. subst q. exact E.
    + exfalso. apply Hout. apply filter_In. split; [exact Hin|].
      rewrite Q. reflexivity.
  - exfalso. apply Hout. exact Hin.
  - exfalso. apply Hout. destruct (isShuttingDown (st s)); exact Hin.
Qed.

Lemma listening_sound w : sound (listening w) = true.
Proof. reflexivity. Qed.

(** X14.  On a server that started with no timer pending, whatever
    happens, every timer armed with [setTimeout] is one of three: the
    deletion of a file of the uploads directory after one second, the
    deletion of a converted document of the output directory after two
    minutes, or the forced exit after ten seconds.  These are the timers
    that delete a file or end the process; the limit of thirty seconds
    that lines 33-41 put on every response with [res.setTimeout] is a
    timeout of the socket and is not one of them. *)
Theorem armed_timers (hs : list happening) (w : state) (t : timer) :
  In t (timers (st (run_server hs (listening w)))) ->
  t = ForceExit 10000 \/
  (exists p, t = Cleanup 1000 p /\ dir_of p = uploadsDir) \/
  (exists p, t = Cleanup 120000 p /\ dir_of p = outputDir /\
             converted_name (base p)).
Proof.
  intros Hin. pose proof (run_sound hs _ (listening_sound w)) as S.
  unfold sound in S. apply andb_true_iff in S. destruct S as [T _].
  rewrite forallb_forall in T. specialize (T t Hin).
  destruct t as [ms p|ms]; cbn [timer_ok] in T.
  - right. apply orb_true_iff in T. destruct T as [T|T].
    + apply andb_true_iff in T. destruct T as [A B].
      apply N.eqb_eq in A. subst ms. left. exists p. split; [reflexivity|].
      destruct (dir_of p); [reflexivity|discriminate].
    + apply andb_true_iff in T. destruct T as [T C].
      apply andb_true_iff in T. destruct T as [A B].
      apply N.eqb_eq in A. subst ms. right. exists p.
      split; [reflexivity|]. split.
      * destruct (dir_of p); [discriminate|reflexivity].
      * apply test_filename_iff, C.
  - left. apply N.eqb_eq in T. subst ms. reflexivity.
Qed.

Lemma armed_timers_witness :
  Cleanup 1000 (Path uploadsDir (stored_as readable)) = ForceExit 10000 \/
  (exists p, Cleanup 1000 (Path uploadsDir (stored_as readable)) = Cleanup 1000 p
             /\ dir_of p = uploadsDir) \/
  (exists p, Cleanup 1000 (Path uploadsDir (stored_as readable))
             = Cleanup 120000 p /\
             dir_of p = outputDir /\ converted_name (base p)).
Proof.
  apply (armed_timers
           [Arrives (Request POST Convert [report_pdf])
              (Surroundings readable (ProcessInfo [] 0 0))]
           idle).
  vm_compute. left. reflexivity.
Defined.

(** X15.  On such a server, whatever happens, a file that disappears
    from the disk is a file of the uploads directory or a converted
    document of the output directory: nothing else is ever deleted. *)
Theorem only_own_files_deleted (hs : list happening) (w : state)
    (h : happening) (p : path) :
  let s := run_server hs (listening w) in
  In p (disk (st s)) -> ~ In p (disk (st (step h s))) ->
  dir_of p = uploadsDir \/
  (dir_of p = outputDir /\ converted_name (base p)).
Proof.
  cbv zeta. intros Hin Hout.
  destruct (step_disk h _ p Hin Hout) as (n & io & ms & _ & E).
  pose proof (run_sound hs _ (listening_sound w)) as S.
  unfold sound in S. apply andb_true_iff in S. destruct S as [T _].
  pose proof (forallb_nth_error _ _ _ _ T E) as K. cbn [timer_ok] in K.
  apply orb_true_iff in K. destruct K as [K|K].
  - apply andb_true_iff in K. destruct K as [_ K]. left.
    destruct (dir_of p); [reflexivity|discriminate].
  - apply andb_true_iff in K. destruct K as [K C].
    apply andb_true_iff in K. destruct K as [_ K]. right. split.
    + destruct (dir_of p); [discriminate|reflexivity].
    + apply test_filename_iff, C.
Qed.

Lemma only_own_files_deleted_witness :
  dir_of (Path uploadsDir (stored_as readable)) = uploadsDir \/
  (dir_of (Path uploadsDir (stored_as readable)) = outputDir /\
   converted_name (base (Path uploadsDir (stored_as readable)))).
Proof.
  apply (only_own_files_deleted
           [Arrives (Request POST Convert [report_pdf])
              (Surroundings readable (ProcessInfo [] 0 0))]
           idle (TimerFires 0 no_io_error)
           (Path uploadsDir (stored_as readable))).
  - vm_compute. left. reflexivity.
  - vm_compute. intros H. exact H.
Defined.

(** Behind the raised flag both routes answer at once. *)
Lemma app_closed req sur w :
  isShuttingDown w = true ->
  (exists parts, req = Request POST Convert parts) \/
  (exists filename parts, req = Request GET (Download filename) parts) ->
  app req sur w =
  (Normal Finished,
   set_sent (Some (Response 503 (JsonError (lit "Server is shutting down") None)))
     (set_streamed None (set_sent None w))).
Proof.
  intros H [(parts & ->)|(filename & parts & ->)]; rewrite app_unfold;
    unfold static_serves; cbn [req_method req_target req_parts].
  - unfold post_convert, bind, new_request, modify, get,
      shutting_down_response, send, ret. simpl. rewrite H. reflexivity.
  - unfold get_download, bind, new_request, modify, get,
      shutting_down_response, send, ret. simpl. rewrite H. reflexivity.
Qed.

(** X16.  Shutting down is final.  Once the flag is raised, whatever
    happens afterwards, as long as the process lives every request to
    POST /convert and to GET /download/:filename is answered 503 and
    touches neither the disk nor the timers, and starts no document and
    no download. *)
Theorem shutdown_is_final (hs : list happening) (s : server)
    (req : request) (sur : surroundings) :
  isShuttingDown (st s) = true ->
  (exists parts, req = Request POST Convert parts) \/
  (exists filename parts, req = Request GET (Download filename) parts) ->
  let s' := run_server hs s in
  exited s' = false ->
  let s'' := step (Arrives req sur) s' in
  sent (st s'') =
    Some (Response 503 (JsonError (lit "Server is shutting down") None)) /\
  isShuttingDown (st s'') = true /\
  disk (st s'') = disk (st s') /\ timers (st s'') = timers (st s') /\
  writes s'' = writes s' /\ downloads s'' = downloads s'.
Proof.
  intros H Hreq. cbv zeta. intros E.
  pose proof (run_flag hs s H) as F.
  unfold step. rewrite E, (app_closed req sur _ F Hreq).
  cbn [st writes downloads]. repeat split. exact F.
Qed.

Lemma shutdown_is_final_witness :
  sent (st (step (Arrives (Request POST Convert [report_pdf])
                    (Surroundings readable (ProcessInfo [] 0 0)))
              (run_server
                 [Signal (lit "SIGTERM");
                  Arrives (Request GET Health [])
                    (Surroundings readable (ProcessInfo [] 0 0))]
                 (Server closing [] [] false)))) =
  Some (Response 503 (JsonError (lit "Server is shutting down") None)).
Proof.
  refine (proj1 (shutdown_is_final
                   [Signal (lit "SIGTERM");
                    Arrives (Request GET Health [])
                      (Surroundings readable (ProcessInfo [] 0 0))]
                   (Server closing [] [] false)
                   (Request POST Convert [report_pdf])
                   (Surroundings readable (ProcessInfo [] 0 0))
                   eq_refl _ eq_refl)).
  left. exists [report_pdf]. reflexivity.
Defined.

(** ** From the upload to the end of the retention *)

Lemma nth_error_snoc {A} (l : list A) x : nth_error (l ++ [x]) (length l) = Some x.
Proof. rewrite nth_error_app2, Nat.sub_diag; [reflexivity|lia]. Qed.

Lemma remove_nth_snoc {A} (l : list A) x : remove_nth (length l) (l ++ [x]) = l.
Proof.
  unfold remove_nth. rewrite firstn_app, Nat.sub_diag, firstn_all.
  rewrite skipn_all2; [|rewrite length_app; simpl; lia].
  simpl. rewrite !app_nil_r. reflexivity.
Qed.

(** An accepted upload starts a document. *)
Lemma step_convert s p sur :
  exited s = false -> isShuttingDown (st s) = false ->
  mimetype p = pdf_type -> (size p <= fileSize)%N ->
  exists text w1,
    step (Arrives (Request POST Convert [p]) sur) s =
    Server w1
      (writes s ++ [Writing (lit "converted-" ++ decimal (now (conv sur))
                               ++ lit ".docx") (originalname p) text])
      (downloads s) false /\
    isShuttingDown w1 = false /\
    disk w1 = Path uploadsDir (stored_as (conv sur)) :: disk (st s) /\
    timers w1 =
    timers (st s) ++ [Cleanup 1000 (Path uploadsDir (stored_as (conv sur)))].
Proof.
  intros E F Hm Hs. unfold step. rewrite E, app_unfold.
  unfold static_serves. cbn [req_method req_target req_parts].
  set (w0 := set_streamed None (set_sent None (st s))).
  assert (F0 : isShuttingDown w0 = false) by exact F.
  unfold bind at 1. rewrite (post_convert_running [p] (conv sur) w0 F0).
  rewrite (upload_and_convert_accepted p (conv sur) _ Hm Hs).
  set (w1 := set_disk _ _).
  destruct (callback_accepts (File p (Path uploadsDir (stored_as (conv sur))))
              (conv sur) w1) as ((t & Er & _) & _ & _ & T & _).
  destruct (convert_callback_frame None
              (Some (File p (Path uploadsDir (stored_as (conv sur)))))
              (conv sur) w1) as (Fl & D & _).
  cbv zeta in *.
  destruct (convert_callback _ _ _ w1) as [o v]. cbn [fst snd] in *. subst o.
  cbn [ret]. exists t, v. split; [reflexivity|].
  split; [rewrite Fl; exact F|]. split; [rewrite D; reflexivity|].
  rewrite T. reflexivity.
Qed.

(** A download of a document on disk starts. *)
Lemma step_download s name sur :
  exited s = false -> isShuttingDown (st s) = false ->
  test re_filename name = true ->
  existsSync (st s) (Path outputDir name) = true ->
  let d := (Path outputDir name,
            lit "document-" ++ decimal (now (conv sur)) ++ lit ".docx") in
  step (Arrives (Request GET (Download name) []) sur) s =
  Server (set_streamed (Some d) (set_streamed None (set_sent None (st s))))
         (writes s) (downloads s ++ [d]) false.
Proof.
  intros E F T X. cbv zeta. unfold step. rewrite E, app_unfold.
  unfold static_serves. cbn [req_method req_target req_parts].
  unfold get_download, bind, new_request, modify, get, shutting_down_response,
    send, ret. simpl. rewrite F, T. simpl.
  change (existsSync
            (set_streamed None
               (set_sent None (set_streamed None (set_sent None (st s)))))
            (Path outputDir name))
    with (existsSync (st s) (Path outputDir name)).
  rewrite X. reflexivity.
Qed.

(** A request for a document that is not on disk. *)
Lemma step_download_absent s name sur :
  exited s = false -> isShuttingDown (st s) = false ->
  test re_filename name = true ->
  existsSync (st s) (Path outputDir name) = false ->
  sent (st (step (Arrives (Request GET (Download name) []) sur) s)) =
  Some (Response 404 (JsonError (lit "File not found or expired") None)).
Proof.
  intros E F T X. unfold step. rewrite E, app_unfold.
  unfold static_serves. cbn [req_method req_target req_parts].
  unfold get_download, bind, new_request, modify, get, shutting_down_response,
    send, ret. simpl. rewrite F, T. simpl.
  change (existsSync
            (set_streamed None
               (set_sent None (set_streamed None (set_sent None (st s)))))
            (Path outputDir name))
    with (existsSync (st s) (Path outputDir name)).
  rewrite X. reflexivity.
Qed.

(** X17.  The life of a converted document, on a server that is not
    shutting down: an accepted PDF is converted and answered with its
    link; a request for that link streams the document; the end of the
    download arms the two-minute timer; when that timer fires and the
    deletion succeeds, the same link is answered 404. *)
Theorem converted_document_lifecycle (s : server) (p : part)
    (sur sur' : surroundings) (io : path -> option error) :
  let name := lit "converted-" ++ decimal (now (conv sur)) ++ lit ".docx" in
  let out := Path outputDir name in
  exited s = false -> isShuttingDown (st s) = false ->
  mimetype p = pdf_type -> (size p <= fileSize)%N -> io out = None ->
  let s1 := step (Arrives (Request POST Convert [p]) sur) s in
  let s2 := step (WriteEnds (length (writes s)) StreamClose) s1 in
  let s3 := step (Arrives (Request GET (Download name) []) sur') s2 in
  let s4 := step (DownloadEnds (length (downloads s)) None true) s3 in
  let s5 := step (TimerFires (S (length (timers (st s)))) io) s4 in
  let s6 := step (Arrives (Request GET (Download name) []) sur') s5 in
  sent (st s2) =
    Some (Response 200
            (JsonSuccess (lit "PDF converted successfully")
               (lit "/download/" ++ name) (originalname p))) /\
  streamed (st s3) =
    Some (out, lit "document-" ++ decimal (now (conv sur')) ++ lit ".docx") /\
  timers (st s4) =
    timers (st s) ++ [Cleanup 1000 (Path uploadsDir (stored_as (conv sur)));
                      Cleanup 120000 out] /\
  existsSync (st s5) out = false /\
  sent (st s6) =
    Some (Response 404 (JsonError (lit "File not found or expired") None)).
Proof.
  cbv zeta. intros E F Hm Hs Hio.
  destruct (step_convert s p sur E F Hm Hs) as (t & w1 & -> & F1 & D1 & T1).
  set (name := lit "converted-" ++ decimal (now (conv sur)) ++ lit ".docx") in *.
  set (out := Path outputDir name) in *.
  set (d := Writing name (originalname p) t).
  (* the document is written *)
  assert (E2 : step (WriteEnds (length (writes s)) StreamClose)
                 (Server w1 (writes s ++ [d]) (downloads s) false) =
               Server (as_listener (output_event StreamClose d)
                         (created StreamClose d w1))
                      (writes s) (downloads s) false).
  { unfold step. cbn [exited writes downloads st].
    rewrite nth_error_snoc, remove_nth_snoc. reflexivity. }
  rewrite E2. clear E2.
  set (w2 := as_listener (output_event StreamClose d) (created StreamClose d w1)).
  assert (S2 : sent w2 =
               Some (Response 200
                       (JsonSuccess (lit "PDF converted successfully")
                          (lit "/download/" ++ name) (originalname p))))
    by reflexivity.
  assert (F2 : isShuttingDown w2 = false) by exact F1.
  assert (D2 : disk w2 = out :: disk w1) by reflexivity.
  assert (T2 : timers w2 = timers w1) by reflexivity.
  split; [exact S2|].
  (* the download starts *)
  assert (X2 : existsSync w2 out = true).
  { unfold existsSync. rewrite D2. cbn [existsb].
    rewrite path_eqb_refl. reflexivity. }
  rewrite (step_download (Server w2 (writes s) (downloads s) false) name sur'
             eq_refl F2 (generated_name_accepted _) X2).
  cbv zeta. cbn [st writes downloads]. fold out.
  set (dl := (out, lit "document-" ++ decimal (now (conv sur')) ++ lit ".docx")).
  set (w3 := set_streamed (Some dl) _).
  split; [reflexivity|].
  (* the download ends *)
  assert (E4 : step (DownloadEnds (length (downloads s)) None true)
                 (Server w3 (writes s) (downloads s ++ [dl]) false) =
               Server (as_listener (download_callback dl None true) w3)
                      (writes s) (downloads s) false).
  { unfold step. cbn [exited writes downloads st].
    rewrite nth_error_snoc, remove_nth_snoc. reflexivity. }
  rewrite E4. clear E4.
  set (w4 := as_listener (download_callback dl None true) w3).
  assert (T4 : timers w4 =
               timers (st s) ++
               [Cleanup 1000 (Path uploadsDir (stored_as (conv sur)));
                Cleanup 120000 out]).
  { change (timers w4) with (timers w1 ++ [Cleanup 120000 out]).
    rewrite T1, <- app_assoc. reflexivity. }
  assert (F4 : isShuttingDown w4 = false) by exact F1.
  assert (D4 : disk w4 = out :: disk w1) by reflexivity.
  split; [exact T4|].
  (* the timer fires *)
  assert (N4 : nth_error (timers w4) (S (length (timers (st s)))) =
               Some (Cleanup 120000 out)).
  { rewrite T4, nth_error_app2 by lia.
    replace (S (length (timers (st s))) - length (timers (st s))) with 1 by lia.
    reflexivity. }
  set (w4' := set_timers (remove_nth (S (length (timers (st s)))) (timers w4)) w4).
  assert (E5 : step (TimerFires (S (length (timers (st s)))) io)
                 (Server w4 (writes s) (downloads s) false) =
               Server (snd (safeFileCleanup io (Some out) w4'))
                      (writes s) (downloads s) false).
  { unfold step. cbn [exited writes downloads st]. rewrite N4. cbv zeta.
    fold w4'. unfold as_listener. cbn [fire].
    pose proof (safeFileCleanup_returns io (Some out) w4') as R.
    destruct (safeFileCleanup io (Some out) w4') as [o v].
    cbn [fst snd] in *. subst o. reflexivity. }
  rewrite E5. clear E5.
  set (w5 := snd (safeFileCleanup io (Some out) w4')).
  assert (X5 : existsSync w5 out = false) by (apply cleanup_removes, Hio).
  assert (F5 : isShuttingDown w5 = false).
  { unfold w5. rewrite safeFileCleanup_effect.
    destruct (existsSync w4' out); [|exact F1]. rewrite Hio. exact F1. }
  split; [exact X5|].
  apply (step_download_absent (Server w5 (writes s) (downloads s) false) name
           sur' eq_refl F5 (generated_name_accepted _) X5).
Qed.

Lemma converted_document_lifecycle_witness :
  let sur := Surroundings readable (ProcessInfo [] 0 0) in
  let s := Server idle [] [] false in
  let name := lit "converted-" ++ decimal (now readable) ++ lit ".docx" in
  let s1 := step (Arrives (Request POST Convert [report_pdf]) sur) s in
  let s2 := step (WriteEnds 0 StreamClose) s1 in
  let s3 := step (Arrives (Request GET (Download name) []) sur) s2 in
  let s4 := step (DownloadEnds 0 None true) s3 in
  let s5 := step (TimerFires 1 no_io_error) s4 in
  let s6 := step (Arrives (Request GET (Download name) []) sur) s5 in
  sent (st s6) =
  Some (Response 404 (JsonError (lit "File not found or expired") None)).
Proof.
  refine (proj2 (proj2 (proj2 (proj2
            (converted_document_lifecycle (Server idle [] [] false) report_pdf
               (Surroundings readable (ProcessInfo [] 0 0))
               (Surroundings readable (ProcessInfo [] 0 0))
               no_io_error eq_refl eq_refl eq_refl _ eq_refl))))).
  vm_compute. discriminate.
Defined.

(** ** The words of a refusal *)







Lemma get_download_answer filename clock w :
  match fst (get_download filename clock w) with
  | Normal (Some d) =>
      sent (snd (get_download filename clock w)) = None /\
      streamed (snd (get_download filename clock w)) = Some d
  | Normal None => sent (snd (get_download filename clock w)) <> None
  | Thrown _ => False
  end.
Proof.
  unfold get_download, bind, new_request, modify, get, shutting_down_response,
    send, ret. simpl.
  destruct (isShuttingDown w); [discriminate|].
  destruct (test re_filename filename); simpl; [|discriminate].
  change (existsSync (set_streamed None (set_sent None w)) (Path outputDir filename))
    with (existsSync w (Path outputDir filename)).
  destruct (existsSync w (Path outputDir filename)); simpl;
    [split; reflexivity|discriminate].
Qed.

(** X19.  No request is left without an answer by its handler, except
    the two that wait for a stream: when the application is done with a
    request a response has been sent; otherwise a document is being
    written and nothing is sent yet, or a download has been started. *)
Theorem every_request_answered (req : request) (sur : surroundings)
    (w : state) :
  match fst (app req sur w) with
  | Normal Finished => sent (snd (app req sur w)) <> None
  | Normal (AwaitWrite d) =>
      req_method req = POST /\ req_target req = Convert /\
      sent (snd (app req sur w)) = None
  | Normal (AwaitDownload d) =>
      sent (snd (app req sur w)) = None /\
      streamed (snd (app req sur w)) = Some d
  | Thrown _ => False
  end.
Proof.
  rewrite app_unfold. set (w0 := set_streamed None (set_sent None w)).
  destruct (static_serves w0 req); [discriminate|].
  assert (NF : match fst ((not_found ;; ret Finished) w0) with
               | Normal Finished =>
                   sent (snd ((not_found ;; ret Finished) w0)) <> None
               | _ => False
               end) by discriminate.
  destruct (req_method req) eqn:Em, (req_target req) as [| | |filename|] eqn:Et;
    try exact NF.
  - clear NF. run.
    destruct (isShuttingDown w); [discriminate|].
    destruct (public_index w); discriminate.
  - discriminate.
  - pose proof (get_download_answer filename (now (conv sur)) w0) as G.
    unfold bind, ret.
    destruct (get_download filename (now (conv sur)) w0) as [[[d|]|e] v];
      cbn [fst snd] in *; exact G.
  - unfold bind, ret.
    destruct (isShuttingDown w0) eqn:Hw.
    + destruct (post_convert_closing (req_parts req) (conv sur) w0 Hw)
        as (F & _ & S).
      destruct (post_convert (req_parts req) (conv sur) w0) as [o v].
      cbn [fst snd] in *. subst o. cbn [fst snd]. rewrite S. discriminate.
    + rewrite (post_convert_running (req_parts req) (conv sur) w0 Hw).
      set (w1 := set_streamed None (set_sent None w0)).
      destruct (accepted_or_refused (stored_as (conv sur)) (req_parts req))
        as [(p & -> & Hm & Hs)|(R & _)].
      * rewrite (upload_and_convert_accepted p (conv sur) w1 Hm Hs).
        destruct (callback_accepts
                    (File p (Path uploadsDir (stored_as (conv sur))))
                    (conv sur)
                    (set_disk (Path uploadsDir (stored_as (conv sur)) :: disk w1) w1))
          as ((t & E & _) & S & _).
        destruct (convert_callback _ _ _ _) as [o v]. cbn [fst snd] in *.
        subst o. cbn [fst snd]. repeat split. exact S.
      * destruct (upload_and_convert_refused (req_parts req) (conv sur) w1 R)
          as (F & (b & S) & _).
        destruct (upload_and_convert (req_parts req) (conv sur) w1) as [o v].
        cbn [fst snd] in *. subst o. cbn [fst snd]. rewrite S. discriminate.
Qed.

Lemma step_cleanup s n io ms p :
  exited s = false ->
  nth_error (timers (st s)) n = Some (Cleanup ms p) ->
  step (TimerFires n io) s =
  Server (snd (safeFileCleanup io (Some p)
                 (set_timers (remove_nth n (timers (st s))) (st s))))
         (writes s) (downloads s) false.
Proof.
  intros E N. unfold step. rewrite E, N. cbv zeta. unfold as_listener.
  cbn [fire].
  pose proof (safeFileCleanup_returns io (Some p)
                (set_timers (remove_nth n (timers (st s))) (st s))) as R.
  destruct (safeFileCleanup io (Some p) _) as [o v].
  cbn [fst snd] in *. subst o. reflexivity.
Qed.

(** X20.  A deletion that fails is not tried again.  When the timer of a
    document fires and [unlinkSync] throws, the failure is logged, the
    timer is gone, the document stays on disk, and its link goes on
    streaming it. *)
Theorem failed_deletion_keeps_document (s : server) (name : jstring)
    (n : nat) (ms : N) (io : path -> option error) (e : error)
    (sur : surroundings) :
  let out := Path outputDir name in
  exited s = false -> isShuttingDown (st s) = false ->
  test re_filename name = true ->
  nth_error (timers (st s)) n = Some (Cleanup ms out) ->
  existsSync (st s) out = true -> io out = Some e ->
  let s1 := step (TimerFires n io) s in
  timers (st s1) = remove_nth n (timers (st s)) /\
  In (LogError [lit "Cleanup failed:"; message e]) (console (st s1)) /\
  disk (st s1) = disk (st s) /\
  streamed (st (step (Arrives (Request GET (Download name) []) sur) s1)) =
  Some (out, lit "document-" ++ decimal (now (conv sur)) ++ lit ".docx").
Proof.
  cbv zeta. intros E F T N X Hio.
  rewrite (step_cleanup s n io ms _ E N).
  set (w := set_timers (remove_nth n (timers (st s))) (st s)).
  assert (Xw : existsSync w (Path outputDir name) = true) by exact X.
  rewrite (safeFileCleanup_failure io _ e w Xw Hio). cbn [st].
  split; [reflexivity|]. split.
  - cbn. apply in_or_app. right. left. reflexivity.
  - split; [reflexivity|].
    set (s1 := Server _ _ _ false).
    assert (E1 : exited s1 = false) by reflexivity.
    assert (F1 : isShuttingDown (st s1) = false) by exact F.
    assert (X1 : existsSync (st s1) (Path outputDir name) = true) by exact X.
    rewrite (step_download s1 name sur E1 F1 T X1). reflexivity.
Qed.

Lemma failed_deletion_keeps_document_witness :
  let name := lit "converted-1700000000000.docx" in
  let s := Server (State false None true [Path outputDir name]
                     [Cleanup 120000 (Path outputDir name)] [] None None None)
                  [] [] false in
  disk (st (step (TimerFires 0 (fun _ => Some disk_full)) s)) =
  [Path outputDir name].
Proof.
  refine (proj1 (proj2 (proj2
            (failed_deletion_keeps_document
               (Server (State false None true
                          [Path outputDir (lit "converted-1700000000000.docx")]
                          [Cleanup 120000
                             (Path outputDir (lit "converted-1700000000000.docx"))]
                          [] None None None) [] [] false)
               (lit "converted-1700000000000.docx") 0 120000
               (fun _ => Some disk_full) disk_full
               (Surroundings readable (ProcessInfo [] 0 0))
               eq_refl eq_refl _ eq_refl eq_refl eq_refl)))).
  vm_compute. reflexivity.
Defined.

(** X21.  The life of the temporary upload, on a server that is not
    shutting down: an accepted PDF is on disk when its handler returns,
    with the one-second timer armed last; when that timer fires and the
    deletion succeeds the upload is gone and the timers are those of
    before, whether or not the document has been written by then. *)
Theorem upload_lifecycle (s : server) (p : part) (sur : surroundings)
    (io : path -> option error) :
  let temp := Path uploadsDir (stored_as (conv sur)) in
  exited s = false -> isShuttingDown (st s) = false ->
  mimetype p = pdf_type -> (size p <= fileSize)%N -> io temp = None ->
  let s1 := step (Arrives (Request POST Convert [p]) sur) s in
  let s2 := step (TimerFires (length (timers (st s))) io) s1 in
  existsSync (st s1) temp = true /\
  timers (st s1) = timers (st s) ++ [Cleanup 1000 temp] /\
  existsSync (st s2) temp = false /\
  timers (st s2) = timers (st s) /\
  writes s2 = writes s1.
Proof.
  cbv zeta. intros E F Hm Hs Hio.
  destruct (step_convert s p sur E F Hm Hs) as (t & w1 & -> & F1 & D1 & T1).
  cbn [st]. split.
  - unfold existsSync. rewrite D1. cbn [existsb].
    rewrite path_eqb_refl. reflexivity.
  - split; [exact T1|].
    assert (N1 : nth_error (timers w1) (length (timers (st s))) =
                 Some (Cleanup 1000 (Path uploadsDir (stored_as (conv sur)))))
      by (rewrite T1; apply nth_error_snoc).
    set (s1 := Server w1 _ _ false).
    rewrite (step_cleanup s1 _ io 1000 _ eq_refl N1). cbn [st writes s1].
    split; [apply cleanup_removes, Hio|]. split; [|reflexivity].
    rewrite safeFileCleanup_effect.
    assert (R : remove_nth (length (timers (st s))) (timers w1) = timers (st s))
      by (rewrite T1; apply remove_nth_snoc).
    destruct (existsSync _ _); [rewrite Hio|]; cbn; exact R.
Qed.

Lemma upload_lifecycle_witness :
  let sur := Surroundings unreadable (ProcessInfo [] 0 0) in
  let s1 := step (Arrives (Request POST Convert [report_pdf]) sur)
              (Server idle [] [] false) in
  existsSync (st (step (TimerFires 0 no_io_error) s1))
    (Path uploadsDir (stored_as unreadable)) = false.
Proof.
  refine (proj1 (proj2 (proj2
            (upload_lifecycle (Server idle [] [] false) report_pdf
               (Surroundings unreadable (ProcessInfo [] 0 0)) no_io_error
               eq_refl eq_refl eq_refl _ eq_refl)))).
  vm_compute. discriminate.
Defined.

Lemma digits_filter a digits :
  cls_d a = false -> forallb cls_d digits = true -> filter (chr a) digits = [].
Proof.
  intros Ha. induction digits as [|c r IH]; [reflexivity|].
  simpl. intros H. apply andb_true_iff in H. destruct H as [Hc H].
  destruct (chr a c) eqn:E; [|apply IH, H].
  apply chr_true in E. subst c. congruence.
Qed.

Lemma filter_nil_mem a s : filter (chr a) s = [] -> mem a s = false.
Proof.
  unfold mem. induction s as [|c r IH]; [reflexivity|].
  simpl. destruct (chr a c); [discriminate|exact IH].
Qed.

(** X22.  A file name the download route accepts holds no slash, no
    backslash and exactly one dot: joined to the output directory it names
    a file of that directory. *)
Theorem accepted_names_stay_inside (filename : jstring) :
  test re_filename filename = true ->
  mem SLASH filename = false /\ mem BACKSLASH filename = false /\
  filter (chr DOT) filename = [DOT].
Proof.
  intros H. apply test_filename_iff in H.
  destruct H as (digits & _ & D & ->).
  repeat split.
  - apply filter_nil_mem. rewrite !filter_app.
    rewrite (digits_filter SLASH digits eq_refl D). reflexivity.
  - apply filter_nil_mem. rewrite !filter_app.
    rewrite (digits_filter BACKSLASH digits eq_refl D). reflexivity.
  - rewrite !filter_app.
    rewrite (digits_filter DOT digits eq_refl D). reflexivity.
Qed.

Lemma accepted_names_stay_inside_witness :
  mem SLASH (lit "converted-42.docx") = false /\
  mem BACKSLASH (lit "converted-42.docx") = false /\
  filter (chr DOT) (lit "converted-42.docx") = [DOT].
Proof.
  apply (accepted_names_stay_inside (lit "converted-42.docx")).
  vm_compute. reflexivity.
Defined.
